(** * Lecture-Assistant: the research pipeline and its interrupt/resume protocol

    A shallow embedding of [backend/models.py], [backend/utils/logger.py],
    [backend/utils/validator.py], [backend/nodes.py], [backend/graph.py] and
    the session endpoints of [backend/main.py].

    Conventions of the embedding.
    - A Python [str] is a [string]; slices and lengths count bytes.
    - A Python value of unknown type (a JSON body field, a dict entry typed
      [Any]) is a [pyval].
    - A [dict] used as a map is a [gmap string _].
    - A step function [AgentState -> AgentState] that calls the outside world
      (clock, Tavily, the LLM, HTTP) is a computation in the monad [M]: it
      threads the state of the world and either returns or raises.
    - [ClaimWithSource] instances are mutable objects.  The run state keeps
      them in an object table ([objects]); [extracted_claims] and
      [verified_claims] hold references (indices) into it, so that an
      assignment to [claim_obj.verified] is seen through every list that
      holds the object. *)

From Stdlib Require Import ZArith Lia.
From stdpp Require Import base strings list gmap.

Open Scope string_scope.
Open Scope list_scope.

(** ** Python values and exceptions *)

Inductive pyval :=
| PNone
| PBool (b : bool)
| PInt (z : Z)
| PStr (s : string)
| PStrs (l : list string).

#[global] Instance pyval_eq_dec : EqDecision pyval.
Proof. solve_decision. Defined.

(** [v == s] for a string literal [s]. *)
Definition py_eq_str (v : pyval) (s : string) : bool :=
  match v with
  | PStr t => bool_decide (t = s)
  | _ => false
  end.

Inductive exn :=
| AttributeError
| IndexError
| TypeError
| ValueError
| LookupFailure      (* a reference that points to no object *)
| ExternalError.     (* anything raised by a client library *)

Inductive outcome (A : Type) :=
| Returned (a : A)
| Raised (e : exn).
Arguments Returned {A} a.
Arguments Raised {A} e.

(** ** String helpers *)

(** [str.isspace] on the ASCII range. *)
Definition is_py_space (a : Ascii.ascii) : bool :=
  let n := Ascii.nat_of_ascii a in
  ((9 <=? n) && (n <=? 13) || (28 <=? n) && (n <=? 32))%nat.

Fixpoint lstrip (s : string) : string :=
  match s with
  | EmptyString => EmptyString
  | String a s' => if is_py_space a then lstrip s' else s
  end.

Definition rstrip (s : string) : string := String.rev (lstrip (String.rev s)).

(** [s.strip()] *)
Definition strip (s : string) : string := rstrip (lstrip s).

(** [s[:n]] *)
Fixpoint str_take (n : nat) (s : string) : string :=
  match n, s with
  | S n', String a s' => String a (str_take n' s')
  | _, _ => EmptyString
  end.

(** [s[n:]] *)
Fixpoint str_drop (n : nat) (s : string) : string :=
  match n, s with
  | S n', String _ s' => str_drop n' s'
  | _, _ => s
  end.

Definition lower_ascii (a : Ascii.ascii) : Ascii.ascii :=
  let n := Ascii.nat_of_ascii a in
  if ((65 <=? n) && (n <=? 90))%nat then Ascii.ascii_of_nat (n + 32) else a.

Definition upper_ascii (a : Ascii.ascii) : Ascii.ascii :=
  let n := Ascii.nat_of_ascii a in
  if ((97 <=? n) && (n <=? 122))%nat then Ascii.ascii_of_nat (n - 32) else a.

Fixpoint str_map (f : Ascii.ascii → Ascii.ascii) (s : string) : string :=
  match s with
  | EmptyString => EmptyString
  | String a s' => String (f a) (str_map f s')
  end.

(** [s.lower()] and [s.upper()] *)
Definition lower : string → string := str_map lower_ascii.
Definition upper : string → string := str_map upper_ascii.

(** [needle in hay] *)
Fixpoint contains (needle hay : string) : bool :=
  String.prefix needle hay ||
  match hay with
  | EmptyString => false
  | String _ hay' => contains needle hay'
  end.

(** The text after the first occurrence of [sep], if there is one. *)
Fixpoint after_first (sep s : string) : option string :=
  if String.prefix sep s then Some (str_drop (String.length sep) s)
  else match s with
       | EmptyString => None
       | String _ s' => after_first sep s'
       end.

(** The text before the first occurrence of [sep] (all of [s] if none). *)
Fixpoint before_first (sep s : string) : string :=
  if String.prefix sep s then EmptyString
  else match s with
       | EmptyString => EmptyString
       | String a s' => String a (before_first sep s')
       end.

(** ["sep".join(l)] *)
Fixpoint join (sep : string) (l : list string) : string :=
  match l with
  | [] => ""
  | [x] => x
  | x :: l' => x +:+ sep +:+ join sep l'
  end.

(** ** Data model ([backend/models.py]) *)

Record ClaimWithSource := {
  claim : string;
  source_url : string;
  source_title : string;
  excerpt : string;
  verified : bool;
  verification_reasoning : string;
  accessed_date : string
}.

(** A reference to a [ClaimWithSource] object. *)
Abbreviation ref := nat.

(** One entry of [raw_search_results], as [search_node] builds it.  The
    relevance score Tavily reports is a float that no node reads; it is left
    out. *)
Record SearchResult := {
  url : option string;
  title : option string;
  snippet : string;
  raw_content : option string
}.

(** The dict [log_node_execution] returns. *)
Record LogEntry := {
  node : string;
  timestamp : string;
  inputs : list (string * pyval);
  prompt : option string;
  outputs : list (string * pyval);
  model_settings : list (string * pyval);
  human_decision : gmap string pyval + string
}.

Record KeyFinding := {
  finding : string;
  citation : string;
  source : string;
  finding_url : string;
  finding_excerpt : string
}.

Record Reading := {
  reading_title : string;
  reading_url : string;
  accessed : string
}.

Record Appendix := {
  node_trace : list string;
  research_date : string;
  sources_analyzed : nat;
  claims_extracted : nat;
  claims_verified : nat
}.

(** The [final_brief] dict.  The LLM-written sections are JSON objects the
    backend stores without looking inside. *)
Record Brief := {
  brief_title : string;
  introduction : string;
  summary : string;
  lecture_plan : list string;
  lecture_sections : list (list (string * pyval));
  key_findings : list KeyFinding;
  risks : list string;
  further_reading : list Reading;
  appendix : Appendix
}.

(** [AgentState].  Fields the code reads with [state[...]] are always there;
    [human_feedback] and [route_to], which the routers read with
    [state.get(..., default)], may be absent ([None]). *)
Record AgentState := {
  topic : string;
  search_queries : list string;
  raw_search_results : list SearchResult;
  extracted_claims : list ref;
  draft_plan : list string;
  human_feedback : option (gmap string pyval);
  refined_plan : list string;
  verified_claims : list ref;
  final_brief : option Brief;
  node_logs : list LogEntry;
  messages : list pyval;
  route_to : option pyval;
  refinement_notes : string;
  objects : list ClaimWithSource
}.

(** [state["field"] = v]: one setter per field the nodes assign. *)

Definition set_search_queries (v : list string) (st : AgentState) : AgentState :=
  {| topic := topic st;
     search_queries := v;
     raw_search_results := raw_search_results st;
     extracted_claims := extracted_claims st;
     draft_plan := draft_plan st;
     human_feedback := human_feedback st;
     refined_plan := refined_plan st;
     verified_claims := verified_claims st;
     final_brief := final_brief st;
     node_logs := node_logs st;
     messages := messages st;
     route_to := route_to st;
     refinement_notes := refinement_notes st;
     objects := objects st |}.

Definition set_raw_search_results (v : list SearchResult) (st : AgentState) : AgentState :=
  {| topic := topic st;
     search_queries := search_queries st;
     raw_search_results := v;
     extracted_claims := extracted_claims st;
     draft_plan := draft_plan st;
     human_feedback := human_feedback st;
     refined_plan := refined_plan st;
     verified_claims := verified_claims st;
     final_brief := final_brief st;
     node_logs := node_logs st;
     messages := messages st;
     route_to := route_to st;
     refinement_notes := refinement_notes st;
     objects := objects st |}.

Definition set_extracted_claims (v : list ref) (st : AgentState) : AgentState :=
  {| topic := topic st;
     search_queries := search_queries st;
     raw_search_results := raw_search_results st;
     extracted_claims := v;
     draft_plan := draft_plan st;
     human_feedback := human_feedback st;
     refined_plan := refined_plan st;
     verified_claims := verified_claims st;
     final_brief := final_brief st;
     node_logs := node_logs st;
     messages := messages st;
     route_to := route_to st;
     refinement_notes := refinement_notes st;
     objects := objects st |}.

Definition set_draft_plan (v : list string) (st : AgentState) : AgentState :=
  {| topic := topic st;
     search_queries := search_queries st;
     raw_search_results := raw_search_results st;
     extracted_claims := extracted_claims st;
     draft_plan := v;
     human_feedback := human_feedback st;
     refined_plan := refined_plan st;
     verified_claims := verified_claims st;
     final_brief := final_brief st;
     node_logs := node_logs st;
     messages := messages st;
     route_to := route_to st;
     refinement_notes := refinement_notes st;
     objects := objects st |}.

Definition set_human_feedback (v : option (gmap string pyval)) (st : AgentState) : AgentState :=
  {| topic := topic st;
     search_queries := search_queries st;
     raw_search_results := raw_search_results st;
     extracted_claims := extracted_claims st;
     draft_plan := draft_plan st;
     human_feedback := v;
     refined_plan := refined_plan st;
     verified_claims := verified_claims st;
     final_brief := final_brief st;
     node_logs := node_logs st;
     messages := messages st;
     route_to := route_to st;
     refinement_notes := refinement_notes st;
     objects := objects st |}.

Definition set_refined_plan (v : list string) (st : AgentState) : AgentState :=
  {| topic := topic st;
     search_queries := search_queries st;
     raw_search_results := raw_search_results st;
     extracted_claims := extracted_claims st;
     draft_plan := draft_plan st;
     human_feedback := human_feedback st;
     refined_plan := v;
     verified_claims := verified_claims st;
     final_brief := final_brief st;
     node_logs := node_logs st;
     messages := messages st;
     route_to := route_to st;
     refinement_notes := refinement_notes st;
     objects := objects st |}.

Definition set_verified_claims (v : list ref) (st : AgentState) : AgentState :=
  {| topic := topic st;
     search_queries := search_queries st;
     raw_search_results := raw_search_results st;
     extracted_claims := extracted_claims st;
     draft_plan := draft_plan st;
     human_feedback := human_feedback st;
     refined_plan := refined_plan st;
     verified_claims := v;
     final_brief := final_brief st;
     node_logs := node_logs st;
     messages := messages st;
     route_to := route_to st;
     refinement_notes := refinement_notes st;
     objects := objects st |}.

Definition set_final_brief (v : option Brief) (st : AgentState) : AgentState :=
  {| topic := topic st;
     search_queries := search_queries st;
     raw_search_results := raw_search_results st;
     extracted_claims := extracted_claims st;
     draft_plan := draft_plan st;
     human_feedback := human_feedback st;
     refined_plan := refined_plan st;
     verified_claims := verified_claims st;
     final_brief := v;
     node_logs := node_logs st;
     messages := messages st;
     route_to := route_to st;
     refinement_notes := refinement_notes st;
     objects := objects st |}.

Definition set_node_logs (v : list LogEntry) (st : AgentState) : AgentState :=
  {| topic := topic st;
     search_queries := search_queries st;
     raw_search_results := raw_search_results st;
     extracted_claims := extracted_claims st;
     draft_plan := draft_plan st;
     human_feedback := human_feedback st;
     refined_plan := refined_plan st;
     verified_claims := verified_claims st;
     final_brief := final_brief st;
     node_logs := v;
     messages := messages st;
     route_to := route_to st;
     refinement_notes := refinement_notes st;
     objects := objects st |}.

Definition set_route_to (v : option pyval) (st : AgentState) : AgentState :=
  {| topic := topic st;
     search_queries := search_queries st;
     raw_search_results := raw_search_results st;
     extracted_claims := extracted_claims st;
     draft_plan := draft_plan st;
     human_feedback := human_feedback st;
     refined_plan := refined_plan st;
     verified_claims := verified_claims st;
     final_brief := final_brief st;
     node_logs := node_logs st;
     messages := messages st;
     route_to := v;
     refinement_notes := refinement_notes st;
     objects := objects st |}.

Definition set_refinement_notes (v : string) (st : AgentState) : AgentState :=
  {| topic := topic st;
     search_queries := search_queries st;
     raw_search_results := raw_search_results st;
     extracted_claims := extracted_claims st;
     draft_plan := draft_plan st;
     human_feedback := human_feedback st;
     refined_plan := refined_plan st;
     verified_claims := verified_claims st;
     final_brief := final_brief st;
     node_logs := node_logs st;
     messages := messages st;
     route_to := route_to st;
     refinement_notes := v;
     objects := objects st |}.

Definition set_objects (v : list ClaimWithSource) (st : AgentState) : AgentState :=
  {| topic := topic st;
     search_queries := search_queries st;
     raw_search_results := raw_search_results st;
     extracted_claims := extracted_claims st;
     draft_plan := draft_plan st;
     human_feedback := human_feedback st;
     refined_plan := refined_plan st;
     verified_claims := verified_claims st;
     final_brief := final_brief st;
     node_logs := node_logs st;
     messages := messages st;
     route_to := route_to st;
     refinement_notes := refinement_notes st;
     objects := v |}.

(** ** The outside world

    Everything the backend reaches through a client library or the operating
    system: the clock, the Tavily client, the chat model, HTTP fetches, the
    prompt templates under [backend/prompts] and the regular-expression and
    JSON parsing of model replies.  Calls that can answer differently each
    time take and return the state of the world. *)

Record ClaimDict := {
  cd_claim : string;
  cd_source_url : string;
  cd_source_title : string;
  cd_excerpt : string
}.

Record DetailedContent := {
  executive_summary : option string;
  sections : option (list (list (string * pyval)));
  content_risks : option (list string)
}.

Class Env := {
  World : Type;
  (** [os.getenv("OPENAI_MODEL") or "gpt-4o-mini"] *)
  MODEL : string;
  (** [str(uuid.uuid4())] *)
  uuid4 : World → string * World;
  (** [datetime.now().isoformat()] *)
  now_isoformat : World → string * World;
  (** [datetime.now().strftime("%B %d, %Y at %I:%M %p")] *)
  now_long : World → string * World;
  (** [tavily_client.search(query=..., ...)], projected to the four keys
      [search_node] copies from each hit. *)
  tavily_search : string → World → outcome (list SearchResult) * World;
  (** [llm.invoke(prompt)], projected to the reply text. *)
  llm_invoke : string → World → outcome string * World;
  (** [fetch_with_beautifulsoup(url)]: page text, or [None] on any failure. *)
  fetch_with_beautifulsoup : string → World → option string * World;
  (** [str(e)] *)
  str_exn : exn → string;
  (** [get_prompt("extract").format(topic=, context=)] and its siblings. *)
  format_extract_prompt : string → string → string;
  format_synthesize_prompt : string → string → string;
  format_content_prompt : string → string → string → string;
  (** Fence stripping, the [\[ {...} \]] search, [json.loads] and the list
      check in [extract_node], with each entry's four [.get(key, "")]. *)
  parse_claims : string → outcome (list ClaimDict);
  (** The numbered lines of a reply, cleaned, longer than 15 characters. *)
  parse_plan : string → list string;
  (** Fence stripping, brace slicing and [json.loads] in [final_brief_node];
      [Returned None] is a JSON value that is not an object. *)
  parse_content : string → outcome (option DetailedContent);
  (** [datetime.fromisoformat(s).strftime("%B %d, %Y")] *)
  format_accessed : string → outcome string;
  (** [s.title()] *)
  str_title : string → string
}.

(** ** Computations that use the world and may raise *)

Definition M `{Env} (A : Type) : Type := World → outcome A * World.

#[global] Instance M_ret `{Env} : MRet M := λ A a w, (Returned a, w).

#[global] Instance M_bind `{Env} : MBind M := λ A B f m w,
  match m w with
  | (Returned a, w') => f a w'
  | (Raised e, w') => (Raised e, w')
  end.

Definition raise `{Env} {A} (e : exn) : M A := λ w, (Raised e, w).

(** [try: body  except Exception as e: handler(e)] *)
Definition try_except `{Env} {A} (body : M A) (handler : exn → M A) : M A := λ w,
  match body w with
  | (Returned a, w') => (Returned a, w')
  | (Raised e, w') => handler e w'
  end.

Definition lift_outcome `{Env} {A} (o : outcome A) : M A := λ w, (o, w).

Definition lift_total `{Env} {A} (f : World → A * World) : M A := λ w,
  let '(a, w') := f w in (Returned a, w').

(** [for x in l: acc = body(acc, x)] *)
Fixpoint for_each `{Env} {A B} (l : list B) (acc : A) (body : A → B → M A) : M A :=
  match l with
  | [] => mret acc
  | x :: l' => acc' ← body acc x; for_each l' acc' body
  end.

(** [[f(x) for x in l]] *)
Fixpoint list_comp `{Env} {A B} (f : A → M B) (l : list A) : M (list B) :=
  match l with
  | [] => mret []
  | x :: l' => y ← f x; ys ← list_comp f l'; mret (y :: ys)
  end.

Definition nl : string := String (Ascii.ascii_of_nat 10) "".

Definition str_of_nat (n : nat) : string := pretty.pretty n.

Definition py_len {A} (l : list A) : pyval := PInt (Z.of_nat (length l)).

(** [str(x)] for a value that may be [None]. *)
Definition str_of_opt (o : option string) : string := default "None" o.

(** Truth value of a string that may be [None]. *)
Definition truthy (o : option string) : bool :=
  match o with
  | Some s => negb (bool_decide (s = ""))
  | None => false
  end.

(** ** [backend/utils/logger.py] *)

(** [log_node_execution]: builds and returns the log entry.  The JSONL line
    and the console report it also writes are not part of the run state. *)
Definition log_node_execution `{Env} (node_name : string)
    (inputs outputs : list (string * pyval)) (prompt : option string)
    (model_config : option (list (string * pyval)))
    (human_decision : option (gmap string pyval)) : M LogEntry :=
  timestamp ← lift_total now_isoformat;
  mret {| node := node_name;
          timestamp := timestamp;
          inputs := inputs;
          prompt := prompt;
          outputs := outputs;
          model_settings :=
            match model_config with
            | Some (x :: c) => x :: c
            | _ => [("type", PStr "deterministic"); ("details", PStr "N/A")]
            end;
          human_decision :=
            match human_decision with
            | Some fb => if bool_decide (fb = ∅) then inr "N/A" else inl fb
            | None => inr "N/A"
            end |}.

(** [state["node_logs"].append(entry)] *)
Definition append_log (entry : LogEntry) (st : AgentState) : AgentState :=
  set_node_logs (node_logs st ++ [entry]) st.

(** ** [backend/nodes.py] *)

Definition MODEL_CONFIG `{Env} : list (string * pyval) :=
  [("model", PStr MODEL); ("temperature", PInt 0); ("provider", PStr "OpenAI")].

Definition input_node `{Env} (state : AgentState) : M AgentState :=
  let t := topic state in
  let queries :=
    [t +:+ " comprehensive guide";
     t +:+ " tutorial explained";
     t +:+ " applications examples";
     t +:+ " latest developments 2024";
     "how does " +:+ t +:+ " work"] in
  let state := set_search_queries queries state in
  entry ← log_node_execution "input"
    [("topic", PStr t)]
    [("queries_generated", py_len queries); ("examples", PStrs (take 2 queries))]
    None None None;
  mret (append_log entry state).

Definition search_node `{Env} (state : AgentState) : M AgentState :=
  results ← for_each (search_queries state) [] (λ results query,
    try_except
      (hits ← tavily_search query; mret (results ++ hits))
      (λ _, mret results));
  let state := set_raw_search_results results state in
  entry ← log_node_execution "search"
    [("queries", PStrs (search_queries state))]
    [("total_results", py_len results)]
    None (Some [("tool", PStr "Tavily API")]) None;
  mret (append_log entry state).

Definition hitl_plan_review `{Env} (state : AgentState) : M AgentState :=
  entry ← log_node_execution "plan_review"
    [("plan_items", py_len (draft_plan state))]
    [("status", PStr "awaiting_human_review")]
    None None None;
  mret (append_log entry state).

Definition hitl_fact_verification `{Env} (state : AgentState) : M AgentState :=
  let key_claims := take 6 (verified_claims state) in
  entry ← log_node_execution "fact_verification"
    [("claims_presented", py_len key_claims)]
    [("status", PStr "awaiting_human_verification")]
    None None None;
  mret (append_log entry state).

(** [claim_obj] for a reference held in one of the claim lists. *)
Definition deref `{Env} (state : AgentState) (r : ref) : M ClaimWithSource :=
  match objects state !! r with
  | Some c => mret c
  | None => raise LookupFailure
  end.

(** One [SOURCE idx: ...] block of the extraction context.  Slicing the
    [raw_content] of a hit that came back as [None] raises. *)
Definition source_block `{Env} (idx : nat) (result : SearchResult) : M string :=
  content ← match raw_content result with
            | Some s => mret (str_take 1000 s)
            | None => raise TypeError
            end;
  mret ("SOURCE " +:+ str_of_nat idx +:+ ":" +:+ nl +:+
        "Title: " +:+ str_of_opt (title result) +:+ nl +:+
        "URL: " +:+ str_of_opt (url result) +:+ nl +:+
        "Content: " +:+ content +:+ nl +:+
        "---").

(** One iteration of the loop of [extract_node] over the parsed entries: an
    entry that passes the filter becomes a new [ClaimWithSource] object. *)
Definition build_claim `{Env} (acc : list ref * AgentState) (claim_dict : ClaimDict)
    : M (list ref * AgentState) :=
  let '(claims, state) := acc in
  let claim_text := strip (cd_claim claim_dict) in
  let source_url := strip (cd_source_url claim_dict) in
  if negb (bool_decide (claim_text = "")) && negb (bool_decide (source_url = ""))
     && (20 <? String.length claim_text)%nat
  then
    now ← lift_total now_isoformat;
    let claim_obj :=
      {| claim := claim_text;
         source_url := source_url;
         source_title := strip (cd_source_title claim_dict);
         excerpt := str_take 400 (strip (cd_excerpt claim_dict));
         verified := false;
         verification_reasoning := "Not yet verified";
         accessed_date := now |} in
    mret (claims ++ [length (objects state)],
          set_objects (objects state ++ [claim_obj]) state)
  else mret (claims, state).

Definition build_claims `{Env} (state : AgentState) (claims_data : list ClaimDict)
    : M (list ref * AgentState) :=
  for_each (take 10 claims_data) ([], state) build_claim.

Definition extract_node `{Env} (state : AgentState) : M AgentState :=
  match raw_search_results state with
  | [] => mret (set_extracted_claims [] state)
  | _ =>
    sources_context ←
      list_comp (λ '(i, result), source_block (S i) result)
                (zip (seq 0 10) (take 10 (raw_search_results state)));
    let context := join (nl +:+ nl) sources_context in
    let extraction_prompt := format_extract_prompt (topic state) context in
    state ← try_except
      (response_text ← llm_invoke extraction_prompt;
       claims_data ← lift_outcome (parse_claims response_text);
       '(claims, state) ← build_claims state claims_data;
       mret (set_extracted_claims claims state))
      (λ _, mret (set_extracted_claims [] state));
    entry ← log_node_execution "extract"
      [("source_count", py_len (raw_search_results state))]
      [("claims_extracted", py_len (extracted_claims state))]
      (Some extraction_prompt) (Some MODEL_CONFIG) None;
    mret (append_log entry state)
  end.

Definition authoritative_domains : list string :=
  [".edu"; ".gov"; ".org"; "arxiv.org"; "ieee.org"; "acm.org";
   "nature.com"; "sciencedirect.com"; "springer.com";
   "wikipedia.org"; "research."; "scholar."].

(** One iteration of the loop of [author_prioritization_node]. *)
Definition prioritize_one `{Env} (state : AgentState) (acc : list ref * list ref) (r : ref)
    : M (list ref * list ref) :=
  let '(prioritized_claims, regular_claims) := acc in
  claim_obj ← deref state r;
  let is_authoritative :=
    existsb (λ domain, contains domain (lower (source_url claim_obj)))
            authoritative_domains in
  if is_authoritative
  then mret (prioritized_claims ++ [r], regular_claims)
  else mret (prioritized_claims, regular_claims ++ [r]).

Definition author_prioritization_node `{Env} (state : AgentState) : M AgentState :=
  '(prioritized_claims, regular_claims) ←
    for_each (extracted_claims state) ([], []) (prioritize_one state);
  let state := set_extracted_claims (prioritized_claims ++ regular_claims) state in
  entry ← log_node_execution "prioritize"
    [("total_claims", py_len (extracted_claims state))]
    [("prioritized", py_len prioritized_claims); ("regular", py_len regular_claims)]
    None None None;
  mret (append_log entry state).

(** ** [backend/utils/validator.py] *)

Record Verification := {
  v_verified : bool;
  v_reasoning : string;
  v_excerpt : string
}.

Definition verification_prompt (source_content claim : string) : string :=
  "You are a fact-checker. Analyze if the source supports the claim.

SOURCE CONTENT (truncated):
" +:+ str_take 2000 source_content +:+ "

CLAIM:
" +:+ claim +:+ "

TASK:
1. Does the source content support this claim?
2. If YES: Extract the most relevant excerpt (50-100 words) that supports it
3. If NO: Explain why the claim is not supported

FORMAT:
VERDICT: YES or NO
REASONING: [Your explanation]
EXCERPT: [Relevant text if YES, empty if NO]
".

Definition verify_claim_with_llm `{Env} (claim : string) (source_content : option string)
    : M Verification :=
  if negb (truthy source_content) then
    mret {| v_verified := false;
            v_reasoning := "Source content could not be retrieved";
            v_excerpt := "" |}
  else
    let prompt := verification_prompt (default "" source_content) claim in
    try_except
      (response_text ← llm_invoke prompt;
       let verdict := contains "YES" (upper (str_take 100 response_text)) in
       let excerpt :=
         match after_first "EXCERPT:" response_text with
         | Some rest => str_take 200 (strip (before_first "EXCERPT:" rest))
         | None => ""
         end in
       mret {| v_verified := verdict;
               v_reasoning := str_take 300 response_text;
               v_excerpt := if verdict then excerpt else "" |})
      (λ e, mret {| v_verified := false;
                    v_reasoning := "Verification error: " +:+ str_exn e;
                    v_excerpt := "" |}).

(** ** [backend/nodes.py], continued *)

(** The text Tavily returned for [source_url]: the [raw_content] of the first
    hit with that URL and a non-empty text. *)
Fixpoint find_source_content (results : list SearchResult) (source_url : string)
    : option string :=
  match results with
  | [] => None
  | result :: results' =>
    if bool_decide (url result = Some source_url) && truthy (raw_content result)
    then raw_content result
    else find_source_content results' source_url
  end.

(** One iteration of the loop of [verification_node].  The assignments to
    [claim_obj] update the object in place. *)
Definition verify_one `{Env} (acc : list ref * AgentState) (r : ref)
    : M (list ref * AgentState) :=
  let '(verified_claims, state) := acc in
  claim_obj ← deref state r;
  let source_content := find_source_content (raw_search_results state) (source_url claim_obj) in
  source_content ←
    (if negb (truthy source_content)
        || (String.length (default "" source_content) <? 200)%nat
     then lift_total (fetch_with_beautifulsoup (source_url claim_obj))
     else mret source_content);
  if negb (truthy source_content) then mret (verified_claims, state)
  else
    verification ← verify_claim_with_llm (claim claim_obj) source_content;
    let claim_obj :=
      {| claim := claim claim_obj;
         source_url := source_url claim_obj;
         source_title := source_title claim_obj;
         excerpt := if bool_decide (v_excerpt verification = "")
                    then excerpt claim_obj else v_excerpt verification;
         verified := v_verified verification;
         verification_reasoning := v_reasoning verification;
         accessed_date := accessed_date claim_obj |} in
    let state := set_objects (<[r := claim_obj]> (objects state)) state in
    if verified claim_obj
    then mret (verified_claims ++ [r], state)
    else mret (verified_claims, state).

Definition verification_node `{Env} (state : AgentState) : M AgentState :=
  let claims_to_verify := take 12 (extracted_claims state) in
  '(verified_claims, state) ← for_each claims_to_verify ([], state) verify_one;
  let state := set_verified_claims verified_claims state in
  entry ← log_node_execution "verify"
    [("total_claims", py_len (extracted_claims state))]
    [("verified", py_len verified_claims)]
    None None None;
  mret (append_log entry state).

Definition synthesis_node `{Env} (state : AgentState) : M AgentState :=
  let verified_claims := verified_claims state in
  if (length verified_claims <? 3)%nat then
    mret (set_draft_plan
      ["1. **Fundamentals of " +:+ topic state +:+ ":** Core definitions and scope (10 mins)";
       "2. **Key Technologies:** Technical architecture and components (15 mins)";
       "3. **Current Applications:** How " +:+ topic state +:+ " is used in industry (15 mins)";
       "4. **Critical Analysis:** Limitations and challenges (10 mins)";
       "5. **Future Outlook:** Emerging trends and research directions (10 mins)"]
      state)
  else
    claims ← list_comp (deref state) (take 15 verified_claims);
    let claims_text := join nl (map (λ c, "• " +:+ claim c) claims) in
    let synthesis_prompt := format_synthesize_prompt (topic state) claims_text in
    state ← try_except
      (response_text ← llm_invoke synthesis_prompt;
       let plan := parse_plan response_text in
       if (4 <=? length plan)%nat
       then mret (set_draft_plan (take 7 plan) state)
       else raise ValueError)
      (λ _, mret (set_draft_plan
         ["Introduction: Understanding " +:+ topic state +:+ " (10 minutes)";
          "Foundations: Core concepts and principles (12 minutes)";
          "Technical Deep Dive: How " +:+ topic state +:+ " works (15 minutes)";
          "Real-World Applications: Industry use cases (12 minutes)";
          "Challenges and Limitations: Current obstacles (8 minutes)";
          "Future Directions: Emerging trends (8 minutes)"]
         state));
    entry ← log_node_execution "synthesize"
      [("verified_claims", py_len verified_claims)]
      [("plan_sections", py_len (draft_plan state))]
      (Some (str_take 300 synthesis_prompt)) None None;
    mret (append_log entry state).

Definition refinement_node `{Env} (state : AgentState) : M AgentState :=
  let feedback := default ∅ (human_feedback state) in
  let decision := default (PStr "") (feedback !! "decision") in
  notes ← match default (PStr "") (feedback !! "notes") with
          | PStr s => mret (strip s)
          | _ => raise AttributeError
          end;
  state ←
    (if py_eq_str decision "approve" then
       let state := set_refined_plan (draft_plan state) state in
       mret (set_route_to (Some (PStr "fact_verification")) state)
     else if py_eq_str decision "more_sources" then
       let new_queries :=
         if negb (bool_decide (notes = "")) then
           [topic state +:+ " " +:+ notes;
            topic state +:+ " " +:+ notes +:+ " detailed";
            topic state +:+ " " +:+ notes +:+ " examples"]
         else
           [topic state +:+ " advanced topics";
            topic state +:+ " detailed guide";
            topic state +:+ " comprehensive overview"] in
       let state := set_search_queries new_queries state in
       mret (set_route_to (Some (PStr "search")) state)
     else if py_eq_str decision "emphasize_topic" then
       state ←
         (if negb (bool_decide (notes = "")) then
            let emphasis := "Special Focus: " +:+ notes +:+ " (15 minutes)" in
            match draft_plan state !! 0%nat with
            | Some first =>
              mret (set_refined_plan ([first] ++ [emphasis] ++ drop 1 (draft_plan state)) state)
            | None => raise IndexError
            end
          else mret (set_refined_plan (draft_plan state) state));
       mret (set_route_to (Some (PStr "fact_verification")) state)
     else if py_eq_str decision "rework" then
       let state := set_refinement_notes notes state in
       mret (set_route_to (Some (PStr "synthesize")) state)
     else
       let state := set_refined_plan (draft_plan state) state in
       mret (set_route_to (Some (PStr "fact_verification")) state));
  entry ← log_node_execution "refine"
    [("decision", decision)]
    [("route_to", default PNone (route_to state))]
    None None (Some feedback);
  mret (append_log entry state).

Definition final_brief_node `{Env} (state : AgentState) : M AgentState :=
  verified_claims ← list_comp (deref state) (verified_claims state);
  let current_plan :=
    match refined_plan state with
    | [] => draft_plan state
    | plan => plan
    end in
  let claims_text :=
    join nl (map (λ c, "- " +:+ claim c +:+ " (Source: " +:+ source_title c +:+ ")")
                 (take 25 verified_claims)) in
  let plan_text := join nl current_plan in
  let content_prompt := format_content_prompt (topic state) claims_text plan_text in
  detailed_content ← try_except
    (text ← llm_invoke content_prompt; lift_outcome (parse_content text))
    (λ _, mret (Some
       {| executive_summary := Some ("Overview of " +:+ topic state +:+ ".");
          sections := Some [];
          content_risks := Some
            ["Complexity in implementing " +:+ topic state;
             "Scalability challenges for " +:+ topic state +:+ " systems";
             "High resource requirements for deployment"] |}));
  let key_findings :=
    map (λ c, {| finding := claim c;
                 citation := "";
                 source := source_title c;
                 finding_url := source_url c;
                 finding_excerpt := excerpt c |})
        (take 6 verified_claims) in
  '(_, bibliography) ←
    for_each verified_claims ([], []) (λ '(seen_urls, bibliography) c,
      if bool_decide (source_url c ∈ seen_urls) then mret (seen_urls, bibliography)
      else
        accessed_date_str ←
          (if bool_decide (accessed_date c = "")
           then lift_total now_isoformat
           else mret (accessed_date c));
        accessed ← lift_outcome (format_accessed accessed_date_str);
        mret (source_url c :: seen_urls,
              bibliography ++ [{| reading_title := source_title c;
                                  reading_url := source_url c;
                                  accessed := accessed |}]));
  detailed_content ← match detailed_content with
                     | Some dc => mret dc
                     | None => raise AttributeError
                     end;
  research_date ← lift_total now_long;
  let brief :=
    {| brief_title := "Comprehensive Lecture Plan: " +:+ str_title (topic state);
       introduction := "Generated lecture plan for " +:+ topic state +:+ " based on "
                       +:+ str_of_nat (length verified_claims) +:+ " verified sources.";
       summary := default ("A comprehensive guide to " +:+ topic state +:+ ".")
                          (executive_summary detailed_content);
       lecture_plan := current_plan;
       lecture_sections := default [] (sections detailed_content);
       key_findings := key_findings;
       risks := default [] (content_risks detailed_content);
       further_reading := take 10 bibliography;
       appendix :=
         {| node_trace := map node (node_logs state);
            research_date := research_date;
            sources_analyzed := length (raw_search_results state);
            claims_extracted := length (extracted_claims state);
            claims_verified := length verified_claims |} |} in
  let state := set_final_brief (Some brief) state in
  entry ← log_node_execution "final_brief"
    [("plan_sections", py_len current_plan)]
    [("brief_generated", PBool true)]
    (Some content_prompt) (Some MODEL_CONFIG) None;
  mret (append_log entry state).

(** ** [backend/graph.py] *)

(** [END], the name LangGraph gives the terminal node. *)
Definition END : string := "__end__".

(** [route_after_plan_review] *)
Definition route_after_plan_review (state : AgentState) : pyval :=
  let decision :=
    default (PStr "") (default ∅ (human_feedback state) !! "decision") in
  if py_eq_str decision "approve" then PStr "fact_verification" else PStr "refine".

(** [route_after_refine] *)
Definition route_after_refine (state : AgentState) : pyval :=
  default (PStr "fact_verification") (route_to state).

(** The [StateGraph] builder: named step functions, fixed edges, and
    conditional edges (a router with its path map). *)
Record StateGraph `{Env} := {
  g_nodes : gmap string (AgentState → M AgentState);
  g_entry : option string;
  g_edges : gmap string string;
  g_branches : gmap string ((AgentState → pyval) * gmap string string)
}.

Definition empty_graph `{Env} : StateGraph :=
  {| g_nodes := ∅; g_entry := None; g_edges := ∅; g_branches := ∅ |}.

Definition add_node `{Env} (name : string) (action : AgentState → M AgentState)
    (g : StateGraph) : StateGraph :=
  {| g_nodes := <[name := action]> (g_nodes g); g_entry := g_entry g;
     g_edges := g_edges g; g_branches := g_branches g |}.

Definition set_entry_point `{Env} (name : string) (g : StateGraph) : StateGraph :=
  {| g_nodes := g_nodes g; g_entry := Some name;
     g_edges := g_edges g; g_branches := g_branches g |}.

Definition add_edge `{Env} (start_key end_key : string) (g : StateGraph) : StateGraph :=
  {| g_nodes := g_nodes g; g_entry := g_entry g;
     g_edges := <[start_key := end_key]> (g_edges g); g_branches := g_branches g |}.

Definition add_conditional_edges `{Env} (source : string) (path : AgentState → pyval)
    (path_map : list (string * string)) (g : StateGraph) : StateGraph :=
  {| g_nodes := g_nodes g; g_entry := g_entry g; g_edges := g_edges g;
     g_branches := <[source := (path, list_to_map path_map)]> (g_branches g) |}.

(** [build_graph]: the calls of the source, in its order (read bottom-up). *)
Definition build_graph `{Env} : StateGraph :=
  add_edge "final_brief" END
  (add_edge "fact_verification" "final_brief"
  (add_conditional_edges "refine" route_after_refine
     [("search", "search");
      ("synthesize", "synthesize");
      ("fact_verification", "fact_verification")]
  (add_conditional_edges "plan_review" route_after_plan_review
     [("fact_verification", "fact_verification");
      ("refine", "refine")]
  (add_edge "synthesize" "plan_review"
  (add_edge "verify" "synthesize"
  (add_edge "prioritize" "verify"
  (add_edge "extract" "prioritize"
  (add_edge "search" "extract"
  (add_edge "input" "search"
  (set_entry_point "input"
  (add_node "final_brief" final_brief_node
  (add_node "fact_verification" hitl_fact_verification
  (add_node "refine" refinement_node
  (add_node "plan_review" hitl_plan_review
  (add_node "synthesize" synthesis_node
  (add_node "verify" verification_node
  (add_node "prioritize" author_prioritization_node
  (add_node "extract" extract_node
  (add_node "search" search_node
  (add_node "input" input_node
   empty_graph)))))))))))))))))))).

(** [graph.compile(checkpointer=memory, interrupt_before=[...])]; the
    checkpointer is the store the engine operations below take and return. *)
Record CompiledGraph `{Env} := {
  graph : StateGraph;
  interrupt_before : list string
}.

(** ** The execution engine

    [compiled_graph.invoke], [get_state] and [update_state] belong to the
    LangGraph library, which is not part of the sources. *)

(** Modelled from the spec: the checkpoint of a thread (Data model: the
    latest state and the next node scheduled to run, [None] once terminal);
    the LangGraph checkpointer is not part of the sources. *)
Record Checkpoint := {
  ck_state : AgentState;
  pending_node : option string
}.

(** Modelled from the spec: the ways a call of the engine fails (Error
    handling: an unknown thread, a router answer outside its path map, a step
    that raised), and [OutOfFuel] for a loop cut off by its iteration bound;
    LangGraph's exceptions are not part of the sources. *)
Inductive EngineError :=
| ThreadNotFound
| RoutingError
| StepFailure (name : string) (e : exn)
| OutOfFuel.

(** Modelled from the spec: what one call of [advance] produced (Execution
    Engine: [{status, checkpoint, state}] or a failure): the error, or the
    node it stopped before ([None]: completed) with the state; then the nodes
    whose step function it called, in order, and the store and world after.
    LangGraph's result objects are not part of the sources. *)
Record Advance `{Env} := {
  adv_result : EngineError + (option string * AgentState);
  adv_trace : list string;
  adv_store : gmap string Checkpoint;
  adv_world : World
}.

(** Modelled from the spec: choosing the next node (Execution Engine: the
    unconditional edge if there is one, otherwise the router, whose answer
    must be a key of its path map); LangGraph's edge handling is not part of
    the sources. *)
Definition next_node `{Env} (g : StateGraph) (current : string) (state : AgentState)
    : EngineError + option string :=
  let target (t : string) := if bool_decide (t = END) then None else Some t in
  match g_edges g !! current with
  | Some t => inr (target t)
  | None =>
    match g_branches g !! current with
    | Some (router, path_map) =>
      match router state with
      | PStr r =>
        match path_map !! r with
        | Some t => inr (target t)
        | None => inl RoutingError
        end
      | _ => inl RoutingError
      end
    | None => inl RoutingError
    end
  end.

(** Modelled from the spec: the loop of [advance] (Execution Engine).  An
    interrupt node stops the loop before its step function runs, except on
    the first iteration of a call that resumes ([resumed]); a step runs, the
    next node is chosen, the pair is persisted, and the loop continues.  A
    step that raises or a routing error leaves the last checkpoint in place.
    [fuel] bounds the number of iterations; LangGraph's own loop is not part
    of the sources. *)
Fixpoint advance_loop `{Env} (fuel : nat) (cg : CompiledGraph) (thread_id : string)
    (resumed : bool) (trace : list string) (state : AgentState)
    (current : option string) (store : gmap string Checkpoint) (w : World) : Advance :=
  match fuel with
  | O => {| adv_result := inl OutOfFuel; adv_trace := trace;
            adv_store := store; adv_world := w |}
  | S fuel' =>
    match current with
    | None => {| adv_result := inr (None, state); adv_trace := trace;
                 adv_store := store; adv_world := w |}
    | Some name =>
      if bool_decide (name ∈ interrupt_before cg) && negb resumed then
        {| adv_result := inr (Some name, state); adv_trace := trace;
           adv_store := <[thread_id := {| ck_state := state; pending_node := Some name |}]> store;
           adv_world := w |}
      else
        match (g_nodes (graph cg) !! name : option (AgentState → M AgentState)) with
        | None => {| adv_result := inl RoutingError; adv_trace := trace;
                     adv_store := store; adv_world := w |}
        | Some step =>
          match step state w with
          | (Raised e, w') =>
            {| adv_result := inl (StepFailure name e); adv_trace := trace ++ [name];
               adv_store := store; adv_world := w' |}
          | (Returned state', w') =>
            match next_node (graph cg) name state' with
            | inl err => {| adv_result := inl err; adv_trace := trace ++ [name];
                            adv_store := store; adv_world := w' |}
            | inr next =>
              advance_loop fuel' cg thread_id false (trace ++ [name]) state' next
                (<[thread_id := {| ck_state := state'; pending_node := next |}]> store) w'
            end
          end
        end
    end
  end.

(** Modelled from the spec: [advance] (Execution Engine), which is
    [compiled_graph.invoke(input, config)]: with a starting state it opens
    the thread at the entry node, with [None] it resumes from the
    checkpoint; LangGraph's [invoke] is not part of the sources. *)
Definition invoke `{Env} (fuel : nat) (cg : CompiledGraph) (input : option AgentState)
    (thread_id : string) (store : gmap string Checkpoint) (w : World) : Advance :=
  match input with
  | Some state =>
    advance_loop fuel cg thread_id false [] state (g_entry (graph cg))
      (<[thread_id := {| ck_state := state; pending_node := g_entry (graph cg) |}]> store) w
  | None =>
    match store !! thread_id with
    | None => {| adv_result := inl ThreadNotFound; adv_trace := [];
                 adv_store := store; adv_world := w |}
    | Some ck =>
      advance_loop fuel cg thread_id true [] (ck_state ck) (pending_node ck) store w
    end
  end.

(** What [get_state] returns: [values] ([None] for the empty dict of an
    unknown thread) and [next] (empty once terminal). *)
Record StateSnapshot := {
  values : option AgentState;
  next : list string
}.

(** Modelled from the spec: [get] of the Checkpoint Store, in the shape of
    LangGraph's [get_state] snapshot; [get_state] is not part of the
    sources. *)
Definition get_state (thread_id : string) (store : gmap string Checkpoint) : StateSnapshot :=
  match store !! thread_id with
  | Some ck => {| values := Some (ck_state ck);
                  next := match pending_node ck with Some n => [n] | None => [] end |}
  | None => {| values := None; next := [] |}
  end.

(** Modelled from the spec: [update_state] (Interrupt / Resume Protocol: the
    mutated state is persisted at the same pending node, the engine does not
    advance); it is only ever called for a thread that has a checkpoint.
    [update_state] is not part of the sources. *)
Definition update_state (thread_id : string) (values : AgentState)
    (store : gmap string Checkpoint) : gmap string Checkpoint :=
  match store !! thread_id with
  | Some ck => <[thread_id := {| ck_state := values; pending_node := pending_node ck |}]> store
  | None => store
  end.

(** ** [backend/main.py] *)

Definition compiled_graph `{Env} : CompiledGraph :=
  {| graph := build_graph;
     interrupt_before := ["plan_review"; "fact_verification"] |}.

(** The iteration bound the engine runs under (LangGraph's default recursion
    limit); no path of this graph between two stops needs more than eight
    iterations, see [advance_loop_fuel]. *)
Definition recursion_limit : nat := 25.

Record ResearchRequest := {
  req_topic : string
}.

Record FeedbackRequest := {
  decision : string;
  notes : option string
}.

(** The JSON body of a successful response; a key an endpoint does not send
    is [None]. *)
Record Body := {
  r_thread_id : string;
  r_status : string;
  r_checkpoint : option string;
  r_final_brief : option Brief;
  r_data : AgentState
}.

Inductive Response :=
| Ok (body : Body)
| HTTPException (status_code : nat) (detail : string).

(** The state [start_research] builds. *)
Definition initial_state (request : ResearchRequest) : AgentState :=
  {| topic := req_topic request;
     search_queries := [];
     raw_search_results := [];
     extracted_claims := [];
     draft_plan := [];
     human_feedback := Some ∅;
     refined_plan := [];
     verified_claims := [];
     final_brief := None;
     node_logs := [];
     messages := [];
     route_to := Some (PStr "fact_verification");
     refinement_notes := "";
     objects := [] |}.

Definition str_engine_error `{Env} (err : EngineError) : string :=
  match err with
  | ThreadNotFound => "thread not found"
  | RoutingError => "routing error"
  | StepFailure _ e => str_exn e
  | OutOfFuel => "recursion limit reached"
  end.

(** [POST /run] *)
Definition start_research `{Env} (request : ResearchRequest)
    (store : gmap string Checkpoint) (w : World)
    : Response * gmap string Checkpoint * World :=
  let '(thread_id, w) := uuid4 w in
  let initial_state := initial_state request in
  let run := invoke recursion_limit compiled_graph (Some initial_state) thread_id store w in
  match adv_result run with
  | inl err => (HTTPException 500 (str_engine_error err), adv_store run, adv_world run)
  | inr (_, result) =>
    let state_snapshot := get_state thread_id (adv_store run) in
    let checkpoint := match next state_snapshot with n :: _ => n | [] => "unknown" end in
    (Ok {| r_thread_id := thread_id;
           r_status := "interrupted";
           r_checkpoint := Some checkpoint;
           r_final_brief := None;
           r_data := result |},
     adv_store run, adv_world run)
  end.

(** [POST /resume/{thread_id}] *)
Definition resume_research `{Env} (thread_id : string) (feedback : FeedbackRequest)
    (store : gmap string Checkpoint) (w : World)
    : Response * gmap string Checkpoint * World :=
  let state_snapshot := get_state thread_id store in
  match values state_snapshot with
  | None => (HTTPException 404 "Session not found", store, w)
  | Some vals =>
    let current_checkpoint := match next state_snapshot with n :: _ => n | [] => "none" end in
    let updated_state :=
      set_human_feedback
        (Some (<["decision" := PStr (decision feedback)]>
              (<["notes" := from_option PStr PNone (notes feedback)]>
              (<["checkpoint" := PStr current_checkpoint]> ∅))))
        vals in
    let store := update_state thread_id updated_state store in
    let run := invoke recursion_limit compiled_graph None thread_id store w in
    match adv_result run with
    | inl err => (HTTPException 500 (str_engine_error err), adv_store run, adv_world run)
    | inr (_, result) =>
      let final_state := get_state thread_id (adv_store run) in
      match next final_state with
      | next_checkpoint :: _ =>
        (Ok {| r_thread_id := thread_id;
               r_status := "interrupted";
               r_checkpoint := Some next_checkpoint;
               r_final_brief := None;
               r_data := result |},
         adv_store run, adv_world run)
      | [] =>
        (Ok {| r_thread_id := thread_id;
               r_status := "completed";
               r_checkpoint := None;
               r_final_brief := final_brief result;
               r_data := result |},
         adv_store run, adv_world run)
      end
    end
  end.

(** [GET /status/{thread_id}] *)
Definition get_status `{Env} (thread_id : string)
    (store : gmap string Checkpoint) (w : World)
    : Response * gmap string Checkpoint * World :=
  let state := get_state thread_id store in
  match values state with
  | None => (HTTPException 404 "Session not found", store, w)
  | Some vals =>
    (Ok {| r_thread_id := thread_id;
           r_status := match next state with [] => "completed" | _ => "interrupted" end;
           r_checkpoint := match next state with n :: _ => Some n | [] => None end;
           r_final_brief := None;
           r_data := vals |},
     store, w)
  end.

(** ** A scripted world

    A small instance of [Env] on which the definitions above can be run:
    the world counts the chat-model calls made so far, the model answers YES
    to every even call and NO to every odd one, Tavily finds nothing, and
    every page fetch succeeds. *)
Definition scripted : Env := {|
  World := nat;
  MODEL := "gpt-4o-mini";
  uuid4 := λ w, ("3f2b6c1e-0000-4000-8000-000000000000", w);
  now_isoformat := λ w, ("2024-05-01T10:00:00", w);
  now_long := λ w, ("May 01, 2024 at 10:00 AM", w);
  tavily_search := λ _ w, (Returned [], w);
  llm_invoke := λ _ w,
    (Returned (if Nat.even w then "VERDICT: YES" else "VERDICT: NO"), S w);
  fetch_with_beautifulsoup := λ _ w, (Some "Fetched page text.", w);
  str_exn := λ _, "error";
  format_extract_prompt := λ topic context, topic +:+ nl +:+ context;
  format_synthesize_prompt := λ topic claims_text, topic +:+ nl +:+ claims_text;
  format_content_prompt := λ topic claims_text plan_text,
    topic +:+ nl +:+ claims_text +:+ nl +:+ plan_text;
  parse_claims := λ _, Raised ValueError;
  parse_plan := λ _, [];
  parse_content := λ _, Raised ValueError;
  format_accessed := λ s, Returned s;
  str_title := λ s, s
|}.

(** A thread that has just been parked before [plan_review]. *)
Definition parked_state : AgentState :=
  set_draft_plan ["Introduction: Understanding graphs (10 minutes)"]
    (initial_state {| req_topic := "graphs" |}).

(** A state with two extracted claims, each its own object. *)
Definition two_claims_state : AgentState :=
  let c (text site : string) :=
    {| claim := text; source_url := site; source_title := "Graph theory";
       excerpt := ""; verified := false;
       verification_reasoning := "Not yet verified";
       accessed_date := "2024-05-01T10:00:00" |} in
  set_objects [c "A tree with n vertices has n - 1 edges." "https://example.edu/trees";
               c "Every planar graph is four-colourable." "https://example.com/maps"]
    (set_extracted_claims [0; 1]%nat parked_state).

Definition parked_store (name : option string) : gmap string Checkpoint :=
  {[ "t1" := {| ck_state := parked_state; pending_node := name |} ]}.

(** ** Vocabulary of the statements *)

(** The decision field of the human-feedback record, [None] when the record
    or the field is absent. *)
Definition decision_field (state : AgentState) : option pyval :=
  human_feedback state ≫= λ fb, fb !! "decision".

(** The targets declared for the conditional edge out of [refine]. *)
Definition legal_routes : list string := ["search"; "synthesize"; "fact_verification"].

(** The extracted claims are distinct objects of the object table. *)
Definition claims_wf (state : AgentState) : Prop :=
  NoDup (extracted_claims state) ∧
  Forall (λ r, r < length (objects state)) (extracted_claims state).

(** The object [r] points to exists and has its [verified] flag set. *)
Definition verified_at (state : AgentState) (r : ref) : Prop :=
  ∃ c, objects state !! r = Some c ∧ verified c = true.

(** [state'] is [state] with one more log entry, written by [name]. *)
Definition logged_once (name : string) (state state' : AgentState) : Prop :=
  ∃ entry, node_logs state' = node_logs state ++ [entry] ∧ node entry = name.

(** [n] calls of [get_status] in a row: the responses, and the store and
    world after the last one. *)
Fixpoint poll_status `{Env} (n : nat) (thread_id : string)
    (store : gmap string Checkpoint) (w : World)
    : list Response * gmap string Checkpoint * World :=
  match n with
  | O => ([], store, w)
  | S n' =>
    let '(r, store', w') := get_status thread_id store w in
    let '(rs, store'', w'') := poll_status n' thread_id store' w' in
    (r :: rs, store'', w'')
  end.

(** A bound on the iterations the engine still needs from [current] when it
    arrives there over an edge: the length of the longest path to the next
    stop, the stop included. *)
Definition rank (current : option string) : nat :=
  match current with
  | None => 1
  | Some name =>
    default 1%nat
      ((list_to_map [("input", 7); ("refine", 7); ("search", 6); ("extract", 5);
                     ("prioritize", 4); ("verify", 3); ("synthesize", 2);
                     ("final_brief", 2)]%nat : gmap string nat) !! name)
  end.

(** The feedback record [resume_research] writes. *)
Definition feedback_record (feedback : FeedbackRequest) (current_checkpoint : string)
    : gmap string pyval :=
  <["decision" := PStr (decision feedback)]>
  (<["notes" := from_option PStr PNone (notes feedback)]>
  (<["checkpoint" := PStr current_checkpoint]> ∅)).

(** ** More vocabulary *)

(** The source part of a claim object, which verification leaves alone. *)
Definition same_source (c c' : ClaimWithSource) : Prop :=
  claim c' = claim c ∧ source_url c' = source_url c
  ∧ source_title c' = source_title c ∧ accessed_date c' = accessed_date c.

(** A claim object as [extract_node] builds it. *)
Definition fresh_claim (c : ClaimWithSource) : Prop :=
  verified c = false
  ∧ verification_reasoning c = "Not yet verified"
  ∧ (20 < String.length (claim c))%nat
  ∧ source_url c ≠ ""
  ∧ (String.length (excerpt c) ≤ 400)%nat.

(** The test [author_prioritization_node] applies to a source URL, and to
    the object a reference points to. *)
Definition is_authoritative (source_url : string) : bool :=
  existsb (λ domain, contains domain (lower source_url)) authoritative_domains.

Definition authoritative_ref (state : AgentState) (r : ref) : bool :=
  match objects state !! r with
  | Some c => is_authoritative (source_url c)
  | None => false
  end.

(** Every reference of [l] points to an object of [state]. *)
Definition live (state : AgentState) (l : list ref) : Prop :=
  Forall (λ r, r < length (objects state)) l.

(** What a step may do to the run state between two checkpoints: the topic
    and the messages stay, and the log gains at most one entry, written
    under the name [name]. *)
Definition step_keeps (name : string) (state state' : AgentState) : Prop :=
  topic state' = topic state
  ∧ messages state' = messages state
  ∧ (node_logs state' = node_logs state ∨ logged_once name state state').

(** A world in which nothing outside answers: Tavily and the chat model
    raise, and no page can be fetched. *)
Definition offline : Env := {|
  World := nat;
  MODEL := "gpt-4o-mini";
  uuid4 := λ w, ("7a1d0c55-0000-4000-8000-000000000000", w);
  now_isoformat := λ w, ("2024-05-01T10:00:00", w);
  now_long := λ w, ("May 01, 2024 at 10:00 AM", w);
  tavily_search := λ _ w, (Raised ExternalError, w);
  llm_invoke := λ _ w, (Raised ExternalError, S w);
  fetch_with_beautifulsoup := λ _ w, (None, w);
  str_exn := λ _, "connection refused";
  format_extract_prompt := λ topic context, topic +:+ nl +:+ context;
  format_synthesize_prompt := λ topic claims_text, topic +:+ nl +:+ claims_text;
  format_content_prompt := λ topic claims_text plan_text,
    topic +:+ nl +:+ claims_text +:+ nl +:+ plan_text;
  parse_claims := λ _, Raised ValueError;
  parse_plan := λ _, [];
  parse_content := λ _, Raised ValueError;
  format_accessed := λ s, Returned s;
  str_title := λ s, s
|}.

(** A state with one search hit that carries page text. *)
Definition one_hit_state : AgentState :=
  set_raw_search_results
    [{| url := Some "https://example.edu/trees"; title := Some "Trees";
        snippet := "A tree is a connected acyclic graph.";
        raw_content := Some "A tree is a connected acyclic graph." |}]
    parked_state.

(** A state with one search hit whose page text came back as [None]. *)
Definition null_content_state : AgentState :=
  set_raw_search_results
    [{| url := Some "https://example.edu/trees"; title := Some "Trees";
        snippet := "A tree is a connected acyclic graph.";
        raw_content := None |}]
    parked_state.

(** The two-claim state after both claims were kept. *)
Definition verified_state : AgentState :=
  set_verified_claims [0; 1]%nat two_claims_state.

(** The hit carries page text (its [raw_content] is not [None]). *)
Definition content_present (hit : SearchResult) : bool :=
  match raw_content hit with
  | Some _ => true
  | None => false
  end.

(** A world in which everything answers: Tavily finds one page, the model
    replies, and the replies parse (two claim entries, the second too short
    to be kept; eight plan sections; a brief with a summary and one risk). *)
Definition answering : Env := {|
  World := nat;
  MODEL := "gpt-4o-mini";
  uuid4 := λ w, ("c0ffee00-0000-4000-8000-000000000000", w);
  now_isoformat := λ w, ("2024-05-01T10:00:00", w);
  now_long := λ w, ("May 01, 2024 at 10:00 AM", w);
  tavily_search := λ query w,
    (Returned [{| url := Some "https://example.edu/trees"; title := Some "Trees";
                  snippet := "A tree is a connected acyclic graph.";
                  raw_content := Some "A tree is a connected acyclic graph." |}], w);
  llm_invoke := λ _ w, (Returned "VERDICT: YES EXCERPT: a connected acyclic graph", S w);
  fetch_with_beautifulsoup := λ _ w, (Some "A tree is a connected acyclic graph.", w);
  str_exn := λ _, "error";
  format_extract_prompt := λ topic context, topic +:+ nl +:+ context;
  format_synthesize_prompt := λ topic claims_text, topic +:+ nl +:+ claims_text;
  format_content_prompt := λ topic claims_text plan_text,
    topic +:+ nl +:+ claims_text +:+ nl +:+ plan_text;
  parse_claims := λ _, Returned
    [{| cd_claim := "  A tree with n vertices has exactly n - 1 edges. ";
        cd_source_url := "https://example.edu/trees";
        cd_source_title := "Trees"; cd_excerpt := "n - 1 edges" |};
     {| cd_claim := "Too short"; cd_source_url := "https://example.edu/trees";
        cd_source_title := "Trees"; cd_excerpt := "" |}];
  parse_plan := λ _,
    ["Definitions and first examples (10 minutes)";
     "Trees and forests in detail (10 minutes)";
     "Connectivity and cut vertices (10 minutes)";
     "Planar graphs and colourings (10 minutes)";
     "Matchings in bipartite graphs (10 minutes)";
     "Flows, cuts and duality (10 minutes)";
     "Random graphs and thresholds (10 minutes)";
     "Open problems and reading (10 minutes)"];
  parse_content := λ _, Returned (Some
    {| executive_summary := Some "Graphs, from trees to flows.";
       sections := None;
       content_risks := Some ["The hour is short."] |});
  format_accessed := λ s, Returned s;
  str_title := λ s, s
|}.


(** A world in which the model answers with a JSON list where an object is
    expected: the reply parses, to a value that is not an object. *)
Definition listing : Env := {|
  World := nat;
  MODEL := "gpt-4o-mini";
  uuid4 := λ w, ("c0ffee00-0000-4000-8000-000000000000", w);
  now_isoformat := λ w, ("2024-05-01T10:00:00", w);
  now_long := λ w, ("May 01, 2024 at 10:00 AM", w);
  tavily_search := λ query w, (Returned [], w);
  llm_invoke := λ _ w, (Returned "[1, 2, 3]", S w);
  fetch_with_beautifulsoup := λ _ w, (None, w);
  str_exn := λ _, "error";
  format_extract_prompt := λ topic context, topic +:+ nl +:+ context;
  format_synthesize_prompt := λ topic claims_text, topic +:+ nl +:+ claims_text;
  format_content_prompt := λ topic claims_text plan_text,
    topic +:+ nl +:+ claims_text +:+ nl +:+ plan_text;
  parse_claims := λ _, Raised TypeError;
  parse_plan := λ _, [];
  parse_content := λ _, Returned None;
  format_accessed := λ s, Returned s;
  str_title := λ s, s
|}.

(** The run stopped before [name], and the store holds that pair for the
    thread. *)
Definition parked_before `{Env} (name thread_id : string) (run : Advance)
    (state : AgentState) : Prop :=
  adv_result run = inr (Some name, state)
  ∧ adv_store run !! thread_id = Some {| ck_state := state; pending_node := Some name |}.

(** ** [backend/utils/prompt_loader.py]

    The prompt directory is a finite map from file names to file contents; a
    file exists when its name is a key.  Reading an existing file is taken
    to succeed. *)
Module prompt_loader.






End prompt_loader.

(** * Properties *)

(** ** Routers *)

Lemma route_after_plan_review_cases (state : AgentState) :
  route_after_plan_review state =
    if bool_decide (decision_field state = Some (PStr "approve"))
    then PStr "fact_verification" else PStr "refine".
Proof.
  unfold route_after_plan_review, decision_field.
  destruct (human_feedback state) as [fb|]; simpl.
  - destruct (fb !! "decision") as [[|b|z|s|l]|] eqn:Hd; simpl; try done.
    destruct (decide (s = "approve")) as [->|Hne]; [done|].
    rewrite !bool_decide_eq_false_2; [done|congruence|done].
  - done.
Qed.

(** C3.  Router A is a function of the decision field alone: it answers
    ["fact_verification"] exactly when the decision is the string
    ["approve"], and ["refine"] for every other value, an absent record or an
    absent field included.  It is total: it has no failing case. *)
Theorem route_after_plan_review_spec (state : AgentState) :
  (route_after_plan_review state = PStr "fact_verification"
     ↔ decision_field state = Some (PStr "approve"))
  ∧ (route_after_plan_review state = PStr "refine"
     ↔ decision_field state ≠ Some (PStr "approve"))
  ∧ route_after_plan_review state =
      if bool_decide (decision_field state = Some (PStr "approve"))
      then PStr "fact_verification" else PStr "refine".
Proof.
  rewrite route_after_plan_review_cases.
  case_bool_decide as Hd; (split; [|split]); try done; split; congruence.
Qed.

Lemma route_after_plan_review_absent (state : AgentState) :
  human_feedback state = None ∨ human_feedback state = Some ∅
  ∨ (∃ fb, human_feedback state = Some fb ∧ fb !! "decision" = None)
  ∨ (∃ fb, human_feedback state = Some fb ∧ fb !! "decision" = Some (PStr "")) →
  route_after_plan_review state = PStr "refine".
Proof.
  intros Hcase. rewrite route_after_plan_review_cases. unfold decision_field.
  destruct Hcase as [->|[->|[(fb & -> & Hd)|(fb & -> & Hd)]]]; simpl;
    rewrite ?lookup_empty, ?Hd; done.
Qed.

Lemma path_map_refine (r : string) :
  (list_to_map [("search", "search"); ("synthesize", "synthesize");
                ("fact_verification", "fact_verification")] : gmap string string) !! r
  = if bool_decide (r ∈ legal_routes) then Some r else None.
Proof.
  unfold legal_routes. simpl.
  destruct (decide (r = "search")) as [->|H1]; [reflexivity|].
  destruct (decide (r = "synthesize")) as [->|H2]; [reflexivity|].
  destruct (decide (r = "fact_verification")) as [->|H3]; [reflexivity|].
  rewrite !lookup_insert_ne, lookup_empty by done.
  rewrite bool_decide_eq_false_2; [done|].
  rewrite !elem_of_cons, elem_of_nil. tauto.
Qed.

Lemma legal_route_not_END (r : string) : r ∈ legal_routes → r ≠ END.
Proof.
  unfold legal_routes. rewrite !elem_of_cons, elem_of_nil.
  intros [->|[->|[->|[]]]]; done.
Qed.

(** What the edge out of [refine] makes of Router B's answer. *)
Lemma next_node_refine `{Env} (state : AgentState) :
  next_node build_graph "refine" state =
    match route_after_refine state with
    | PStr r => if bool_decide (r ∈ legal_routes) then inr (Some r) else inl RoutingError
    | _ => inl RoutingError
    end.
Proof.
  assert (Hb : g_branches build_graph !! "refine" =
    Some (route_after_refine,
          list_to_map [("search", "search"); ("synthesize", "synthesize");
                       ("fact_verification", "fact_verification")])) by reflexivity.
  assert (He : g_edges build_graph !! "refine" = None) by reflexivity.
  unfold next_node. rewrite He, Hb.
  destruct (route_after_refine state) as [|b|z|r|l]; try done.
  rewrite path_map_refine. case_bool_decide as Hr; [|done].
  rewrite bool_decide_eq_false_2; [done|]. by apply legal_route_not_END.
Qed.

(** C4, amended.  Router B returns the [route_to] field whenever the field
    is present, whatever it holds, and ["fact_verification"] only when it is
    absent.  The path map declared for the edge out of [refine] has the three
    legal targets as its only keys, so a value outside them, which the router
    returns as it is, has no entry there. *)
Theorem route_after_refine_spec `{Env} (state : AgentState) :
  match route_to state with
  | None => route_after_refine state = PStr "fact_verification"
  | Some v => route_after_refine state = v
  end
  ∧ ∃ path_map : gmap string string,
      g_branches build_graph !! "refine" = Some (route_after_refine, path_map)
      ∧ ∀ r, path_map !! r = if bool_decide (r ∈ legal_routes) then Some r else None.
Proof.
  split.
  - unfold route_after_refine. by destruct (route_to state).
  - eexists. split; [reflexivity|]. apply path_map_refine.
Qed.

(** A state whose [route_to] holds a string that is no declared target:
    Router B answers that string, not ["fact_verification"]. *)
Example route_after_refine_unknown_target :
  let state := set_route_to (Some (PStr "plan_review")) parked_state in
  route_to state = Some (PStr "plan_review")
  ∧ ("plan_review" ∉ legal_routes)
  ∧ route_after_refine state = PStr "plan_review"
  ∧ route_after_refine state ≠ PStr "fact_verification".
Proof.
  simpl. repeat split; try done.
  unfold legal_routes. rewrite !elem_of_cons, elem_of_nil.
  intros [?|[?|[?|[]]]]; done.
Qed.

(** ** [start_research] *)

(** C7.  The state [start_research] hands to the engine has the topic of the
    request, every sequence empty, an empty feedback record, no brief, and
    [route_to] set to ["fact_verification"]; the thread is opened with it. *)
Theorem start_research_initial_state `{Env} (request : ResearchRequest)
    (store : gmap string Checkpoint) (w : World) :
  let state := initial_state request in
  topic state = req_topic request
  ∧ search_queries state = []
  ∧ raw_search_results state = []
  ∧ extracted_claims state = []
  ∧ draft_plan state = []
  ∧ refined_plan state = []
  ∧ verified_claims state = []
  ∧ node_logs state = []
  ∧ messages state = []
  ∧ human_feedback state = Some ∅
  ∧ final_brief state = None
  ∧ refinement_notes state = ""
  ∧ route_to state = Some (PStr "fact_verification")
  ∧ let run := invoke recursion_limit compiled_graph (Some state)
                 (uuid4 w).1 store (uuid4 w).2 in
    (start_research request store w).1.2 = adv_store run
    ∧ (start_research request store w).2 = adv_world run
    ∧ match adv_result run with
      | inl err => (start_research request store w).1.1
                   = HTTPException 500 (str_engine_error err)
      | inr (_, result) =>
        ∃ body, (start_research request store w).1.1 = Ok body ∧ r_data body = result
      end.
Proof.
  cbv zeta. repeat (split; [reflexivity|]).
  unfold start_research. destruct (uuid4 w) as [thread_id w1]. cbn [fst snd].
  destruct (adv_result _) as [err|[pending result]]; cbn [fst snd]; eauto.
Qed.

(** ** Computations: running a bind, and the logger *)

Section computations.
Context `{Env}.

Lemma bind_run {A B} (m : M A) (f : A → M B) (w : World) :
  (m ≫= f) w = match m w with
                | (Returned a, w') => f a w'
                | (Raised e, w') => (Raised e, w')
                end.
Proof. reflexivity. Qed.

Lemma bind_returned {A B} (m : M A) (f : A → M B) (w w' : World) (b : B) :
  (m ≫= f) w = (Returned b, w') →
  ∃ a w1, m w = (Returned a, w1) ∧ f a w1 = (Returned b, w').
Proof.
  rewrite bind_run. destruct (m w) as [[a|e] w1]; [eauto|discriminate].
Qed.

Lemma bind_returns {A B} (m : M A) (f : A → M B) (w w1 : World) (a : A) :
  m w = (Returned a, w1) → (m ≫= f) w = f a w1.
Proof. intros Hm. by rewrite bind_run, Hm. Qed.

Lemma bind_raises {A B} (m : M A) (f : A → M B) (w w1 : World) (e : exn) :
  m w = (Raised e, w1) → (m ≫= f) w = (Raised e, w1).
Proof. intros Hm. by rewrite bind_run, Hm. Qed.

Lemma ret_run {A} (a : A) (w : World) : (mret a : M A) w = (Returned a, w).
Proof. reflexivity. Qed.

(** The logger always returns, and the entry carries the node's name. *)
Lemma log_node_execution_returns name ins outs p mc hd (w : World) :
  ∃ entry, log_node_execution name ins outs p mc hd w = (Returned entry, (now_isoformat w).2)
           ∧ node entry = name ∧ inputs entry = ins ∧ outputs entry = outs.
Proof.
  unfold log_node_execution. rewrite bind_run. unfold lift_total.
  destruct (now_isoformat w) as [ts w1]. rewrite ret_run. eauto.
Qed.

(** A node that ends with [entry ← log ...; mret (append_log entry st)]. *)
Lemma log_and_return name ins outs p mc hd (st : AgentState) (w : World) :
  ∃ entry,
    (log_node_execution name ins outs p mc hd ≫= λ entry, mret (append_log entry st)) w
      = (Returned (append_log entry st), (now_isoformat w).2)
    ∧ node entry = name ∧ inputs entry = ins ∧ outputs entry = outs.
Proof.
  destruct (log_node_execution_returns name ins outs p mc hd w)
    as (entry & Hrun & Hname & Hins & Houts).
  exists entry. by rewrite (bind_returns _ _ _ _ _ Hrun), ret_run.
Qed.

Lemma logged_once_append name entry (st0 st : AgentState) :
  node entry = name → node_logs st = node_logs st0 →
  logged_once name st0 (append_log entry st).
Proof. intros Hname Hlogs. exists entry. simpl. by rewrite Hlogs. Qed.
End computations.

(** ** The refine step *)

Section refine.
Context `{Env}.

(** Whenever the refine step returns, it has set [route_to] to one of the
    three declared targets and has written one log entry. *)
Lemma refinement_node_route_to (state state' : AgentState) (w w' : World) :
  refinement_node state w = (Returned state', w') →
  (∃ r, route_to state' = Some (PStr r) ∧ r ∈ legal_routes)
  ∧ logged_once "refine" state state'.
Proof.
  unfold refinement_node. intros Hrun.
  apply bind_returned in Hrun as (notes & w1 & _ & Hrun).
  apply bind_returned in Hrun as (st1 & w2 & Hbody & Hrun).
  destruct (log_and_return "refine"
              [("decision", default (PStr "") (default ∅ (human_feedback state) !! "decision"))]
              [("route_to", default PNone (route_to st1))] None None
              (Some (default ∅ (human_feedback state))) st1 w2)
    as (entry & Hlog & Hname & _).
  rewrite Hlog in Hrun. injection Hrun as <- <-.
  assert (Hgoal : (∃ r, route_to st1 = Some (PStr r) ∧ r ∈ legal_routes)
                  ∧ node_logs st1 = node_logs state).
  { unfold legal_routes.
    repeat match type of Hbody with
           | (if ?c then _ else _) _ = _ => destruct c
           end.
    - injection Hbody as <- <-. split; [eexists; split; [reflexivity|]|done].
      set_solver.
    - injection Hbody as <- <-. split; [eexists; split; [reflexivity|]|done].
      set_solver.
    - apply bind_returned in Hbody as (st2 & w3 & Hplan & Hbody).
      injection Hbody as <- <-. split; [eexists; split; [reflexivity|set_solver]|].
      simpl. destruct (negb _).
      + destruct (draft_plan state !! 0%nat); [|discriminate].
        by injection Hplan as <- <-.
      + by injection Hplan as <- <-.
    - injection Hbody as <- <-. split; [eexists; split; [reflexivity|]|done].
      set_solver.
    - injection Hbody as <- <-. split; [eexists; split; [reflexivity|]|done].
      set_solver. }
  destruct Hgoal as [Hroute Hlogs]. split; [done|].
  by apply logged_once_append.
Qed.

(** After a refine step that returned, Router B answers a declared target
    and the edge is followed. *)
Lemma refinement_node_then_route (state state' : AgentState) (w w' : World) :
  refinement_node state w = (Returned state', w') →
  ∃ r, r ∈ legal_routes ∧ route_after_refine state' = PStr r
       ∧ next_node build_graph "refine" state' = inr (Some r).
Proof.
  intros Hrun. apply refinement_node_route_to in Hrun as [(r & Hr & Hlegal) _].
  exists r. rewrite next_node_refine. unfold route_after_refine. rewrite Hr. simpl.
  by rewrite bool_decide_eq_true_2.
Qed.

(** The refine step returns when the notes are a string (or absent) and,
    for an emphasis request with notes, the draft plan is not empty. *)
Lemma refinement_node_returns (state : AgentState) (w : World) (fb : gmap string pyval) :
  human_feedback state = Some fb →
  (fb !! "notes" = None ∨ ∃ s, fb !! "notes" = Some (PStr s)) →
  draft_plan state ≠ [] →
  ∃ state' w', refinement_node state w = (Returned state', w').
Proof.
  intros Hfb Hnotes Hplan. unfold refinement_node. rewrite Hfb. simpl.
  assert (∃ s, default (PStr "") (fb !! "notes") = PStr s) as [s ->].
  { destruct Hnotes as [->|[s ->]]; simpl; eauto. }
  rewrite bind_run, ret_run.
  assert (∃ first, draft_plan state !! 0%nat = Some first) as [first Hfirst].
  { destruct (draft_plan state); [done|simpl; eauto]. }
  repeat match goal with
         | |- context [if ?c then _ else _] => destruct c
         end;
    rewrite ?Hfirst, ?bind_run, ?ret_run;
    match goal with
    | |- ∃ _ _, (log_node_execution ?n ?i ?o ?p ?mc ?hd ≫= _) ?w1 = _ =>
      match goal with
      | |- context [append_log _ ?st] =>
        destruct (log_and_return n i o p mc hd st w1) as (e & He & _)
      end
    end; rewrite He; eauto.
Qed.
End refine.

(** C10.  The refine step does not return on every input: a feedback record
    whose notes are [None] (a resume request with ["notes": null]) makes
    [.strip()] raise, and an emphasis request with notes on an empty draft
    plan makes [draft_plan[0]] raise; in both cases no state and no
    [route_to] come back. *)
Theorem refinement_node_raises `{Env} (state : AgentState) (w : World) :
  refinement_node
    (set_human_feedback
       (Some (feedback_record {| decision := "rework"; notes := None |} "plan_review"))
       state) w
  = (Raised AttributeError, w)
  ∧ refinement_node
      (set_draft_plan []
        (set_human_feedback
          (Some (feedback_record {| decision := "emphasize_topic"; notes := Some "history" |}
                                 "plan_review"))
          state)) w
    = (Raised IndexError, w).
Proof. split; reflexivity. Qed.

(** The first of these inputs, end to end: the thread parked before
    [plan_review] is resumed with notes [null]; [plan_review] runs, Router A
    sends the run to [refine], the step raises, the endpoint answers 500 and
    the thread stays pending at [refine]. *)
Example resume_with_null_notes :
  let '(response, store, _) :=
    resume_research (H := scripted) "t1" {| decision := "rework"; notes := None |}
                    (parked_store (Some "plan_review")) 0 in
  response = HTTPException 500 "error"
  ∧ pending_node <$> store !! "t1" = Some (Some "refine").
Proof. vm_compute. split; reflexivity. Qed.

(** ** One log entry per execution *)

Section logging.
Context `{Env}.

Lemma input_node_logs (state : AgentState) (w : World) :
  ∃ state' w', input_node state w = (Returned state', w')
               ∧ logged_once "input" state state'.
Proof.
  unfold input_node.
  match goal with
  | |- context [(log_node_execution ?n ?i ?o ?p ?mc ?hd ≫= λ entry, mret (append_log entry ?st)) _] =>
    destruct (log_and_return n i o p mc hd st w) as (e & He & Hname & _)
  end.
  do 2 eexists. split; [exact He|]. by apply logged_once_append.
Qed.

Lemma hitl_plan_review_logs (state : AgentState) (w : World) :
  ∃ entry, hitl_plan_review state w = (Returned (append_log entry state), (now_isoformat w).2)
           ∧ node entry = "plan_review"
           ∧ outputs entry = [("status", PStr "awaiting_human_review")].
Proof.
  unfold hitl_plan_review.
  destruct (log_and_return "plan_review" [("plan_items", py_len (draft_plan state))]
              [("status", PStr "awaiting_human_review")] None None None state w)
    as (e & He & Hname & _ & Houts).
  eauto.
Qed.

Lemma hitl_fact_verification_logs (state : AgentState) (w : World) :
  ∃ entry, hitl_fact_verification state w
             = (Returned (append_log entry state), (now_isoformat w).2)
           ∧ node entry = "fact_verification"
           ∧ outputs entry = [("status", PStr "awaiting_human_verification")].
Proof.
  unfold hitl_fact_verification.
  destruct (log_and_return "fact_verification"
              [("claims_presented", py_len (take 6 (verified_claims state)))]
              [("status", PStr "awaiting_human_verification")] None None None state w)
    as (e & He & Hname & _ & Houts).
  eauto.
Qed.

(** The search loop never raises: a failing query is skipped. *)
Lemma search_loop_returns (queries : list string) (results : list SearchResult) (w : World) :
  ∃ results' w',
    for_each queries results (λ results query,
      try_except (hits ← tavily_search query; mret (results ++ hits))
                 (λ _, mret results)) w
    = (Returned results', w').
Proof.
  revert results w. induction queries as [|query queries IH]; intros results w; simpl.
  - rewrite ret_run. eauto.
  - rewrite bind_run. unfold try_except at 1. rewrite bind_run.
    destruct (tavily_search query w) as [[hits|e] w1]; rewrite ret_run; apply IH.
Qed.

Lemma search_node_logs (state : AgentState) (w : World) :
  ∃ state' w', search_node state w = (Returned state', w')
               ∧ logged_once "search" state state'.
Proof.
  unfold search_node. rewrite bind_run.
  destruct (search_loop_returns (search_queries state) [] w) as (results & w1 & ->).
  match goal with
  | |- context [(log_node_execution ?n ?i ?o ?p ?mc ?hd ≫= λ entry, mret (append_log entry ?st)) _] =>
    destruct (log_and_return n i o p mc hd st w1) as (e & He & Hname & _)
  end.
  do 2 eexists. split; [exact He|]. by apply logged_once_append.
Qed.
End logging.

(** C5.  Two step functions return without a log entry: [extract_node] when
    there are no search results, and [synthesis_node] when fewer than three
    claims were verified.  The state they return has the logs it came
    with. *)
Theorem early_returns_skip_the_log `{Env} (state : AgentState) (w : World) :
  (∃ state', extract_node (set_raw_search_results [] state) w = (Returned state', w)
             ∧ node_logs state' = node_logs state)
  ∧ (∃ state', synthesis_node (set_verified_claims [] state) w = (Returned state', w)
               ∧ node_logs state' = node_logs state
               ∧ length (draft_plan state') = 5).
Proof. split; eexists; (split; [reflexivity|done]). Qed.

(** The same, end to end: a new run in a world where Tavily finds nothing
    executes six nodes before it stops at [plan_review], and the state it
    stops with holds four log entries. *)
Example six_nodes_four_entries :
  let run := invoke (H := scripted) recursion_limit compiled_graph
               (Some (initial_state {| req_topic := "graphs" |})) "t1" ∅ 0 in
  adv_trace run = ["input"; "search"; "extract"; "prioritize"; "verify"; "synthesize"]
  ∧ ∃ state, adv_result run = inr (Some "plan_review", state)
             ∧ map node (node_logs state) = ["input"; "search"; "prioritize"; "verify"].
Proof. vm_compute. split; [reflexivity|]. eexists. split; reflexivity. Qed.

(** ** The verify step *)

Section verify.
Context `{Env}.

(** The validator contains every failure of the chat model. *)
Lemma verify_claim_with_llm_returns (text : string) (content : option string) (w : World) :
  ∃ v w', verify_claim_with_llm text content w = (Returned v, w').
Proof.
  unfold verify_claim_with_llm. destruct (negb (truthy content)).
  - rewrite ret_run. eauto.
  - unfold try_except. rewrite bind_run.
    destruct (llm_invoke _ w) as [[reply|e] w1]; rewrite ret_run; eauto.
Qed.

Lemma set_objects_same (st : AgentState) : st = set_objects (objects st) st.
Proof. by destruct st. Qed.

(** One iteration: it returns; it touches no object but [r]; it appends
    [r] only after setting its flag. *)
Lemma verify_one_spec (vc : list ref) (st : AgentState) (r : ref) (w : World) :
  r < length (objects st) →
  ∃ vc' st' w',
    verify_one (vc, st) r w = (Returned (vc', st'), w')
    ∧ st' = set_objects (objects st') st
    ∧ length (objects st') = length (objects st)
    ∧ (∀ r', r' ≠ r → objects st' !! r' = objects st !! r')
    ∧ (vc' = vc ∨ (vc' = vc ++ [r] ∧ verified_at st' r)).
Proof.
  intros Hr. destruct (lookup_lt_is_Some_2 _ _ Hr) as [c Hc].
  unfold verify_one, deref. cbv beta iota. rewrite bind_run, Hc, ret_run, bind_run.
  set (found := find_source_content (raw_search_results st) (source_url c)).
  assert (Hsc : ∃ sc w1,
    (if negb (truthy found) || (String.length (default "" found) <? 200)%nat
     then lift_total (fetch_with_beautifulsoup (source_url c))
     else mret found) w = (Returned sc, w1)).
  { destruct (_ || _).
    - unfold lift_total. destruct (fetch_with_beautifulsoup _ w). eauto.
    - rewrite ret_run. eauto. }
  destruct Hsc as (sc & w1 & ->).
  destruct (negb (truthy sc)).
  { rewrite ret_run. exists vc, st, w1.
    split_and!; auto using set_objects_same. }
  destruct (verify_claim_with_llm_returns (claim c) sc w1) as (v & w2 & Hv).
  rewrite bind_run, Hv. cbv zeta. cbn [verified].
  destruct (v_verified v) eqn:Hflag; rewrite ret_run;
    do 3 eexists; (split; [reflexivity|]); simpl;
    (split_and!; [done|by rewrite length_insert
                 |by intros r' Hne; rewrite list_lookup_insert_ne|]).
  - right. split; [done|]. eexists. split; [by apply list_lookup_insert_eq|done].
  - by left.
Qed.

(** The loop, from any accumulator whose references are already verified
    and are not met again. *)
Lemma verify_loop_spec (l : list ref) :
  ∀ (vc : list ref) (st : AgentState) (w : World),
    NoDup l →
    Forall (λ r, r < length (objects st)) l →
    Forall (verified_at st) vc →
    (∀ r, r ∈ vc → r ∉ l) →
    ∃ k st' w',
      for_each l (vc, st) verify_one w = (Returned (vc ++ k, st'), w')
      ∧ sublist k l
      ∧ Forall (verified_at st') (vc ++ k)
      ∧ st' = set_objects (objects st') st
      ∧ length (objects st') = length (objects st).
Proof.
  induction l as [|r l IH]; intros vc st w Hnodup Hlive Hvc Hfresh.
  - exists [], st, w. rewrite app_nil_r. simpl. rewrite ret_run.
    split_and!; auto using set_objects_same.
  - apply NoDup_cons in Hnodup as [Hrl Hnodup].
    apply Forall_cons in Hlive as [Hr Hlive].
    destruct (verify_one_spec vc st r w Hr)
      as (vc1 & st1 & w1 & Hone & Hframe & Hlen & Hother & Hvc1).
    cbn [for_each]. rewrite bind_run, Hone.
    assert (Hkept : Forall (verified_at st1) vc).
    { rewrite Forall_forall in Hvc |- *. intros r' Hr'.
      destruct (Hvc r' Hr') as (c & Hc & Hflag). exists c. split; [|done].
      rewrite Hother; [done|]. intros ->. apply (Hfresh r Hr'). by left. }
    assert (Hlive1 : Forall (λ r, r < length (objects st1)) l) by by rewrite Hlen.
    destruct Hvc1 as [->|[-> Hnew]].
    + destruct (IH vc st1 w1 Hnodup Hlive1 Hkept)
        as (k & st' & w' & Hloop & Hsub & Hall & Hframe' & Hlen').
      { intros r' Hr' Hin. apply (Hfresh r' Hr'). by right. }
      exists k, st', w'. split_and!; [done|by apply sublist_cons|done| |congruence].
      rewrite Hframe', Hframe. by destruct st.
    + destruct (IH (vc ++ [r]) st1 w1 Hnodup Hlive1)
        as (k & st' & w' & Hloop & Hsub & Hall & Hframe' & Hlen').
      { apply Forall_app. split; [done|]. by apply Forall_singleton. }
      { intros r' [Hr'|Hr']%elem_of_app Hin.
        - apply (Hfresh r' Hr'). by right.
        - apply list_elem_of_singleton in Hr' as ->. done. }
      exists (r :: k), st', w'. rewrite <- app_assoc in Hloop, Hall. simpl in *.
      split_and!; [done|by apply sublist_skip|done| |congruence].
      rewrite Hframe', Hframe. by destruct st.
Qed.
End verify.

(** C9.  On a state whose extracted claims are distinct objects, the verify
    step returns, every claim in [verified_claims] then has its [verified]
    flag set, and [verified_claims] is drawn, in order, from the first twelve
    extracted claims, so it holds at most twelve. *)
Theorem verification_node_postcondition `{Env} (state : AgentState) (w : World) :
  claims_wf state →
  ∃ state' w',
    verification_node state w = (Returned state', w')
    ∧ Forall (verified_at state') (verified_claims state')
    ∧ sublist (verified_claims state') (take 12 (extracted_claims state))
    ∧ (length (verified_claims state') ≤ 12)%nat
    ∧ logged_once "verify" state state'.
Proof.
  intros [Hnodup Hlive]. unfold verification_node.
  destruct (verify_loop_spec (take 12 (extracted_claims state)) [] state w)
    as (k & st1 & w1 & Hloop & Hsub & Hall & Hframe & Hlen).
  { eapply sublist_NoDup; [done|apply sublist_take]. }
  { by apply Forall_take. }
  { constructor. }
  { intros r Hr. by apply elem_of_nil in Hr. }
  simpl in Hloop, Hall. rewrite bind_run, Hloop. cbv zeta.
  match goal with
  | |- context [(log_node_execution ?n ?i ?o ?p ?mc ?hd ≫= λ entry, mret (append_log entry ?st)) _] =>
    destruct (log_and_return n i o p mc hd st w1) as (e & He & Hname & _)
  end.
  do 2 eexists. split; [exact He|]. simpl.
  split_and!; [done|done| |].
  - apply sublist_length in Hsub. rewrite length_take in Hsub. lia.
  - exists e. split; [|done]. simpl. rewrite Hframe. by destruct state.
Qed.

Lemma verification_node_postcondition_witness :
  claims_wf two_claims_state
  ∧ ∃ state' w',
      verification_node (H := scripted) two_claims_state 0%nat = (Returned state', w')
      ∧ Forall (verified_at state') (verified_claims state')
      ∧ sublist (verified_claims state') (take 12 (extracted_claims two_claims_state))
      ∧ (length (verified_claims state') ≤ 12)%nat
      ∧ logged_once "verify" two_claims_state state'.
Proof.
  assert (Hwf : claims_wf two_claims_state).
  { split; vm_compute.
    - apply NoDup_cons. split; [|apply NoDup_singleton].
      intros Hin. apply list_elem_of_singleton in Hin. lia.
    - repeat constructor. }
  split; [exact Hwf|].
  apply (verification_node_postcondition (H := scripted) two_claims_state 0%nat Hwf).
Defined.

(** In the scripted world the model accepts the first claim and rejects the
    second: only the first is kept, with its flag set. *)
Example verification_node_two_claims :
  ∃ state', verification_node (H := scripted) two_claims_state 0%nat = (Returned state', 2%nat)
            ∧ verified_claims state' = [0%nat]
            ∧ verified <$> objects state' = [true; false].
Proof. eexists. vm_compute. split_and!; reflexivity. Qed.

(** ** Where the distinct objects come from *)

Section claim_objects.
Context `{Env}.

Lemma build_claim_spec (claims : list ref) (st : AgentState) (cd : ClaimDict) (w : World) :
  ∃ claims' st' w',
    build_claim (claims, st) cd w = (Returned (claims', st'), w')
    ∧ ((claims' = claims ∧ st' = st)
       ∨ ∃ c, claims' = claims ++ [length (objects st)]
              ∧ st' = set_objects (objects st ++ [c]) st).
Proof.
  unfold build_claim. cbv beta iota zeta. destruct (_ && _).
  - rewrite bind_run. unfold lift_total. destruct (now_isoformat w) as [now w1].
    rewrite ret_run. do 3 eexists. split; [reflexivity|]. right. eauto.
  - rewrite ret_run. do 3 eexists. split; [reflexivity|]. by left.
Qed.

(** Every reference the extraction loop hands out is new. *)
Lemma build_claims_loop (l : list ClaimDict) :
  ∀ (claims : list ref) (st : AgentState) (w : World),
    NoDup claims →
    Forall (λ r, r < length (objects st)) claims →
    ∃ claims' st' w',
      for_each l (claims, st) build_claim w = (Returned (claims', st'), w')
      ∧ NoDup claims'
      ∧ Forall (λ r, r < length (objects st')) claims'.
Proof.
  induction l as [|cd l IH]; intros claims st w Hnodup Hlive; cbn [for_each].
  - rewrite ret_run. eauto 10.
  - destruct (build_claim_spec claims st cd w) as (claims1 & st1 & w1 & Hone & Hcase).
    rewrite bind_run, Hone.
    destruct Hcase as [[-> ->]|(c & -> & ->)]; apply IH; try done.
    + apply NoDup_app. split_and!; [done| |apply NoDup_singleton].
      intros r Hr ->%list_elem_of_singleton.
      rewrite Forall_forall in Hlive. specialize (Hlive _ Hr). lia.
    + simpl. rewrite length_app. simpl. apply Forall_app. split.
      * eapply Forall_impl; [exact Hlive|]. simpl. lia.
      * apply Forall_singleton. lia.
Qed.

(** Whatever [extract_node] is given, the claims it leaves are distinct
    objects. *)
Lemma extract_node_wf (state state' : AgentState) (w w' : World) :
  extract_node state w = (Returned state', w') → claims_wf state'.
Proof.
  unfold extract_node. destruct (raw_search_results state) as [|hit hits] eqn:Hraw.
  { rewrite ret_run. intros [= <- <-]. split; simpl; constructor. }
  intros Hrun.
  apply bind_returned in Hrun as (sources_context & w1 & _ & Hrun).
  cbv zeta in Hrun.
  apply bind_returned in Hrun as (st1 & w2 & Htry & Hrun).
  apply bind_returned in Hrun as (entry & w3 & _ & Hret).
  rewrite ret_run in Hret. injection Hret as <- <-.
  assert (Hwf : claims_wf st1); [|exact Hwf].
  unfold try_except in Htry.
  match type of Htry with
  | match ?body w1 with _ => _ end = _ => destruct (body w1) as [[st_b|e] w_b] eqn:Hbody
  end.
  - injection Htry as <- <-.
    apply bind_returned in Hbody as (reply & w4 & _ & Hbody).
    apply bind_returned in Hbody as (claims_data & w5 & _ & Hbody).
    apply bind_returned in Hbody as ([claims st2] & w6 & Hloop & Hret).
    rewrite ret_run in Hret. injection Hret as <- <-.
    unfold build_claims in Hloop.
    destruct (build_claims_loop (take 10 claims_data) [] state w5)
      as (claims' & st' & w7 & Hloop' & Hnodup & Hlive); [constructor..|].
    rewrite Hloop' in Hloop. injection Hloop as <- <- <-. by split.
  - rewrite ret_run in Htry. injection Htry as <- <-. split; simpl; constructor.
Qed.

Lemma prioritize_loop (state : AgentState) (l : list ref) :
  ∀ (p rg : list ref) (w : World),
    Forall (λ r, r < length (objects state)) l →
    ∃ p' rg' w',
      for_each l (p, rg) (prioritize_one state) w = (Returned (p', rg'), w')
      ∧ p' ++ rg' ≡ₚ (p ++ rg) ++ l.
Proof.
  induction l as [|r l IH]; intros p rg w Hlive; cbn [for_each].
  - rewrite ret_run, app_nil_r. eauto.
  - apply Forall_cons in Hlive as [Hr Hlive].
    destruct (lookup_lt_is_Some_2 _ _ Hr) as [c Hc].
    rewrite bind_run. unfold prioritize_one at 1, deref. cbv beta iota.
    rewrite bind_run, Hc, ret_run. cbv zeta.
    destruct (existsb _ _); rewrite ret_run.
    + destruct (IH (p ++ [r]) rg w Hlive) as (p' & rg' & w' & -> & Hperm).
      do 3 eexists. split; [reflexivity|]. rewrite Hperm.
      rewrite <- !app_assoc. simpl. by rewrite (Permutation_middle rg l r).
    + destruct (IH p (rg ++ [r]) w Hlive) as (p' & rg' & w' & -> & Hperm).
      do 3 eexists. split; [reflexivity|]. rewrite Hperm.
      by rewrite <- !app_assoc.
Qed.

(** The prioritize step reorders the extracted claims and nothing else. *)
Lemma author_prioritization_node_wf (state : AgentState) (w : World) :
  claims_wf state →
  ∃ state' w',
    author_prioritization_node state w = (Returned state', w')
    ∧ claims_wf state'
    ∧ extracted_claims state' ≡ₚ extracted_claims state
    ∧ logged_once "prioritize" state state'.
Proof.
  intros [Hnodup Hlive]. unfold author_prioritization_node.
  destruct (prioritize_loop state (extracted_claims state) [] [] w Hlive)
    as (p & rg & w1 & Hloop & Hperm).
  rewrite bind_run, Hloop. cbv zeta. simpl in Hperm.
  match goal with
  | |- context [(log_node_execution ?n ?i ?o ?pr ?mc ?hd ≫= λ entry, mret (append_log entry ?st)) _] =>
    destruct (log_and_return n i o pr mc hd st w1) as (e & He & Hname & _)
  end.
  do 2 eexists. split; [exact He|]. simpl. split_and!.
  - split; simpl; by rewrite Hperm.
  - done.
  - by exists e.
Qed.
End claim_objects.

(** ** The engine on this graph *)

Section engine.
Context `{Env}.

Lemma interrupt_before_cases (name : string) :
  name ∈ interrupt_before compiled_graph ↔ name = "plan_review" ∨ name = "fact_verification".
Proof. simpl. rewrite !elem_of_cons, elem_of_nil. tauto. Qed.

(** One iteration of the loop at a pending node. *)
Lemma advance_loop_S (fuel : nat) (cg : CompiledGraph) (thread_id : string)
    (resumed : bool) (trace : list string) (state : AgentState) (name : string)
    (store : gmap string Checkpoint) (w : World) :
  advance_loop (S fuel) cg thread_id resumed trace state (Some name) store w
  = if bool_decide (name ∈ interrupt_before cg) && negb resumed then
      {| adv_result := inr (Some name, state); adv_trace := trace;
         adv_store := <[thread_id := {| ck_state := state; pending_node := Some name |}]> store;
         adv_world := w |}
    else
      match (g_nodes (graph cg) !! name : option (AgentState → M AgentState)) with
      | None => {| adv_result := inl RoutingError; adv_trace := trace;
                   adv_store := store; adv_world := w |}
      | Some step =>
        match step state w with
        | (Raised e, w') =>
          {| adv_result := inl (StepFailure name e); adv_trace := trace ++ [name];
             adv_store := store; adv_world := w' |}
        | (Returned state', w') =>
          match next_node (graph cg) name state' with
          | inl err => {| adv_result := inl err; adv_trace := trace ++ [name];
                          adv_store := store; adv_world := w' |}
          | inr next =>
            advance_loop fuel cg thread_id false (trace ++ [name]) state' next
              (<[thread_id := {| ck_state := state'; pending_node := next |}]> store) w'
          end
        end
      end.
Proof. reflexivity. Qed.

(** An interrupt node that is entered over an edge is not run: the loop
    persists the pair and stops. *)
Lemma advance_loop_interrupts (fuel : nat) (cg : CompiledGraph) (thread_id : string)
    (trace : list string) (state : AgentState) (name : string)
    (store : gmap string Checkpoint) (w : World) :
  name ∈ interrupt_before cg →
  advance_loop (S fuel) cg thread_id false trace state (Some name) store w
  = {| adv_result := inr (Some name, state);
       adv_trace := trace;
       adv_store := <[thread_id := {| ck_state := state; pending_node := Some name |}]> store;
       adv_world := w |}.
Proof. intros Hin. by rewrite advance_loop_S, bool_decide_eq_true_2. Qed.

(** The first iteration of a resuming call runs the pending node. *)
Lemma advance_loop_resumes (fuel : nat) (cg : CompiledGraph) (thread_id : string)
    (trace : list string) (state state' : AgentState) (name : string)
    (step : AgentState → M AgentState) (next : option string)
    (store : gmap string Checkpoint) (w w' : World) :
  g_nodes (graph cg) !! name = Some step →
  step state w = (Returned state', w') →
  next_node (graph cg) name state' = inr next →
  advance_loop (S fuel) cg thread_id true trace state (Some name) store w
  = advance_loop fuel cg thread_id false (trace ++ [name]) state' next
      (<[thread_id := {| ck_state := state'; pending_node := next |}]> store) w'.
Proof.
  intros Hstep Hrun Hnext.
  by rewrite advance_loop_S, andb_false_r, Hstep, Hrun, Hnext.
Qed.

(** After the first iteration no interrupt node is run. *)
Lemma advance_loop_trace (fuel : nat) (cg : CompiledGraph) (thread_id : string) :
  ∀ (trace : list string) (state : AgentState) (current : option string)
    (store : gmap string Checkpoint) (w : World),
    ∃ rest,
      adv_trace (advance_loop fuel cg thread_id false trace state current store w)
        = trace ++ rest
      ∧ Forall (λ n, n ∉ interrupt_before cg) rest.
Proof.
  induction fuel as [|fuel IH]; intros trace state current store w; simpl.
  { exists []. by rewrite app_nil_r. }
  destruct current as [name|]; [|exists []; by rewrite app_nil_r].
  rewrite andb_true_r. case_bool_decide as Hin; simpl.
  { exists []. by rewrite app_nil_r. }
  destruct (g_nodes (graph cg) !! name) as [step|]; simpl;
    [|exists []; by rewrite app_nil_r].
  destruct (step state w) as [[state'|e] w']; simpl;
    [|exists [name]; split; [done|by apply Forall_singleton]].
  destruct (next_node (graph cg) name state') as [err|next]; simpl;
    [exists [name]; split; [done|by apply Forall_singleton]|].
  destruct (IH (trace ++ [name]) state' next
               (<[thread_id := {| ck_state := state'; pending_node := next |}]> store) w')
    as (rest & -> & Hrest).
  exists (name :: rest). rewrite <- app_assoc. split; [done|]. by constructor.
Qed.

(** The edges out of each node of this graph. *)
Lemma next_node_plan_review (state : AgentState) :
  next_node build_graph "plan_review" state
  = inr (Some (if bool_decide (decision_field state = Some (PStr "approve"))
               then "fact_verification" else "refine")).
Proof.
  assert (Hb : g_branches build_graph !! "plan_review" =
    Some (route_after_plan_review,
          list_to_map [("fact_verification", "fact_verification"); ("refine", "refine")]))
    by reflexivity.
  assert (He : g_edges build_graph !! "plan_review" = None) by reflexivity.
  unfold next_node. rewrite He, Hb, route_after_plan_review_cases.
  by case_bool_decide.
Qed.

Lemma next_node_fact_verification (state : AgentState) :
  next_node build_graph "fact_verification" state = inr (Some "final_brief").
Proof. reflexivity. Qed.

Lemma next_node_cases (name : string) (state : AgentState) (next : option string) :
  next_node build_graph name state = inr next →
  (name, next) ∈ [("input", Some "search"); ("search", Some "extract");
                  ("extract", Some "prioritize"); ("prioritize", Some "verify");
                  ("verify", Some "synthesize"); ("synthesize", Some "plan_review");
                  ("plan_review", Some "fact_verification"); ("plan_review", Some "refine");
                  ("refine", Some "search"); ("refine", Some "synthesize");
                  ("refine", Some "fact_verification");
                  ("fact_verification", Some "final_brief"); ("final_brief", None)].
Proof.
  destruct (decide (name = "plan_review")) as [->|Hpr].
  { rewrite next_node_plan_review. intros [= <-]. case_bool_decide; set_solver. }
  destruct (decide (name = "refine")) as [->|Hrf].
  { rewrite next_node_refine.
    destruct (route_after_refine state) as [|b|z|r|l]; try done.
    case_bool_decide as Hr; [|done]. intros [= <-].
    unfold legal_routes in Hr. rewrite !elem_of_cons, elem_of_nil in Hr.
    destruct Hr as [->|[->|[->|[]]]]; set_solver. }
  assert (Hbranch : g_branches build_graph !! name = None).
  { change (g_branches build_graph) with
      (<["refine" := (route_after_refine,
           (list_to_map [("search", "search"); ("synthesize", "synthesize");
                         ("fact_verification", "fact_verification")] : gmap string string))]>
       (<["plan_review" := (route_after_plan_review,
           (list_to_map [("fact_verification", "fact_verification");
                         ("refine", "refine")] : gmap string string))]>
        (∅ : gmap string ((AgentState → pyval) * gmap string string)))).
    by rewrite !lookup_insert_ne, lookup_empty. }
  unfold next_node. rewrite Hbranch.
  change (g_edges build_graph) with
    (list_to_map [("input", "search"); ("search", "extract"); ("extract", "prioritize");
                  ("prioritize", "verify"); ("verify", "synthesize");
                  ("synthesize", "plan_review"); ("fact_verification", "final_brief");
                  ("final_brief", END)] : gmap string string).
  cbn [list_to_map foldr uncurry fst snd].
  repeat (rewrite lookup_insert; case_decide;
          [subst name; intros [= <-]; set_solver|]).
  by rewrite lookup_empty.
Qed.

(** Every edge that does not leave an interrupt node goes down in rank. *)
Lemma next_node_rank (name : string) (state : AgentState) (next : option string) :
  next_node build_graph name state = inr next →
  (rank next ≤ 7)%nat
  ∧ (name ∉ interrupt_before compiled_graph → (rank next < rank (Some name))%nat).
Proof.
  intros Hnext%next_node_cases. rewrite interrupt_before_cases.
  repeat (apply elem_of_cons in Hnext as [[= -> ->]|Hnext];
          [vm_compute; split; [lia|intros; first [lia|tauto]]|]).
  by apply elem_of_nil in Hnext.
Qed.
End engine.

Section fuel.
Context `{Env}.

Lemma next_node_total (g : StateGraph) (name : string) (state : AgentState) :
  next_node g name state ≠ inl OutOfFuel.
Proof. unfold next_node. repeat case_match; congruence. Qed.

Lemma rank_pos (current : option string) : (1 ≤ rank current)%nat.
Proof.
  destruct current as [name|]; [|done]. unfold rank.
  destruct (_ !! name) as [n|] eqn:Hn; [|done]. simpl.
  apply elem_of_list_to_map_2 in Hn.
  repeat (apply elem_of_cons in Hn as [[= _ ->]|Hn]; [lia|]).
  by apply elem_of_nil in Hn.
Qed.

(** From any node reached over an edge, [rank] iterations are enough: more
    fuel changes nothing, and the loop does not run out. *)
Lemma advance_loop_fuel (fuel : nat) :
  ∀ (k : nat) (thread_id : string) (trace : list string) (state : AgentState)
    (current : option string) (store : gmap string Checkpoint) (w : World),
    (rank current ≤ fuel)%nat →
    advance_loop (fuel + k) compiled_graph thread_id false trace state current store w
    = advance_loop fuel compiled_graph thread_id false trace state current store w
    ∧ adv_result (advance_loop fuel compiled_graph thread_id false trace state current store w)
      ≠ inl OutOfFuel.
Proof.
  induction fuel as [|fuel IH]; intros k thread_id trace state current store w Hrank.
  { pose proof (rank_pos current). lia. }
  change (S fuel + k)%nat with (S (fuel + k)).
  destruct current as [name|]; [|by split].
  rewrite !advance_loop_S, andb_true_r.
  case_bool_decide as Hin; [by split|].
  destruct (_ !! name) as [step|]; [|by split].
  destruct (step state w) as [[state'|e] w']; [|by split].
  destruct (next_node (graph compiled_graph) name state') as [err|next] eqn:Hnext.
  { split; [done|]. simpl. intros [= ->]. by apply next_node_total in Hnext. }
  apply next_node_rank in Hnext as [_ Hdown]. specialize (Hdown Hin).
  apply IH. lia.
Qed.
End fuel.

(** ** Interrupt and resume *)

Section protocol.
Context `{Env}.

Lemma get_state_lookup (thread_id : string) (store : gmap string Checkpoint) (ck : Checkpoint) :
  store !! thread_id = Some ck →
  get_state thread_id store
  = {| values := Some (ck_state ck);
       next := match pending_node ck with Some n => [n] | None => [] end |}.
Proof. intros Hck. unfold get_state. by rewrite Hck. Qed.

Lemma update_state_lookup (thread_id : string) (vals : AgentState)
    (store : gmap string Checkpoint) (ck : Checkpoint) :
  store !! thread_id = Some ck →
  update_state thread_id vals store
  = <[thread_id := {| ck_state := vals; pending_node := pending_node ck |}]> store.
Proof. intros Hck. unfold update_state. by rewrite Hck. Qed.

(** The step function of an interrupt node: it returns the state with one
    more entry, under the node's name, that reports the wait. *)
Lemma interrupt_node_step (name : string) (state : AgentState) (w : World) :
  name ∈ interrupt_before compiled_graph →
  ∃ step entry,
    g_nodes build_graph !! name = Some step
    ∧ step state w = (Returned (append_log entry state), (now_isoformat w).2)
    ∧ node entry = name
    ∧ outputs entry
      = [("status", PStr (if bool_decide (name = "plan_review")
                          then "awaiting_human_review"
                          else "awaiting_human_verification"))].
Proof.
  intros [->| ->]%interrupt_before_cases.
  - destruct (hitl_plan_review_logs state w) as (entry & Hrun & Hname & Houts).
    by exists hitl_plan_review, entry.
  - destruct (hitl_fact_verification_logs state w) as (entry & Hrun & Hname & Houts).
    by exists hitl_fact_verification, entry.
Qed.

Lemma interrupt_node_next (name : string) (state : AgentState) :
  name ∈ interrupt_before compiled_graph →
  ∃ next, next_node build_graph name state = inr next.
Proof.
  intros [->| ->]%interrupt_before_cases.
  - rewrite next_node_plan_review. eauto.
  - rewrite next_node_fact_verification. eauto.
Qed.
End protocol.

(** C1.  Two phases at the interrupt nodes.  Resuming a thread parked before
    an interrupt node runs that node's own step function first, which appends
    its awaiting-review entry, and the run goes on from the node the edge or
    router then names; the node is run once in that call, because after the
    first iteration no interrupt node is run; the call ends without running
    out of iterations.  And whenever the loop arrives at an interrupt node
    over an edge, it stops there without running it and leaves the pair
    (state, node) in the store.  Both hold for either interrupt node. *)
Theorem two_phase_interrupt `{Env} (name thread_id : string) (state : AgentState)
    (store : gmap string Checkpoint) (w : World) :
  name ∈ interrupt_before compiled_graph →
  store !! thread_id = Some {| ck_state := state; pending_node := Some name |} →
  (∃ entry next rest,
     let state1 := append_log entry state in
     let run := invoke recursion_limit compiled_graph None thread_id store w in
     node entry = name
     ∧ outputs entry
       = [("status", PStr (if bool_decide (name = "plan_review")
                           then "awaiting_human_review"
                           else "awaiting_human_verification"))]
     ∧ node_logs state1 = node_logs state ++ [entry]
     ∧ next_node build_graph name state1 = inr next
     ∧ run = advance_loop (recursion_limit - 1) compiled_graph thread_id false [name]
               state1 next
               (<[thread_id := {| ck_state := state1; pending_node := next |}]> store)
               (now_isoformat w).2
     ∧ adv_trace run = name :: rest
     ∧ Forall (λ n, n ∉ interrupt_before compiled_graph) rest
     ∧ (name ∉ rest)
     ∧ adv_result run ≠ inl OutOfFuel)
  ∧ (∀ fuel trace state0 store0 w0,
       advance_loop (S fuel) compiled_graph thread_id false trace state0 (Some name) store0 w0
       = {| adv_result := inr (Some name, state0);
            adv_trace := trace;
            adv_store := <[thread_id := {| ck_state := state0; pending_node := Some name |}]> store0;
            adv_world := w0 |}).
Proof.
  intros Hin Hck. split; [|intros; by apply advance_loop_interrupts].
  destruct (interrupt_node_step name state w Hin) as (step & entry & Hstep & Hrun & Hname & Houts).
  destruct (interrupt_node_next name (append_log entry state) Hin) as [next Hnext].
  assert (Hresume :
    invoke recursion_limit compiled_graph None thread_id store w
    = advance_loop (recursion_limit - 1) compiled_graph thread_id false [name]
        (append_log entry state) next
        (<[thread_id := {| ck_state := append_log entry state; pending_node := next |}]> store)
        (now_isoformat w).2).
  { unfold invoke. rewrite Hck. cbn [ck_state pending_node].
    change recursion_limit with (S 24).
    by rewrite (advance_loop_resumes 24 compiled_graph thread_id [] state _ name step next
                  store w _ Hstep Hrun Hnext). }
  destruct (advance_loop_trace (recursion_limit - 1) compiled_graph thread_id [name]
              (append_log entry state) next
              (<[thread_id := {| ck_state := append_log entry state; pending_node := next |}]> store)
              (now_isoformat w).2) as (rest & Htrace & Hrest).
  exists entry, next, rest. cbv zeta. rewrite Hresume.
  split_and!; try done.
  - rewrite Forall_forall in Hrest. intros Hrep. by apply (Hrest name).
  - apply next_node_rank in Hnext as [Hrank _].
    apply (advance_loop_fuel 24 0). lia.
Qed.

Lemma two_phase_interrupt_witness :
  "plan_review" ∈ interrupt_before (H := scripted) compiled_graph
  ∧ parked_store (Some "plan_review") !! "t1"
    = Some {| ck_state := parked_state; pending_node := Some "plan_review" |}
  ∧ ∃ rest,
      adv_trace (invoke (H := scripted) recursion_limit compiled_graph None "t1"
                   (parked_store (Some "plan_review")) 0%nat)
      = "plan_review" :: rest
      ∧ "plan_review" ∉ rest.
Proof.
  assert (Hin : "plan_review" ∈ interrupt_before (H := scripted) compiled_graph).
  { simpl. apply elem_of_cons. by left. }
  assert (Hck : parked_store (Some "plan_review") !! "t1"
                = Some {| ck_state := parked_state; pending_node := Some "plan_review" |}).
  { reflexivity. }
  split; [exact Hin|]. split; [exact Hck|].
  destruct (two_phase_interrupt (H := scripted) "plan_review" "t1" parked_state
              (parked_store (Some "plan_review")) 0%nat Hin Hck)
    as [(entry & next & rest & _ & _ & _ & _ & _ & Htrace & _ & Hnot & _) _].
  exists rest. split; [exact Htrace|exact Hnot].
Defined.

(** The whole walk in the scripted world: a new run stops before
    [plan_review] with no entry of that node; approving runs [plan_review]
    alone and stops before [fact_verification]; the next resume runs
    [fact_verification] and [final_brief] and completes. *)
Example two_phase_walkthrough :
  let run1 := invoke (H := scripted) recursion_limit compiled_graph
                (Some (initial_state {| req_topic := "graphs" |})) "t1" ∅ 0%nat in
  let approve := {| decision := "approve"; notes := Some "" |} in
  let '(r2, store2, w2) := resume_research (H := scripted) "t1" approve (adv_store run1)
                             (adv_world run1) in
  let run3 := invoke (H := scripted) recursion_limit compiled_graph None "t1"
                (update_state "t1"
                   (set_human_feedback (Some (feedback_record approve "fact_verification"))
                      (default parked_state (values (get_state "t1" store2))))
                   store2) w2 in
  ((∃ state, adv_result run1 = inr (Some "plan_review", state)
              ∧ map node (node_logs state) = ["input"; "search"; "prioritize"; "verify"])
   ∧ last (adv_trace run1) = Some "synthesize")
  ∧ (∃ body, r2 = Ok body ∧ r_checkpoint body = Some "fact_verification"
             ∧ map node (node_logs (r_data body))
               = ["input"; "search"; "prioritize"; "verify"; "plan_review"])
  ∧ ((∃ state, adv_result run3 = inr (None, state))
     ∧ adv_trace run3 = ["fact_verification"; "final_brief"]).
Proof.
  vm_compute. split_and!; try reflexivity.
  - eexists. split; reflexivity.
  - eexists. split_and!; reflexivity.
  - eexists. reflexivity.
Qed.

(** C6.  A thread parked before [plan_review] that is resumed with decision
    ["approve"] and empty notes runs [plan_review] and nothing else: Router A
    names [fact_verification], the run stops before it, [refine] is not run,
    and the endpoint reports the thread interrupted at
    [fact_verification]. *)
Theorem approve_reaches_fact_verification `{Env} (thread_id : string) (state : AgentState)
    (store : gmap string Checkpoint) (w : World) :
  store !! thread_id = Some {| ck_state := state; pending_node := Some "plan_review" |} →
  ∃ entry,
    let feedback := {| decision := "approve"; notes := Some "" |} in
    let updated := set_human_feedback (Some (feedback_record feedback "plan_review")) state in
    let state1 := append_log entry updated in
    let run := invoke recursion_limit compiled_graph None thread_id
                 (update_state thread_id updated store) w in
    node entry = "plan_review"
    ∧ adv_result run = inr (Some "fact_verification", state1)
    ∧ adv_trace run = ["plan_review"]
    ∧ ("refine" ∉ adv_trace run)
    ∧ resume_research thread_id feedback store w
      = (Ok {| r_thread_id := thread_id;
               r_status := "interrupted";
               r_checkpoint := Some "fact_verification";
               r_final_brief := None;
               r_data := state1 |},
         <[thread_id := {| ck_state := state1; pending_node := Some "fact_verification" |}]> store,
         (now_isoformat w).2).
Proof.
  intros Hck.
  set (feedback := {| decision := "approve"; notes := Some "" |}).
  set (updated := set_human_feedback (Some (feedback_record feedback "plan_review")) state).
  destruct (hitl_plan_review_logs updated w) as (entry & Hstep & Hname & _).
  exists entry. cbv zeta. fold feedback updated.
  set (state1 := append_log entry updated).
  assert (Hnext : next_node build_graph "plan_review" state1 = inr (Some "fact_verification")).
  { rewrite next_node_plan_review. by rewrite bool_decide_eq_true_2. }
  assert (Hrun :
    invoke recursion_limit compiled_graph None thread_id (update_state thread_id updated store) w
    = {| adv_result := inr (Some "fact_verification", state1);
         adv_trace := ["plan_review"];
         adv_store := <[thread_id := {| ck_state := state1;
                                        pending_node := Some "fact_verification" |}]> store;
         adv_world := (now_isoformat w).2 |}).
  { unfold invoke. rewrite (update_state_lookup _ _ _ _ Hck), lookup_insert_eq.
    cbn [ck_state pending_node]. change recursion_limit with (S (S 23)).
    rewrite (advance_loop_resumes _ compiled_graph thread_id [] updated state1 "plan_review"
               hitl_plan_review (Some "fact_verification") _ w _ eq_refl Hstep Hnext).
    rewrite advance_loop_interrupts by (apply interrupt_before_cases; by right).
    by rewrite !insert_insert_eq. }
  rewrite Hrun. cbn [adv_result adv_trace].
  split_and!; [done|done|done| |].
  { intros Hin. apply list_elem_of_singleton in Hin. discriminate. }
  unfold resume_research. rewrite (get_state_lookup _ _ _ Hck).
  cbn [values next ck_state pending_node].
  change (set_human_feedback _ state) with updated.
  rewrite Hrun. cbn [adv_result adv_store adv_world].
  unfold get_state. by rewrite lookup_insert_eq.
Qed.

Lemma approve_reaches_fact_verification_witness :
  parked_store (Some "plan_review") !! "t1"
    = Some {| ck_state := parked_state; pending_node := Some "plan_review" |}
  ∧ ∃ body store w',
      resume_research (H := scripted) "t1" {| decision := "approve"; notes := Some "" |}
        (parked_store (Some "plan_review")) 0%nat = (Ok body, store, w')
      ∧ r_checkpoint body = Some "fact_verification".
Proof.
  assert (Hck : parked_store (Some "plan_review") !! "t1"
                = Some {| ck_state := parked_state; pending_node := Some "plan_review" |}).
  { reflexivity. }
  split; [exact Hck|].
  destruct (approve_reaches_fact_verification (H := scripted) "t1" parked_state
              (parked_store (Some "plan_review")) 0%nat Hck)
    as (entry & _ & _ & _ & _ & Hresume).
  do 3 eexists. split; [exact Hresume|reflexivity].
Defined.

(** ** Resuming without a guard *)

(** C2, as stated, fails.  A thread that has completed (no pending node) is
    resumed: the endpoint answers with status ["completed"], and the stored
    state has changed.  A thread pending at [refine], which is no interrupt
    node, is resumed: [refine] runs (it leaves its log entry) and the thread
    moves on to the next stop, before [plan_review]. *)
Example resume_outside_interrupt_set :
  (let store := parked_store None in
   let '(response, store', _) :=
     resume_research (H := scripted) "t1" {| decision := "approve"; notes := Some "" |}
                     store 0%nat in
   pending_node <$> store !! "t1" = Some None
   ∧ (∃ body, response = Ok body ∧ r_status body = "completed")
   ∧ store' !! "t1" ≠ store !! "t1")
  ∧ (let store := parked_store (Some "refine") in
     let '(response, store', _) :=
       resume_research (H := scripted) "t1" {| decision := "rework"; notes := Some "" |}
                       store 0%nat in
     ("refine" ∉ interrupt_before (H := scripted) compiled_graph)
     ∧ (∃ body, response = Ok body ∧ r_status body = "interrupted"
                ∧ map node (node_logs (r_data body)) = ["refine"])
     ∧ pending_node <$> store' !! "t1" = Some (Some "plan_review")).
Proof.
  split.
  - vm_compute. split_and!; [reflexivity|eexists; split; reflexivity|discriminate].
  - vm_compute. split_and!; [|eexists; split_and!; reflexivity|reflexivity].
    intros Hin. apply elem_of_cons in Hin as [Heq|Hin]; [discriminate|].
    apply elem_of_cons in Hin as [Heq|Hin]; [discriminate|].
    by apply elem_of_nil in Hin.
Qed.

(** C2, amended.  [resume_research] looks at the pending node only to name
    it in the feedback record.  For every thread that has a checkpoint,
    whatever its pending node, it stores the state with the feedback record
    at the same pending node, resumes the engine from there, and answers
    with what the engine produced: 500 when the engine failed, the body with
    the engine's state otherwise.  For a thread with no pending node nothing
    runs, the answer is ["completed"], and the store keeps the state with
    the new feedback record. *)
Theorem resume_research_unguarded `{Env} (thread_id : string) (feedback : FeedbackRequest)
    (store : gmap string Checkpoint) (w : World) (ck : Checkpoint) :
  store !! thread_id = Some ck →
  let updated :=
    set_human_feedback
      (Some (feedback_record feedback (default "none" (pending_node ck)))) (ck_state ck) in
  let store1 := <[thread_id := {| ck_state := updated; pending_node := pending_node ck |}]> store in
  let run := invoke recursion_limit compiled_graph None thread_id store1 w in
  (resume_research thread_id feedback store w).1.2 = adv_store run
  ∧ (resume_research thread_id feedback store w).2 = adv_world run
  ∧ match adv_result run with
    | inl err => (resume_research thread_id feedback store w).1.1
                 = HTTPException 500 (str_engine_error err)
    | inr (_, result) =>
      ∃ body, (resume_research thread_id feedback store w).1.1 = Ok body
              ∧ r_data body = result
    end
  ∧ (pending_node ck = None →
     resume_research thread_id feedback store w
     = (Ok {| r_thread_id := thread_id;
              r_status := "completed";
              r_checkpoint := None;
              r_final_brief := final_brief (ck_state ck);
              r_data := updated |},
        store1, w)).
Proof.
  intros Hck updated store1 run.
  assert (Hunfold : resume_research thread_id feedback store w
    = match adv_result run with
      | inl err => (HTTPException 500 (str_engine_error err), adv_store run, adv_world run)
      | inr (_, result) =>
        match next (get_state thread_id (adv_store run)) with
        | next_checkpoint :: _ =>
          (Ok {| r_thread_id := thread_id; r_status := "interrupted";
                 r_checkpoint := Some next_checkpoint; r_final_brief := None;
                 r_data := result |}, adv_store run, adv_world run)
        | [] =>
          (Ok {| r_thread_id := thread_id; r_status := "completed";
                 r_checkpoint := None; r_final_brief := final_brief result;
                 r_data := result |}, adv_store run, adv_world run)
        end
      end).
  { unfold resume_research. rewrite (get_state_lookup _ _ _ Hck).
    cbn [values next]. rewrite (update_state_lookup _ _ _ _ Hck).
    subst run store1 updated. by destruct (pending_node ck). }
  rewrite Hunfold. split_and!.
  - destruct (adv_result run) as [err|[pending result]]; [done|]. by destruct (next _).
  - destruct (adv_result run) as [err|[pending result]]; [done|]. by destruct (next _).
  - destruct (adv_result run) as [err|[pending result]]; [done|].
    destruct (next _); eauto.
  - intros Hdone. subst run. unfold invoke. subst store1.
    rewrite lookup_insert_eq. cbn [ck_state pending_node]. rewrite Hdone.
    change recursion_limit with (S 24). cbn [advance_loop adv_result adv_store adv_world].
    unfold get_state. rewrite lookup_insert_eq. by cbn [pending_node next].
Qed.

Lemma resume_research_unguarded_witness :
  parked_store None !! "t1" = Some {| ck_state := parked_state; pending_node := None |}
  ∧ ∃ body store w',
      resume_research (H := scripted) "t1" {| decision := "approve"; notes := Some "" |}
        (parked_store None) 0%nat = (Ok body, store, w')
      ∧ r_status body = "completed".
Proof.
  assert (Hck : parked_store None !! "t1"
                = Some {| ck_state := parked_state; pending_node := None |}).
  { reflexivity. }
  split; [exact Hck|].
  destruct (resume_research_unguarded (H := scripted) "t1"
              {| decision := "approve"; notes := Some "" |} (parked_store None) 0%nat _ Hck)
    as (_ & _ & _ & Hdone).
  do 3 eexists. split; [exact (Hdone eq_refl)|reflexivity].
Defined.

(** ** Status polling *)

(** C8.  [get_status] changes neither the store nor the world, what it
    returns for a thread is the checkpoint as it is stored, and any number of
    calls in a row return the same response and leave the same store. *)
Theorem get_status_read_only `{Env} (thread_id : string)
    (store : gmap string Checkpoint) (w : World) (n : nat) :
  (get_status thread_id store w).1.2 = store
  ∧ (get_status thread_id store w).2 = w
  ∧ (get_status thread_id store w).1.1
    = match store !! thread_id with
      | None => HTTPException 404 "Session not found"
      | Some ck =>
        Ok {| r_thread_id := thread_id;
              r_status := match pending_node ck with
                          | Some _ => "interrupted"
                          | None => "completed"
                          end;
              r_checkpoint := pending_node ck;
              r_final_brief := None;
              r_data := ck_state ck |}
      end
  ∧ poll_status n thread_id store w
    = (replicate n (get_status thread_id store w).1.1, store, w).
Proof.
  assert (Hsame : (get_status thread_id store w).1.2 = store
                  ∧ (get_status thread_id store w).2 = w).
  { unfold get_status, get_state. by destruct (store !! thread_id). }
  destruct Hsame as [Hstore Hworld]. split_and!; [done|done| |].
  - unfold get_status, get_state.
    destruct (store !! thread_id) as [[st [name|]]|]; reflexivity.
  - induction n as [|n IH]; [reflexivity|].
    cbn [poll_status replicate].
    destruct (get_status thread_id store w) as [[r store'] w'].
    simpl in Hstore, Hworld. subst store' w'. by rewrite IH.
Qed.

(** * Further properties of the step functions *)

(** ** The validator *)

Lemma str_take_length (n : nat) (s : string) : (String.length (str_take n s) ≤ n)%nat.
Proof.
  revert s. induction n as [|n IH]; intros [|a s]; simpl; try lia.
  specialize (IH s). lia.
Qed.


(** ** The verify step: what it leaves alone *)

Section verify_frame.
Context `{Env}.

Lemma find_source_content_none (results : list SearchResult) (u : string) :
  Forall (λ hit, truthy (raw_content hit) = false) results →
  find_source_content results u = None.
Proof.
  induction 1 as [|hit results Hhit _ IH]; [done|]. simpl.
  by rewrite Hhit, andb_false_r.
Qed.

Lemma same_source_refl (c : ClaimWithSource) : same_source c c.
Proof. by repeat split. Qed.

Lemma same_source_trans (c1 c2 c3 : ClaimWithSource) :
  same_source c1 c2 → same_source c2 c3 → same_source c1 c3.
Proof. intros (?&?&?&?) (?&?&?&?). repeat split; congruence. Qed.

(** One iteration changes at most the flag, reasoning and excerpt of the
    object [r]; when no source text can be had it changes nothing and keeps
    the world as the fetch left it. *)
Lemma verify_one_frame (vc : list ref) (st : AgentState) (r : ref) (w : World) :
  r < length (objects st) →
  ∃ vc' st' w',
    verify_one (vc, st) r w = (Returned (vc', st'), w')
    ∧ st' = set_objects (objects st') st
    ∧ length (objects st') = length (objects st)
    ∧ (∀ r', r' ≠ r → objects st' !! r' = objects st !! r')
    ∧ (∀ c, objects st !! r = Some c →
         ∃ c', objects st' !! r = Some c' ∧ same_source c c')
    ∧ (vc' = vc ∨ vc' = vc ++ [r])
    ∧ (Forall (λ hit, truthy (raw_content hit) = false) (raw_search_results st) →
       (∀ u w0, fetch_with_beautifulsoup u w0 = (None, w0)) →
       vc' = vc ∧ st' = st ∧ w' = w).
Proof.
  intros Hr. destruct (lookup_lt_is_Some_2 _ _ Hr) as [c Hc].
  unfold verify_one, deref. cbv beta iota. rewrite bind_run, Hc, ret_run, bind_run.
  set (found := find_source_content (raw_search_results st) (source_url c)).
  destruct (negb (truthy found) || (String.length (default "" found) <? 200)%nat) eqn:Hfetch.
  - unfold lift_total.
    destruct (fetch_with_beautifulsoup (source_url c) w) as [sc w1] eqn:Hsc.
    destruct (negb (truthy sc)) eqn:Htruthy.
    { rewrite ret_run. exists vc, st, w1.
      split_and!; [done|apply set_objects_same|done|done| |by left|].
      + intros c0 [= <-]. exists c. split; [done|apply same_source_refl].
      + intros _ Hnone. rewrite Hnone in Hsc. split_and!; congruence. }
    destruct (verify_claim_with_llm_returns (claim c) sc w1) as (v & w2 & Hv).
    rewrite bind_run, Hv. cbv zeta. cbn [verified].
    destruct (v_verified v) eqn:Hflag; rewrite ret_run;
      do 3 eexists; (split; [reflexivity|]); simpl;
      (split_and!; [done|by rewrite length_insert
                   |by intros r' Hne; rewrite list_lookup_insert_ne
                   |intros c0 [= <-];
                    eexists; split; [by apply list_lookup_insert_eq|by repeat split]
                   |auto
                   |intros _ Hnone; rewrite Hnone in Hsc;
                    assert (sc = None) as -> by congruence; discriminate]).
  - rewrite ret_run. destruct (negb (truthy found)) eqn:Htruthy; [done|].
    destruct (verify_claim_with_llm_returns (claim c) found w) as (v & w2 & Hv).
    rewrite bind_run, Hv. cbv zeta. cbn [verified].
    destruct (v_verified v) eqn:Hflag; rewrite ret_run;
      do 3 eexists; (split; [reflexivity|]); simpl;
      (split_and!; [done|by rewrite length_insert
                   |by intros r' Hne; rewrite list_lookup_insert_ne
                   |intros c0 [= <-];
                    eexists; split; [by apply list_lookup_insert_eq|by repeat split]
                   |auto
                   |intros Hraw _; subst found;
                    rewrite (find_source_content_none _ _ Hraw) in Htruthy; discriminate]).
Qed.

Lemma verify_loop_frame (l : list ref) :
  ∀ (vc : list ref) (st : AgentState) (w : World),
    live st l →
    ∃ k st' w',
      for_each l (vc, st) verify_one w = (Returned (vc ++ k, st'), w')
      ∧ sublist k l
      ∧ st' = set_objects (objects st') st
      ∧ length (objects st') = length (objects st)
      ∧ (∀ r c, objects st !! r = Some c →
           ∃ c', objects st' !! r = Some c' ∧ same_source c c' ∧ (r ∉ l → c' = c))
      ∧ (Forall (λ hit, truthy (raw_content hit) = false) (raw_search_results st) →
         (∀ u w0, fetch_with_beautifulsoup u w0 = (None, w0)) →
         k = [] ∧ st' = st ∧ w' = w).
Proof.
  induction l as [|r l IH]; intros vc st w Hlive.
  - exists [], st, w. rewrite app_nil_r. cbn [for_each]. rewrite ret_run.
    split_and!; [done|done|apply set_objects_same|done| |done].
    intros r c Hc. exists c. split_and!; [done|apply same_source_refl|done].
  - apply Forall_cons in Hlive as [Hr Hlive].
    destruct (verify_one_frame vc st r w Hr)
      as (vc1 & st1 & w1 & Hone & Hframe & Hlen & Hother & Hsame & Hvc1 & Hskip).
    cbn [for_each]. rewrite bind_run, Hone.
    assert (Hlive1 : live st1 l) by (unfold live; by rewrite Hlen).
    destruct (IH vc1 st1 w1 Hlive1)
      as (k & st' & w' & Hloop & Hsub & Hframe' & Hlen' & Hobj & Hskip').
    assert (Hframe2 : st' = set_objects (objects st') st).
    { rewrite Hframe', Hframe. by destruct st. }
    assert (Hobj2 : ∀ r0 c, objects st !! r0 = Some c →
              ∃ c', objects st' !! r0 = Some c' ∧ same_source c c'
                    ∧ (r0 ∉ r :: l → c' = c)).
    { intros r0 c Hc. destruct (decide (r0 = r)) as [->|Hne].
      - destruct (Hsame c Hc) as (c1 & Hc1 & Hs1).
        destruct (Hobj r c1 Hc1) as (c' & Hc' & Hs' & _).
        exists c'. split_and!; [done|by eapply same_source_trans|].
        intros Hnot. exfalso. apply Hnot. by left.
      - rewrite <- (Hother r0 Hne) in Hc.
        destruct (Hobj r0 c Hc) as (c' & Hc' & Hs' & Hout).
        exists c'. split_and!; [done..|]. intros Hnot. apply Hout.
        intros Hin. apply Hnot. by right. }
    assert (Hskip2 : ∀ k0, vc1 ++ k = vc ++ k0 → Forall (λ hit, truthy (raw_content hit) = false) (raw_search_results st) →
              (∀ u w0, fetch_with_beautifulsoup u w0 = (None, w0)) →
              k0 = [] ∧ st' = st ∧ w' = w).
    { intros k0 Hk0 Hraw Hfetch. destruct (Hskip Hraw Hfetch) as (-> & -> & ->).
      destruct (Hskip' Hraw Hfetch) as (-> & -> & ->).
      rewrite app_nil_r in Hk0. split_and!; [|done..].
      apply (f_equal length) in Hk0. rewrite length_app in Hk0.
      destruct k0; [done|simpl in Hk0; lia]. }
    destruct Hvc1 as [->| ->].
    + exists k, st', w'. split_and!; [done|by apply sublist_cons|done|congruence|done|].
      by apply Hskip2.
    + exists (r :: k), st', w'. rewrite <- app_assoc in Hloop. simpl in Hloop.
      split_and!; [done|by apply sublist_skip|done|congruence|done|].
      apply Hskip2. by rewrite <- app_assoc.
Qed.
End verify_frame.

(** X2.  The verify step only annotates.  On a state whose first twelve
    extracted claims are objects of the table it returns; the extracted
    claims, the search results and the size of the table are as before;
    every object keeps its claim text, source URL, source title and access
    date; and an object outside the first twelve is not touched at all. *)
Theorem verification_node_frame `{Env} (state : AgentState) (w : World) :
  live state (take 12 (extracted_claims state)) →
  ∃ state' w',
    verification_node state w = (Returned state', w')
    ∧ extracted_claims state' = extracted_claims state
    ∧ raw_search_results state' = raw_search_results state
    ∧ length (objects state') = length (objects state)
    ∧ ∀ r c, objects state !! r = Some c →
        ∃ c', objects state' !! r = Some c' ∧ same_source c c'
              ∧ (r ∉ take 12 (extracted_claims state) → c' = c).
Proof.
  intros Hlive. unfold verification_node.
  destruct (verify_loop_frame (take 12 (extracted_claims state)) [] state w Hlive)
    as (k & st1 & w1 & Hloop & _ & Hframe & Hlen & Hobj & _).
  simpl in Hloop. rewrite bind_run, Hloop. cbv zeta.
  match goal with
  | |- context [(log_node_execution ?n ?i ?o ?p ?mc ?hd ≫= λ entry, mret (append_log entry ?st)) _] =>
    destruct (log_and_return n i o p mc hd st w1) as (e & He & _)
  end.
  do 2 eexists. split; [exact He|]. simpl.
  split_and!; [by rewrite Hframe|by rewrite Hframe|done|done].
Qed.

Lemma verification_node_frame_witness :
  live two_claims_state (take 12 (extracted_claims two_claims_state))
  ∧ ∃ state' w',
      verification_node (H := scripted) two_claims_state 0%nat = (Returned state', w')
      ∧ extracted_claims state' = extracted_claims two_claims_state
      ∧ length (objects state') = length (objects two_claims_state).
Proof.
  assert (Hlive : live two_claims_state (take 12 (extracted_claims two_claims_state))).
  { vm_compute. repeat constructor. }
  split; [exact Hlive|].
  destruct (verification_node_frame (H := scripted) two_claims_state 0%nat Hlive)
    as (state' & w' & Hrun & Hclaims & _ & Hlen & _).
  exists state', w'. split; [exact Hrun|]. split; [exact Hclaims|exact Hlen].
Defined.

(** X3.  When no search hit carries page text and no page can be fetched,
    the verify step keeps no claim, changes no object and never calls the
    model: the world it returns is the one the logger left. *)
Theorem verification_node_without_sources `{Env} (state : AgentState) (w : World) :
  live state (take 12 (extracted_claims state)) →
  Forall (λ hit, truthy (raw_content hit) = false) (raw_search_results state) →
  (∀ u w0, fetch_with_beautifulsoup u w0 = (None, w0)) →
  ∃ state',
    verification_node state w = (Returned state', (now_isoformat w).2)
    ∧ verified_claims state' = []
    ∧ objects state' = objects state
    ∧ logged_once "verify" state state'.
Proof.
  intros Hlive Hraw Hfetch. unfold verification_node.
  destruct (verify_loop_frame (take 12 (extracted_claims state)) [] state w Hlive)
    as (k & st1 & w1 & Hloop & _ & _ & _ & _ & Hskip).
  destruct (Hskip Hraw Hfetch) as (-> & -> & ->).
  simpl in Hloop. rewrite bind_run, Hloop. cbv zeta.
  match goal with
  | |- context [(log_node_execution ?n ?i ?o ?p ?mc ?hd ≫= λ entry, mret (append_log entry ?st)) _] =>
    destruct (log_and_return n i o p mc hd st w) as (e & He & Hname & _)
  end.
  eexists. split; [exact He|]. simpl. split_and!; [done..|]. by exists e.
Qed.

Lemma verification_node_without_sources_witness :
  live two_claims_state (take 12 (extracted_claims two_claims_state))
  ∧ Forall (λ hit, truthy (raw_content hit) = false) (raw_search_results two_claims_state)
  ∧ ∃ state',
      verification_node (H := offline) two_claims_state 0%nat = (Returned state', 0%nat)
      ∧ verified_claims state' = [].
Proof.
  assert (Hlive : live two_claims_state (take 12 (extracted_claims two_claims_state))).
  { vm_compute. repeat constructor. }
  split; [exact Hlive|]. split; [constructor|].
  destruct (verification_node_without_sources (H := offline) two_claims_state 0%nat
              Hlive (Forall_nil_2 _) (λ u w0, eq_refl))
    as (state' & Hrun & Hnone & _).
  exists state'. split; [exact Hrun|exact Hnone].
Defined.

(** ** The extract step *)

Section extract.
Context `{Env}.

Lemma source_block_run (idx : nat) (hit : SearchResult) (w : World) :
  source_block idx hit w
  = (match raw_content hit with
     | Some s =>
       Returned ("SOURCE " +:+ str_of_nat idx +:+ ":" +:+ nl +:+
                 "Title: " +:+ str_of_opt (title hit) +:+ nl +:+
                 "URL: " +:+ str_of_opt (url hit) +:+ nl +:+
                 "Content: " +:+ str_take 1000 s +:+ nl +:+ "---")
     | None => Raised TypeError
     end, w).
Proof. unfold source_block. by destruct (raw_content hit). Qed.

(** Building the context touches nothing outside; it fails at the first hit
    whose text is [None]. *)
Lemma sources_context_run (hits : list SearchResult) :
  ∀ (idxs : list nat) (w : World),
    (length hits ≤ length idxs)%nat →
    if forallb content_present hits
    then ∃ blocks,
           list_comp (λ '(i, result), source_block (S i) result) (zip idxs hits) w
           = (Returned blocks, w)
    else list_comp (λ '(i, result), source_block (S i) result) (zip idxs hits) w
         = (Raised TypeError, w).
Proof.
  induction hits as [|hit hits IH]; intros idxs w Hlen.
  - destruct idxs; simpl; rewrite ret_run; eauto.
  - destruct idxs as [|i idxs]; [simpl in Hlen; lia|].
    cbn [zip zip_with list_comp forallb]. rewrite bind_run, source_block_run.
    unfold content_present at 1. destruct (raw_content hit) as [s|]; [|done].
    cbn [andb]. specialize (IH idxs w ltac:(simpl in Hlen; lia)).
    rewrite bind_run. destruct (forallb content_present hits).
    + destruct IH as [blocks ->]. rewrite ret_run. eauto.
    + by rewrite IH.
Qed.

(** One entry: either it is dropped, or it becomes a new object that has the
    marks of a fresh claim. *)
Lemma build_claim_fresh (claims : list ref) (st : AgentState) (cd : ClaimDict) (w : World) :
  ∃ new w',
    build_claim (claims, st) cd w
    = (Returned (claims ++ seq (length (objects st)) (length new),
                 set_objects (objects st ++ new) st), w')
    ∧ (length new ≤ 1)%nat
    ∧ Forall fresh_claim new.
Proof.
  unfold build_claim. cbv beta iota zeta.
  destruct (negb (bool_decide (strip (cd_claim cd) = ""))
            && negb (bool_decide (strip (cd_source_url cd) = ""))
            && (20 <? String.length (strip (cd_claim cd)))%nat) eqn:Hkeep.
  - rewrite bind_run. unfold lift_total. destruct (now_isoformat w) as [now w1].
    rewrite ret_run. eexists [_], w1. split; [reflexivity|]. split; [simpl; lia|].
    apply andb_prop in Hkeep as [Hkeep Hlong]. apply andb_prop in Hkeep as [_ Hurl].
    apply Forall_singleton. unfold fresh_claim. cbn [verified verification_reasoning
      claim source_url excerpt]. split_and!; [done|done| | |apply str_take_length].
    + by apply Nat.ltb_lt in Hlong.
    + apply negb_true_iff in Hurl. by apply bool_decide_eq_false in Hurl.
  - rewrite ret_run. exists [], w. rewrite !app_nil_r. split; [|split; [simpl; lia|done]].
    by rewrite <- set_objects_same.
Qed.

Lemma build_claims_fresh (l : list ClaimDict) :
  ∀ (claims : list ref) (st : AgentState) (w : World),
    ∃ new w',
      for_each l (claims, st) build_claim w
      = (Returned (claims ++ seq (length (objects st)) (length new),
                   set_objects (objects st ++ new) st), w')
      ∧ (length new ≤ length l)%nat
      ∧ Forall fresh_claim new.
Proof.
  induction l as [|cd l IH]; intros claims st w; cbn [for_each].
  - exists [], w. rewrite ret_run, !app_nil_r. split; [|split; [simpl; lia|done]].
    by rewrite <- set_objects_same.
  - rewrite bind_run.
    destruct (build_claim_fresh claims st cd w) as (new1 & w1 & -> & Hlen1 & Hnew1).
    destruct (IH (claims ++ seq (length (objects st)) (length new1))
                 (set_objects (objects st ++ new1) st) w1)
      as (new2 & w2 & -> & Hlen2 & Hnew2).
    exists (new1 ++ new2), w2. split_and!.
    + do 2 f_equal. rewrite <- app_assoc. cbn [objects set_objects].
      rewrite !length_app, seq_app. f_equal.
      rewrite <- app_assoc. by destruct st.
    + rewrite length_app. simpl. lia.
    + by apply Forall_app.
Qed.

(** The guarded part of [extract_node] always returns: with the new claims,
    or with none when the model call raised or its reply did not parse. *)
Lemma extract_try_returns (state : AgentState) (extraction_prompt : string) (w : World) :
  ∃ new w',
    try_except
      (response_text ← llm_invoke extraction_prompt;
       claims_data ← lift_outcome (parse_claims response_text);
       '(claims, state) ← build_claims state claims_data;
       mret (set_extracted_claims claims state))
      (λ _, mret (set_extracted_claims [] state)) w
    = (Returned (set_extracted_claims (seq (length (objects state)) (length new))
                   (set_objects (objects state ++ new) state)), w')
    ∧ (length new ≤ 10)%nat
    ∧ Forall fresh_claim new
    ∧ (match llm_invoke extraction_prompt w with
       | (Returned reply, _) => ∃ e, parse_claims reply = Raised e
       | (Raised _, _) => True
       end → new = []).
Proof.
  unfold try_except. rewrite bind_run.
  destruct (llm_invoke extraction_prompt w) as [[reply|e] w1].
  - rewrite bind_run. unfold lift_outcome at 1.
    destruct (parse_claims reply) as [claims_data|e] eqn:Hparse.
    + rewrite bind_run. unfold build_claims.
      destruct (build_claims_fresh (take 10 claims_data) [] state w1)
        as (new & w2 & -> & Hlen & Hnew).
      rewrite ret_run. exists new, w2. split_and!; [done| |done|].
      * rewrite length_take in Hlen. lia.
      * intros [e He]. congruence.
    + rewrite ret_run. exists [], w1. rewrite app_nil_r.
      split_and!; [|simpl; lia|done|done]. by rewrite <- set_objects_same.
  - rewrite ret_run. exists [], w1. rewrite app_nil_r.
    split_and!; [|simpl; lia|done|done]. by rewrite <- set_objects_same.
Qed.

(** [extract_node] with results to read: the shape of every outcome. *)
Lemma extract_node_run (state : AgentState) (w : World) :
  raw_search_results state ≠ [] →
  if forallb content_present (take 10 (raw_search_results state))
  then ∃ new entry w',
         extract_node state w
         = (Returned (append_log entry
              (set_extracted_claims (seq (length (objects state)) (length new))
                 (set_objects (objects state ++ new) state))), w')
         ∧ node entry = "extract"
         ∧ (length new ≤ 10)%nat
         ∧ Forall fresh_claim new
         ∧ ((∀ p, match llm_invoke p w with
                  | (Returned reply, _) => ∃ e, parse_claims reply = Raised e
                  | (Raised _, _) => True
                  end) → new = [])
  else extract_node state w = (Raised TypeError, w).
Proof.
  intros Hraw. unfold extract_node.
  destruct (raw_search_results state) as [|hit hits] eqn:Hhits; [done|].
  pose proof (sources_context_run (take 10 (hit :: hits)) (seq 0 10) w) as Hctx.
  rewrite length_take, length_seq in Hctx. specialize (Hctx ltac:(lia)).
  destruct (forallb content_present (take 10 (hit :: hits))).
  - destruct Hctx as [blocks Hctx]. rewrite bind_run, Hctx. cbv zeta.
    rewrite bind_run.
    destruct (extract_try_returns state
                (format_extract_prompt (topic state) (join (nl +:+ nl) blocks)) w)
      as (new & w1 & -> & Hlen & Hnew & Hnone).
    match goal with
    | |- context [(log_node_execution ?n ?i ?o ?p ?mc ?hd ≫= λ entry, mret (append_log entry ?st)) _] =>
      destruct (log_and_return n i o p mc hd st w1) as (e & He & Hname & _)
    end.
    exists new, e, (now_isoformat w1).2. split_and!; [exact He|done..|].
    intros Hdown. apply Hnone. apply Hdown.
  - by rewrite bind_run, Hctx.
Qed.
End extract.

(** X4.  [extract_node] with search results to read either returns with one
    log entry under its name, or raises [TypeError] before anything outside
    is called; it raises exactly when one of the first ten hits has [None]
    for its page text. *)
Theorem extract_node_outcome `{Env} (state : AgentState) (w : World) :
  raw_search_results state ≠ [] →
  if forallb content_present (take 10 (raw_search_results state))
  then ∃ state' w', extract_node state w = (Returned state', w')
                    ∧ logged_once "extract" state state'
  else extract_node state w = (Raised TypeError, w).
Proof.
  intros Hraw. pose proof (extract_node_run state w Hraw) as Hrun.
  destruct (forallb content_present (take 10 (raw_search_results state))); [|done].
  destruct Hrun as (new & entry & w' & -> & Hname & _).
  do 2 eexists. split; [reflexivity|]. by exists entry.
Qed.

Lemma extract_node_outcome_witness :
  raw_search_results null_content_state ≠ []
  ∧ extract_node (H := scripted) null_content_state 0%nat = (Raised TypeError, 0%nat).
Proof.
  assert (Hraw : raw_search_results null_content_state ≠ []) by discriminate.
  split; [exact Hraw|].
  exact (extract_node_outcome (H := scripted) null_content_state 0%nat Hraw).
Defined.



(** In the answering world the first entry is kept, stripped, and the second
    is dropped for its length. *)
Example extract_node_keeps_one :
  ∃ state', extract_node (H := answering) one_hit_state 0%nat = (Returned state', 1%nat)
            ∧ extracted_claims state' = [0%nat]
            ∧ claim <$> objects state' = ["A tree with n vertices has exactly n - 1 edges."].
Proof. eexists. vm_compute. split_and!; reflexivity. Qed.

(** X6.  When the model call raises, or its reply does not parse into claim
    entries, [extract_node] still returns: with no extracted claim, the
    object table as it was, and its log entry written. *)
Theorem extract_node_fallback `{Env} (state : AgentState) (w : World) :
  raw_search_results state ≠ [] →
  forallb content_present (take 10 (raw_search_results state)) = true →
  (∀ p, match llm_invoke p w with
        | (Returned reply, _) => ∃ e, parse_claims reply = Raised e
        | (Raised _, _) => True
        end) →
  ∃ state' w',
    extract_node state w = (Returned state', w')
    ∧ extracted_claims state' = []
    ∧ objects state' = objects state
    ∧ logged_once "extract" state state'.
Proof.
  intros Hraw Hcontent Hdown. pose proof (extract_node_run state w Hraw) as Hrun.
  rewrite Hcontent in Hrun.
  destruct Hrun as (new & entry & w' & -> & Hname & _ & _ & Hnone).
  rewrite (Hnone Hdown). do 2 eexists. split; [reflexivity|]. simpl.
  rewrite app_nil_r. split_and!; [done..|]. by exists entry.
Qed.

Lemma extract_node_fallback_witness :
  raw_search_results one_hit_state ≠ []
  ∧ forallb content_present (take 10 (raw_search_results one_hit_state)) = true
  ∧ ∃ state' w',
      extract_node (H := offline) one_hit_state 0%nat = (Returned state', w')
      ∧ extracted_claims state' = [].
Proof.
  assert (Hraw : raw_search_results one_hit_state ≠ []) by discriminate.
  split; [exact Hraw|]. split; [reflexivity|].
  destruct (extract_node_fallback (H := offline) one_hit_state 0%nat Hraw eq_refl
              (λ p, I))
    as (state' & w' & Hrun & Hnone & _).
  exists state', w'. split; [exact Hrun|exact Hnone].
Defined.

(** ** The prioritize step *)

Section prioritize.
Context `{Env}.

Lemma filter_filter_same {A} (f : A → bool) (l : list A) :
  List.filter f (List.filter f l) = List.filter f l.
Proof.
  induction l as [|x l IH]; [done|]. simpl.
  destruct (f x) eqn:Hx; simpl; rewrite ?Hx, IH; done.
Qed.

Lemma filter_filter_other {A} (f : A → bool) (l : list A) :
  List.filter f (List.filter (λ x, negb (f x)) l) = []
  ∧ List.filter (λ x, negb (f x)) (List.filter f l) = [].
Proof.
  induction l as [|x l [IH1 IH2]]; [done|]. simpl.
  destruct (f x) eqn:Hx; simpl; rewrite ?Hx; simpl; done.
Qed.

Lemma partition_twice {A} (f : A → bool) (l : list A) :
  List.filter f (List.filter f l ++ List.filter (λ x, negb (f x)) l)
  ++ List.filter (λ x, negb (f x)) (List.filter f l ++ List.filter (λ x, negb (f x)) l)
  = List.filter f l ++ List.filter (λ x, negb (f x)) l.
Proof.
  rewrite !List.filter_app, !filter_filter_same.
  destruct (filter_filter_other f l) as [-> ->]. by rewrite app_nil_r.
Qed.

Lemma filter_live (state : AgentState) (f : ref → bool) (l : list ref) :
  live state l → live state (List.filter f l).
Proof.
  unfold live. induction 1 as [|r l Hr _ IH]; simpl; [done|].
  destruct (f r); [by constructor|done].
Qed.

(** The loop is a stable partition of the references it is given. *)
Lemma prioritize_loop_partition (state : AgentState) (l : list ref) :
  ∀ (p rg : list ref) (w : World),
    live state l →
    for_each l (p, rg) (prioritize_one state) w
    = (Returned (p ++ List.filter (authoritative_ref state) l,
                 rg ++ List.filter (λ r, negb (authoritative_ref state r)) l), w).
Proof.
  induction l as [|r l IH]; intros p rg w Hlive; cbn [for_each List.filter].
  - by rewrite ret_run, !app_nil_r.
  - apply Forall_cons in Hlive as [Hr Hlive].
    destruct (lookup_lt_is_Some_2 _ _ Hr) as [c Hc].
    rewrite bind_run. unfold prioritize_one at 1, deref. cbv beta iota.
    rewrite bind_run, Hc, ret_run. cbv zeta.
    assert (Hauth : authoritative_ref state r
                    = existsb (λ domain, contains domain (lower (source_url c)))
                              authoritative_domains).
    { unfold authoritative_ref. by rewrite Hc. }
    rewrite Hauth. destruct (existsb _ _); rewrite ret_run, IH by done; cbn [negb];
      by rewrite <- ?app_assoc.
Qed.
End prioritize.

(** X7.  The prioritize step is a stable partition: the claims from
    authoritative sources come first, the others after, each group in the
    order it had; no claim is lost or repeated and no object changes.
    Running the step again on its own result changes nothing. *)
Theorem author_prioritization_node_partition `{Env} (state : AgentState) (w : World) :
  live state (extracted_claims state) →
  ∃ state' w',
    author_prioritization_node state w = (Returned state', w')
    ∧ extracted_claims state'
      = List.filter (authoritative_ref state) (extracted_claims state)
        ++ List.filter (λ r, negb (authoritative_ref state r)) (extracted_claims state)
    ∧ objects state' = objects state
    ∧ ∃ state'' w'',
        author_prioritization_node state' w' = (Returned state'', w'')
        ∧ extracted_claims state'' = extracted_claims state'.
Proof.
  intros Hlive. unfold author_prioritization_node at 1.
  rewrite bind_run, (prioritize_loop_partition state _ [] [] w Hlive). cbv zeta.
  match goal with
  | |- context [(log_node_execution ?n ?i ?o ?p ?mc ?hd ≫= λ entry, mret (append_log entry ?st)) _] =>
    destruct (log_and_return n i o p mc hd st w) as (e & He & _)
  end.
  do 2 eexists. split; [exact He|]. cbn [extracted_claims objects append_log
    set_node_logs set_extracted_claims app].
  split_and!; [done|done|].
  set (A := List.filter (authoritative_ref state) (extracted_claims state)).
  set (B := List.filter (λ r, negb (authoritative_ref state r)) (extracted_claims state)).
  set (state1 := append_log e (set_extracted_claims (A ++ B) state)).
  assert (Hlive1 : live state1 (extracted_claims state1)).
  { apply Forall_app. split; by apply filter_live. }
  unfold author_prioritization_node.
  rewrite bind_run, (prioritize_loop_partition state1 _ [] [] _ Hlive1). cbv zeta.
  match goal with
  | |- context [(log_node_execution ?n ?i ?o ?p ?mc ?hd ≫= λ entry, mret (append_log entry ?st)) ?w1] =>
    destruct (log_and_return n i o p mc hd st w1) as (e' & He' & _)
  end.
  do 2 eexists. split; [exact He'|].
  cbn [extracted_claims append_log set_node_logs set_extracted_claims app].
  change (authoritative_ref state1) with (authoritative_ref state).
  change (extracted_claims state1) with (A ++ B).
  apply partition_twice.
Qed.

Lemma author_prioritization_node_partition_witness :
  live two_claims_state (extracted_claims two_claims_state)
  ∧ ∃ state' w',
      author_prioritization_node (H := scripted) two_claims_state 0%nat
      = (Returned state', w')
      ∧ extracted_claims state' = [0; 1]%nat.
Proof.
  assert (Hlive : live two_claims_state (extracted_claims two_claims_state)).
  { vm_compute. repeat constructor. }
  split; [exact Hlive|].
  destruct (author_prioritization_node_partition (H := scripted) two_claims_state 0%nat Hlive)
    as (state' & w' & Hrun & Hclaims & _).
  exists state', w'. split; [exact Hrun|]. rewrite Hclaims. reflexivity.
Defined.

(** ** The synthesize step *)

Section synthesize.
Context `{Env}.

Lemma list_comp_deref (state : AgentState) (l : list ref) (w : World) :
  live state l →
  ∃ cs, list_comp (deref state) l w = (Returned cs, w) ∧ length cs = length l.
Proof.
  induction 1 as [|r l Hr _ (cs & IH & Hlen)]; cbn [list_comp].
  - exists []. by rewrite ret_run.
  - destruct (lookup_lt_is_Some_2 _ _ Hr) as [c Hc].
    rewrite bind_run. unfold deref at 1. rewrite Hc, ret_run, bind_run, IH, ret_run.
    exists (c :: cs). simpl. by rewrite Hlen.
Qed.

(** Whenever the step returns: only the draft plan and the log differ, the
    plan has four to seven sections, and the short path neither logs nor
    calls anything. *)
Lemma synthesis_node_inv (state state' : AgentState) (w w' : World) :
  synthesis_node state w = (Returned state', w') →
  (4 ≤ length (draft_plan state') ≤ 7)%nat
  ∧ (∃ logs, state' = set_node_logs logs (set_draft_plan (draft_plan state') state))
  ∧ (if (length (verified_claims state) <? 3)%nat
     then w' = w ∧ node_logs state' = node_logs state
          ∧ length (draft_plan state') = 5%nat
     else logged_once "synthesize" state state').
Proof.
  unfold synthesis_node. destruct (length (verified_claims state) <? 3)%nat.
  { rewrite ret_run. intros [= <- <-]. cbn. split_and!; try lia; try done.
    eexists. by destruct state. }
  intros Hrun.
  apply bind_returned in Hrun as (claims & w1 & _ & Hrun). cbv zeta in Hrun.
  apply bind_returned in Hrun as (st1 & w2 & Htry & Hrun).
  apply bind_returned in Hrun as (entry & w3 & Hlog & Hret).
  rewrite ret_run in Hret. injection Hret as <- <-.
  destruct (log_node_execution_returns "synthesize"
              [("verified_claims", py_len (verified_claims state))]
              [("plan_sections", py_len (draft_plan st1))]
              (Some (str_take 300 (format_synthesize_prompt (topic state)
                 (join nl (map (λ c, "• " +:+ claim c) claims))))) None None w2)
    as (entry' & Hlog' & Hname & _).
  rewrite Hlog' in Hlog. injection Hlog as <- <-.
  assert (Hplan : (4 ≤ length (draft_plan st1) ≤ 7)%nat
                  ∧ st1 = set_draft_plan (draft_plan st1) state).
  { unfold try_except in Htry.
    match type of Htry with
    | match ?body w1 with _ => _ end = _ => destruct (body w1) as [[st_b|e] w_b] eqn:Hbody
    end.
    - injection Htry as <- <-.
      apply bind_returned in Hbody as (reply & w4 & _ & Hbody).
      destruct (4 <=? length (parse_plan reply))%nat eqn:Hfour; [|discriminate].
      rewrite ret_run in Hbody. injection Hbody as <- <-.
      apply Nat.leb_le in Hfour. cbn [draft_plan set_draft_plan].
      rewrite length_take. split; [lia|]. by destruct state.
    - rewrite ret_run in Htry. injection Htry as <- <-. cbn. split; [lia|].
      by destruct state. }
  destruct Hplan as [Hsize Hframe]. cbn [draft_plan append_log set_node_logs].
  split_and!; [lia|lia| |].
  - exists (node_logs state ++ [entry']). rewrite Hframe. by destruct state.
  - exists entry'. split; [|done]. cbn. rewrite Hframe. by destruct state.
Qed.

(** The step returns whenever the claims it reads are objects of the table. *)
Lemma synthesis_node_returns (state : AgentState) (w : World) :
  live state (take 15 (verified_claims state)) →
  ∃ state' w', synthesis_node state w = (Returned state', w').
Proof.
  intros Hlive. unfold synthesis_node.
  destruct (length (verified_claims state) <? 3)%nat; [rewrite ret_run; eauto|].
  destruct (list_comp_deref state _ w Hlive) as (cs & Hcs & _).
  rewrite bind_run, Hcs. cbv zeta. rewrite bind_run.
  unfold try_except at 1. rewrite bind_run.
  destruct (llm_invoke _ w) as [[reply|e] w1].
  - destruct (4 <=? length (parse_plan reply))%nat; unfold raise; rewrite ?ret_run;
      match goal with
      | |- context [(log_node_execution ?n ?i ?o ?p ?mc ?hd ≫= λ entry, mret (append_log entry ?st)) _] =>
        destruct (log_and_return n i o p mc hd st w1) as (e0 & He0 & _)
      end; rewrite He0; eauto.
  - rewrite ret_run.
    match goal with
    | |- context [(log_node_execution ?n ?i ?o ?p ?mc ?hd ≫= λ entry, mret (append_log entry ?st)) _] =>
      destruct (log_and_return n i o p mc hd st w1) as (e0 & He0 & _)
    end. rewrite He0. eauto.
Qed.
End synthesize.

(** X8.  The synthesize step returns whenever the verified claims it reads
    are objects of the table, and it always leaves a draft plan of four to
    seven sections, so never an empty one; nothing but the draft plan and the
    log changes.  With fewer than three verified claims it writes the
    five-section plan without calling the model. *)
Theorem synthesis_node_plan_size `{Env} (state : AgentState) (w : World) :
  live state (take 15 (verified_claims state)) →
  ∃ state' w',
    synthesis_node state w = (Returned state', w')
    ∧ (4 ≤ length (draft_plan state') ≤ 7)%nat
    ∧ (∃ logs, state' = set_node_logs logs (set_draft_plan (draft_plan state') state))
    ∧ ((length (verified_claims state) < 3)%nat →
       w' = w ∧ length (draft_plan state') = 5%nat).
Proof.
  intros Hlive. destruct (synthesis_node_returns state w Hlive) as (state' & w' & Hrun).
  exists state', w'. split; [done|].
  destruct (synthesis_node_inv state state' w w' Hrun) as (Hsize & Hframe & Hshort).
  split_and!; [lia|lia|done|]. intros Hfew.
  apply Nat.ltb_lt in Hfew. rewrite Hfew in Hshort. tauto.
Qed.

Lemma synthesis_node_plan_size_witness :
  live verified_state (take 15 (verified_claims verified_state))
  ∧ ∃ state' w',
      synthesis_node (H := answering) verified_state 0%nat = (Returned state', w')
      ∧ (4 ≤ length (draft_plan state') ≤ 7)%nat.
Proof.
  assert (Hlive : live verified_state (take 15 (verified_claims verified_state))).
  { vm_compute. repeat constructor. }
  split; [exact Hlive|].
  destruct (synthesis_node_plan_size (H := answering) verified_state 0%nat Hlive)
    as (state' & w' & Hrun & Hsize & _).
  exists state', w'. split; [exact Hrun|exact Hsize].
Defined.

(** X9.  The synthesize step does not read the reviewer's feedback: run on
    a state with any other feedback record and refinement notes, it makes the
    same calls and returns the same state, but for those two fields.  The
    notes a "rework" decision stores do not reach the new plan. *)
Theorem synthesis_node_ignores_feedback `{Env} (state : AgentState) (w : World)
    (feedback : option (gmap string pyval)) (notes : string) :
  synthesis_node (set_refinement_notes notes (set_human_feedback feedback state)) w
  = match synthesis_node state w with
    | (Returned state', w') =>
      (Returned (set_refinement_notes notes (set_human_feedback feedback state')), w')
    | (Raised e, w') => (Raised e, w')
    end.
Proof.
  unfold synthesis_node.
  cbn [verified_claims topic set_refinement_notes set_human_feedback].
  destruct (length (verified_claims state) <? 3)%nat; [by rewrite !ret_run|].
  change (deref (set_refinement_notes notes (set_human_feedback feedback state)))
    with (deref state).
  rewrite !bind_run.
  destruct (list_comp (deref state) (take 15 (verified_claims state)) w)
    as [[claims|e] w1]; [|done].
  cbv zeta. rewrite !bind_run. unfold try_except. rewrite !bind_run.
  destruct (llm_invoke _ w1) as [[reply|e] w2].
  - destruct (4 <=? length (parse_plan reply))%nat; unfold raise; rewrite ?ret_run;
      unfold log_node_execution, lift_total; rewrite !bind_run;
      destruct (now_isoformat w2) as [ts w3]; by rewrite !ret_run.
  - rewrite !ret_run. unfold log_node_execution, lift_total. rewrite !bind_run.
    destruct (now_isoformat w2) as [ts w3]. by rewrite !ret_run.
Qed.

(** ** The refine step: what each decision does *)

Lemma py_eq_str_true (v : pyval) (s : string) : py_eq_str v s = true → v = PStr s.
Proof.
  destruct v as [|b|z|t|l]; simpl; try done.
  intros Ht. apply bool_decide_eq_true in Ht. by subst.
Qed.



(** X11.  After the synthesize step, the refine step cannot fail on the
    plan: for every state the synthesize step returned and every feedback
    whose notes are a string, whatever the decision, the refine step returns,
    with a route among the three declared targets. *)
Theorem refine_after_synthesize `{Env} (state state1 : AgentState) (w w1 w2 : World)
    (feedback : FeedbackRequest) (current_checkpoint s : string) :
  synthesis_node state w = (Returned state1, w1) →
  notes feedback = Some s →
  ∃ state2 w3 r,
    refinement_node
      (set_human_feedback (Some (feedback_record feedback current_checkpoint)) state1) w2
    = (Returned state2, w3)
    ∧ route_to state2 = Some (PStr r) ∧ r ∈ legal_routes.
Proof.
  intros Hsyn Hnotes.
  destruct (synthesis_node_inv state state1 w w1 Hsyn) as ([Hfour _] & _ & _).
  destruct (refinement_node_returns
              (set_human_feedback (Some (feedback_record feedback current_checkpoint)) state1)
              w2 (feedback_record feedback current_checkpoint))
    as (state2 & w3 & Hrun).
  - reflexivity.
  - right. exists s. unfold feedback_record.
    rewrite lookup_insert_ne, lookup_insert_eq by done. by rewrite Hnotes.
  - cbn [draft_plan set_human_feedback]. intros Hnil. rewrite Hnil in Hfour.
    simpl in Hfour. lia.
  - exists state2, w3.
    destruct (refinement_node_route_to _ _ _ _ Hrun) as [(r & Hr & Hlegal) _]. eauto.
Qed.

Lemma refine_after_synthesize_witness :
  ∃ state1 w1,
    synthesis_node (H := scripted) parked_state 0%nat = (Returned state1, w1)
    ∧ ∃ state2 w3 r,
        refinement_node (H := scripted)
          (set_human_feedback
             (Some (feedback_record {| decision := "emphasize_topic"; notes := Some "trees" |}
                                    "plan_review")) state1) w1
        = (Returned state2, w3)
        ∧ route_to state2 = Some (PStr r) ∧ r ∈ legal_routes.
Proof.
  eexists _, _. split; [vm_compute; reflexivity|].
  eapply (refine_after_synthesize (H := scripted) parked_state _ 0%nat _ _
            {| decision := "emphasize_topic"; notes := Some "trees" |} "plan_review" "trees").
  - vm_compute. reflexivity.
  - reflexivity.
Defined.

(** ** The final brief *)

Section brief.
Context `{Env}.

Lemma list_comp_length {A B} (f : A → M B) (l : list A) :
  ∀ (w w' : World) (ys : list B),
    list_comp f l w = (Returned ys, w') → length ys = length l.
Proof.
  induction l as [|x l IH]; intros w w' ys; cbn [list_comp].
  - rewrite ret_run. by intros [= <- <-].
  - intros Hrun. apply bind_returned in Hrun as (y & w1 & _ & Hrun).
    apply bind_returned in Hrun as (ys' & w2 & Hrest & Hret).
    rewrite ret_run in Hret. injection Hret as <- <-. simpl.
    by rewrite (IH _ _ _ Hrest).
Qed.

(** The bibliography loop: the URLs seen are the URLs listed, and no URL is
    listed twice. *)
Lemma bibliography_loop (claims : list ClaimWithSource) :
  ∀ (seen : list string) (bib : list Reading) (w w' : World)
    (seen' : list string) (bib' : list Reading),
    for_each claims (seen, bib) (λ '(seen_urls, bibliography) c,
      if bool_decide (source_url c ∈ seen_urls) then mret (seen_urls, bibliography)
      else
        accessed_date_str ←
          (if bool_decide (accessed_date c = "")
           then lift_total now_isoformat
           else mret (accessed_date c));
        accessed ← lift_outcome (format_accessed accessed_date_str);
        mret (source_url c :: seen_urls,
              bibliography ++ [{| reading_title := source_title c;
                                  reading_url := source_url c;
                                  accessed := accessed |}])) w
    = (Returned (seen', bib'), w') →
    seen = reverse (reading_url <$> bib) → NoDup seen →
    seen' = reverse (reading_url <$> bib') ∧ NoDup seen'
    ∧ (∀ c, c ∈ claims → source_url c ∈ seen').
Proof.
  induction claims as [|c claims IH]; intros seen bib w w' seen' bib'; cbn [for_each].
  - rewrite ret_run. intros [= <- <-] Hseen Hnodup. split_and!; [done..|].
    intros c Hc. by apply elem_of_nil in Hc.
  - intros Hrun Hseen Hnodup.
    apply bind_returned in Hrun as ([seen1 bib1] & w1 & Hone & Hrest).
    assert (Hinv1 : seen1 = reverse (reading_url <$> bib1) ∧ NoDup seen1
                    ∧ source_url c ∈ seen1 ∧ (∀ u, u ∈ seen → u ∈ seen1)).
    { cbv beta iota in Hone. case_bool_decide as Hin.
      - rewrite ret_run in Hone. by injection Hone as <- <- <-.
      - apply bind_returned in Hone as (date & w2 & _ & Hone).
        apply bind_returned in Hone as (accessed & w3 & _ & Hone).
        rewrite ret_run in Hone. injection Hone as <- <- <-.
        split_and!.
        + rewrite fmap_app, reverse_app. simpl. by rewrite Hseen.
        + by apply NoDup_cons.
        + by left.
        + intros u Hu. by right. }
    destruct Hinv1 as (Hseen1 & Hnodup1 & Hc1 & Hmono).
    destruct (IH seen1 bib1 w1 w' seen' bib' Hrest Hseen1 Hnodup1)
      as (Hseen' & Hnodup' & Hall).
    split_and!; [done..|].
    intros c0 [->|Hc0]%elem_of_cons; [|by apply Hall].
    (* the URLs seen only grow *)
    clear -Hrest Hc1. revert seen1 bib1 w1 Hrest Hc1.
    induction claims as [|c1 claims IHc]; intros seen1 bib1 w1; cbn [for_each].
    + rewrite ret_run. by intros [= <- <-].
    + intros Hrun Hc1.
      apply bind_returned in Hrun as ([seen2 bib2] & w2 & Hone & Hrest).
      apply (IHc seen2 bib2 w2 Hrest).
      cbv beta iota in Hone. case_bool_decide as Hin.
      * rewrite ret_run in Hone. by injection Hone as <- <- <-.
      * apply bind_returned in Hone as (date & w3 & _ & Hone).
        apply bind_returned in Hone as (accessed & w4 & _ & Hone).
        rewrite ret_run in Hone. injection Hone as <- <- <-. by right.
Qed.
End brief.

(** X12.  Whenever [final_brief_node] returns, the state holds a brief and
    one more log entry, and nothing else has changed.  The brief's lecture
    plan is the refined plan if there is one and the draft plan otherwise;
    it has at most six key findings and at most ten further readings, no two
    of them with the same URL; its node trace is the names of the log entries
    written before this step; and its counts are the numbers of search
    results, extracted claims and verified claims of the state. *)
Theorem final_brief_node_brief `{Env} (state state' : AgentState) (w w' : World) :
  final_brief_node state w = (Returned state', w') →
  ∃ brief entry,
    state' = append_log entry (set_final_brief (Some brief) state)
    ∧ node entry = "final_brief"
    ∧ lecture_plan brief
      = match refined_plan state with [] => draft_plan state | plan => plan end
    ∧ (length (key_findings brief) ≤ 6)%nat
    ∧ (length (further_reading brief) ≤ 10)%nat
    ∧ NoDup (reading_url <$> further_reading brief)
    ∧ node_trace (appendix brief) = node <$> node_logs state
    ∧ sources_analyzed (appendix brief) = length (raw_search_results state)
    ∧ claims_extracted (appendix brief) = length (extracted_claims state)
    ∧ claims_verified (appendix brief) = length (verified_claims state).
Proof.
  unfold final_brief_node. intros Hrun.
  apply bind_returned in Hrun as (claims & w1 & Hclaims & Hrun). cbv zeta in Hrun.
  apply bind_returned in Hrun as (content & w2 & _ & Hrun).
  apply bind_returned in Hrun as ([seen bib] & w3 & Hbib & Hrun).
  apply bind_returned in Hrun as (dc & w4 & _ & Hrun).
  apply bind_returned in Hrun as (date & w5 & _ & Hrun).
  match type of Hrun with
  | (log_node_execution ?n ?i ?o ?p ?mc ?hd ≫= λ entry, mret (append_log entry ?st)) _ = _ =>
    destruct (log_and_return n i o p mc hd st w5) as (entry & He & Hname & _)
  end.
  rewrite He in Hrun. injection Hrun as <- <-.
  apply list_comp_length in Hclaims.
  destruct (bibliography_loop claims [] [] w2 w3 seen bib Hbib eq_refl (NoDup_nil_2 (A := string)))
    as (Hseen & Hnodup & _).
  eexists _, entry. split; [reflexivity|].
  cbn [lecture_plan key_findings further_reading appendix node_trace sources_analyzed
       claims_extracted claims_verified].
  split_and!; try done.
  - rewrite length_map, length_take. lia.
  - rewrite length_take. lia.
  - rewrite fmap_take. eapply sublist_NoDup; [|apply sublist_take].
    rewrite Hseen in Hnodup. by rewrite reverse_Permutation in Hnodup.
Qed.

Lemma final_brief_node_brief_witness :
  ∃ state' w',
    final_brief_node (H := answering) verified_state 0%nat = (Returned state', w')
    ∧ ∃ brief, final_brief state' = Some brief
               ∧ (length (further_reading brief) ≤ 10)%nat
               ∧ NoDup (reading_url <$> further_reading brief).
Proof.
  destruct (final_brief_node (H := answering) verified_state 0%nat)
    as [[state'|e] w'] eqn:Hrun; [|vm_compute in Hrun; discriminate].
  destruct (final_brief_node_brief (H := answering) verified_state state' 0%nat w' Hrun)
    as (brief & entry & -> & _ & _ & _ & Hten & Hnodup & _).
  eexists _, w'. split; [reflexivity|]. exists brief. split; [reflexivity|].
  split; [exact Hten|exact Hnodup].
Defined.

(** X13.  If the model call raises, or its reply does not parse, a brief
    that [final_brief_node] returns carries the fallback content: the summary
    "Overview of <topic>.", no section, and the three stock risks, each
    naming the topic or the deployment. *)
Theorem final_brief_node_fallback `{Env} (state state' : AgentState) (w w' : World)
    (brief : Brief) :
  (∀ p w0, match llm_invoke p w0 with
           | (Returned reply, _) => ∃ e, parse_content reply = Raised e
           | (Raised _, _) => True
           end) →
  final_brief_node state w = (Returned state', w') →
  final_brief state' = Some brief →
  summary brief = "Overview of " +:+ topic state +:+ "."
  ∧ lecture_sections brief = []
  ∧ risks brief = ["Complexity in implementing " +:+ topic state;
                   "Scalability challenges for " +:+ topic state +:+ " systems";
                   "High resource requirements for deployment"].
Proof.
  intros Hdown Hrun Hbrief. unfold final_brief_node in Hrun.
  apply bind_returned in Hrun as (claims & w1 & _ & Hrun). cbv zeta in Hrun.
  apply bind_returned in Hrun as (content & w2 & Htry & Hrun).
  apply bind_returned in Hrun as ([seen bib] & w3 & _ & Hrun).
  apply bind_returned in Hrun as (dc & w4 & Hdc & Hrun).
  apply bind_returned in Hrun as (date & w5 & _ & Hrun).
  match type of Hrun with
  | (log_node_execution ?n ?i ?o ?p ?mc ?hd ≫= λ entry, mret (append_log entry ?st)) _ = _ =>
    destruct (log_and_return n i o p mc hd st w5) as (entry & He & _)
  end.
  rewrite He in Hrun. injection Hrun as <- <-.
  cbn [final_brief append_log set_node_logs set_final_brief] in Hbrief.
  injection Hbrief as <-. cbn [summary lecture_sections risks].
  assert (Hfallback : content = Some
    {| executive_summary := Some ("Overview of " +:+ topic state +:+ ".");
       sections := Some [];
       content_risks := Some
         ["Complexity in implementing " +:+ topic state;
          "Scalability challenges for " +:+ topic state +:+ " systems";
          "High resource requirements for deployment"] |}).
  { unfold try_except in Htry. rewrite bind_run in Htry.
    match type of Htry with
    | context [llm_invoke ?p w1] => specialize (Hdown p w1)
    end.
    destruct (llm_invoke _ w1) as [[reply|e] w6].
    - destruct Hdown as [e He']. unfold lift_outcome in Htry. rewrite He' in Htry.
      rewrite ret_run in Htry. by injection Htry as <- <-.
    - rewrite ret_run in Htry. by injection Htry as <- <-. }
  subst content. rewrite ret_run in Hdc. by injection Hdc as <- <-.
Qed.

Lemma final_brief_node_fallback_witness :
  ∃ state' brief,
    final_brief_node (H := offline) verified_state 0%nat = (Returned state', 1%nat)
    ∧ final_brief state' = Some brief
    ∧ summary brief = "Overview of graphs."
    ∧ lecture_sections brief = [].
Proof.
  destruct (final_brief_node (H := offline) verified_state 0%nat)
    as [[state'|e] w'] eqn:Hrun; [|vm_compute in Hrun; discriminate].
  destruct (final_brief state') as [brief|] eqn:Hbrief;
    [|vm_compute in Hrun; injection Hrun as <- <-; discriminate].
  destruct (final_brief_node_fallback (H := offline) verified_state state' 0%nat w' brief)
    as (Hsummary & Hsections & _).
  - intros p w0. exact I.
  - exact Hrun.
  - exact Hbrief.
  - exists state', brief. split_and!; [|exact Hbrief|exact Hsummary|exact Hsections].
    pose proof Hrun as Hworld. vm_compute in Hworld. injection Hworld as _ <-.
    reflexivity.
Defined.

(** X14.  If the model's reply parses to a JSON value that is not an object
    (a list, a string, a number), [final_brief_node] does not return: the
    lookup of the summary raises outside the [try], so no brief is stored and
    no log entry is written. *)
Theorem final_brief_node_non_object `{Env} (state : AgentState) (w : World) :
  (∀ p w0, ∃ reply w1, llm_invoke p w0 = (Returned reply, w1)
                       ∧ parse_content reply = Returned None) →
  ∃ e w', final_brief_node state w = (Raised e, w').
Proof.
  intros Hother.
  destruct (final_brief_node state w) as [[state'|e] w'] eqn:Hrun; [|eauto].
  exfalso. unfold final_brief_node in Hrun.
  apply bind_returned in Hrun as (claims & w1 & _ & Hrun). cbv zeta in Hrun.
  apply bind_returned in Hrun as (content & w2 & Htry & Hrun).
  apply bind_returned in Hrun as ([seen bib] & w3 & _ & Hrun).
  apply bind_returned in Hrun as (dc & w4 & Hdc & Hrun).
  unfold try_except in Htry. rewrite bind_run in Htry.
  match type of Htry with
  | context [llm_invoke ?p w1] => destruct (Hother p w1) as (reply & w6 & Hreply & Hparse)
  end.
  rewrite Hreply in Htry. unfold lift_outcome in Htry. rewrite Hparse in Htry.
  injection Htry as <- <-. discriminate.
Qed.

Lemma final_brief_node_non_object_witness :
  ∃ e w', final_brief_node (H := listing) verified_state 0%nat = (Raised e, w').
Proof.
  apply (final_brief_node_non_object (H := listing) verified_state 0%nat).
  intros p w0. exists "[1, 2, 3]", (S w0). split; reflexivity.
Defined.

(** In the offline world the model call raises and the brief is the
    fallback one. *)
Example final_brief_node_offline :
  ∃ state' brief,
    final_brief_node (H := offline) verified_state 0%nat = (Returned state', 1%nat)
    ∧ final_brief state' = Some brief
    ∧ summary brief = "Overview of graphs."
    ∧ lecture_plan brief = ["Introduction: Understanding graphs (10 minutes)"]
    ∧ map reading_url (further_reading brief)
      = ["https://example.edu/trees"; "https://example.com/maps"].
Proof. eexists _, _. vm_compute. split_and!; reflexivity. Qed.

(** ** The search step *)

Section search.
Context `{Env}.

Lemma search_loop_bound (k : nat) (queries : list string) :
  (∀ q w0 hits w1, tavily_search q w0 = (Returned hits, w1) → (length hits ≤ k)%nat) →
  ∀ (results results' : list SearchResult) (w w' : World),
    for_each queries results (λ results query,
      try_except (hits ← tavily_search query; mret (results ++ hits))
                 (λ _, mret results)) w
    = (Returned results', w') →
    (length results' ≤ length results + k * length queries)%nat.
Proof.
  intros Hk. induction queries as [|query queries IH]; intros results results' w w';
    cbn [for_each].
  - rewrite ret_run. intros [= <- <-]. simpl. lia.
  - rewrite bind_run. unfold try_except at 1. rewrite bind_run.
    destruct (tavily_search query w) as [[hits|e] w1] eqn:Hq; rewrite ret_run; intros Hrest.
    + apply IH in Hrest. apply Hk in Hq. rewrite length_app in Hrest. simpl. lia.
    + apply IH in Hrest. simpl. lia.
Qed.

Lemma search_loop_failing (queries : list string) :
  (∀ q w0, ∃ e, tavily_search q w0 = (Raised e, w0)) →
  ∀ (results : list SearchResult) (w : World),
    for_each queries results (λ results query,
      try_except (hits ← tavily_search query; mret (results ++ hits))
                 (λ _, mret results)) w
    = (Returned results, w).
Proof.
  intros Hdown. induction queries as [|query queries IH]; intros results w; cbn [for_each].
  - by rewrite ret_run.
  - rewrite bind_run. unfold try_except at 1. rewrite bind_run.
    destruct (Hdown query w) as [e ->]. rewrite ret_run. apply IH.
Qed.

Lemma search_node_run (state : AgentState) (w : World) :
  ∃ results entry w1,
    for_each (search_queries state) [] (λ results query,
      try_except (hits ← tavily_search query; mret (results ++ hits))
                 (λ _, mret results)) w
    = (Returned results, w1)
    ∧ search_node state w
      = (Returned (append_log entry (set_raw_search_results results state)),
         (now_isoformat w1).2)
    ∧ node entry = "search".
Proof.
  destruct (search_loop_returns (search_queries state) [] w) as (results & w1 & Hloop).
  unfold search_node. rewrite bind_run, Hloop. cbv zeta.
  match goal with
  | |- context [(log_node_execution ?n ?i ?o ?p ?mc ?hd ≫= λ entry, mret (append_log entry ?st)) _] =>
    destruct (log_and_return n i o p mc hd st w1) as (entry & He & Hname & _)
  end.
  exists results, entry, w1. by rewrite He.
Qed.
End search.

(** X15.  [search_node] always returns, whatever Tavily does.  It writes
    only the search results and one log entry; the results are built from
    scratch, so what the state held before (the results of an earlier round)
    is discarded, not extended; with at most [k] hits per query there are at
    most [k] times the number of queries; and when every query fails the
    result list is empty. *)
Theorem search_node_results `{Env} (state : AgentState) (w : World) (k : nat) :
  (∀ q w0 hits w1, tavily_search q w0 = (Returned hits, w1) → (length hits ≤ k)%nat) →
  ∃ results entry w',
    search_node state w
    = (Returned (append_log entry (set_raw_search_results results state)), w')
    ∧ node entry = "search"
    ∧ (length results ≤ k * length (search_queries state))%nat
    ∧ (∀ old, search_node (set_raw_search_results old state) w
              = (Returned (append_log entry (set_raw_search_results results state)), w'))
    ∧ ((∀ q w0, ∃ e, tavily_search q w0 = (Raised e, w0)) → results = [] ∧ w' = (now_isoformat w).2).
Proof.
  intros Hk. destruct (search_node_run state w) as (results & entry & w1 & Hloop & Hrun & Hname).
  exists results, entry, (now_isoformat w1).2. split_and!; [done..| | |].
  - apply (search_loop_bound k _ Hk) in Hloop. simpl in Hloop. lia.
  - intros old. exact Hrun.
  - intros Hdown. rewrite (search_loop_failing _ Hdown) in Hloop. by injection Hloop as <- <-.
Qed.

Lemma search_node_results_witness :
  ∃ results entry w',
    search_node (H := answering) (set_search_queries ["graphs"; "trees"] parked_state) 0%nat
    = (Returned (append_log entry
         (set_raw_search_results results
            (set_search_queries ["graphs"; "trees"] parked_state))), w')
    ∧ (length results ≤ 2)%nat.
Proof.
  destruct (search_node_results (H := answering)
              (set_search_queries ["graphs"; "trees"] parked_state) 0%nat 1)
    as (results & entry & w' & Hrun & _ & Hlen & _).
  - intros q w0 hits w1 [= <- <-]. simpl. lia.
  - exists results, entry, w'. split; [exact Hrun|exact Hlen].
Defined.

(** ** What every step leaves alone *)

Section keeps.
Context `{Env}.

Lemma input_node_run (state : AgentState) (w : World) :
  ∃ entry,
    input_node state w
    = (Returned (append_log entry
         (set_search_queries
            [topic state +:+ " comprehensive guide";
             topic state +:+ " tutorial explained";
             topic state +:+ " applications examples";
             topic state +:+ " latest developments 2024";
             "how does " +:+ topic state +:+ " work"] state)), (now_isoformat w).2)
    ∧ node entry = "input".
Proof.
  unfold input_node. cbv zeta.
  match goal with
  | |- context [(log_node_execution ?n ?i ?o ?p ?mc ?hd ≫= λ entry, mret (append_log entry ?st)) _] =>
    destruct (log_and_return n i o p mc hd st w) as (entry & He & Hname & _)
  end.
  exists entry. by rewrite He.
Qed.

Lemma input_node_keeps (state state' : AgentState) (w w' : World) :
  input_node state w = (Returned state', w') → step_keeps "input" state state'.
Proof.
  destruct (input_node_run state w) as (entry & -> & Hname). intros [= <- <-].
  split_and!; [done..|]. right. by apply logged_once_append.
Qed.

Lemma search_node_keeps (state state' : AgentState) (w w' : World) :
  search_node state w = (Returned state', w') → step_keeps "search" state state'.
Proof.
  destruct (search_node_run state w) as (results & entry & w1 & _ & -> & Hname).
  intros [= <- <-]. split_and!; [done..|]. right. by apply logged_once_append.
Qed.

Lemma extract_node_keeps (state state' : AgentState) (w w' : World) :
  extract_node state w = (Returned state', w') → step_keeps "extract" state state'.
Proof.
  destruct (raw_search_results state) as [|hit hits] eqn:Hraw.
  - unfold extract_node. rewrite Hraw, ret_run. intros [= <- <-].
    split_and!; [done..|]. by left.
  - assert (Hne : raw_search_results state ≠ []) by by rewrite Hraw.
    pose proof (extract_node_run state w Hne) as Hcases.
    destruct (forallb content_present (take 10 (raw_search_results state))).
    + destruct Hcases as (new & entry & w1 & -> & Hname & _). intros [= <- <-].
      split_and!; [done..|]. right. by apply logged_once_append.
    + rewrite Hcases. discriminate.
Qed.

Lemma author_prioritization_node_keeps (state state' : AgentState) (w w' : World) :
  author_prioritization_node state w = (Returned state', w') →
  step_keeps "prioritize" state state'.
Proof.
  unfold author_prioritization_node. intros Hrun.
  apply bind_returned in Hrun as ([p rg] & w1 & _ & Hrun). cbv zeta in Hrun.
  match type of Hrun with
  | (log_node_execution ?n ?i ?o ?p ?mc ?hd ≫= λ entry, mret (append_log entry ?st)) _ = _ =>
    destruct (log_and_return n i o p mc hd st w1) as (entry & He & Hname & _)
  end.
  rewrite He in Hrun. injection Hrun as <- <-.
  split_and!; [done..|]. right. by apply logged_once_append.
Qed.

(** The verify loop writes to the object table only. *)
Lemma verify_one_shape (vc vc' : list ref) (st st' : AgentState) (r : ref) (w w' : World) :
  verify_one (vc, st) r w = (Returned (vc', st'), w') →
  st' = set_objects (objects st') st.
Proof.
  unfold verify_one. intros Hrun.
  apply bind_returned in Hrun as (c & w1 & _ & Hrun). cbv zeta in Hrun.
  apply bind_returned in Hrun as (sc & w2 & _ & Hrun).
  destruct (negb (truthy sc)).
  - rewrite ret_run in Hrun. injection Hrun as <- <- <-. apply set_objects_same.
  - apply bind_returned in Hrun as (v & w3 & _ & Hrun). cbn [verified] in Hrun.
    destruct (v_verified v); rewrite ret_run in Hrun; by injection Hrun as <- <- <-.
Qed.

Lemma verify_loop_shape (l : list ref) :
  ∀ (vc vc' : list ref) (st st' : AgentState) (w w' : World),
    for_each l (vc, st) verify_one w = (Returned (vc', st'), w') →
    st' = set_objects (objects st') st.
Proof.
  induction l as [|r l IH]; intros vc vc' st st' w w'; cbn [for_each].
  - rewrite ret_run. intros [= <- <- <-]. apply set_objects_same.
  - intros Hrun. apply bind_returned in Hrun as ([vc1 st1] & w1 & Hone & Hrest).
    apply verify_one_shape in Hone. apply IH in Hrest.
    rewrite Hrest, Hone. reflexivity.
Qed.

Lemma verification_node_keeps (state state' : AgentState) (w w' : World) :
  verification_node state w = (Returned state', w') → step_keeps "verify" state state'.
Proof.
  unfold verification_node. cbv zeta. intros Hrun.
  apply bind_returned in Hrun as ([vc st] & w1 & Hloop & Hrun).
  apply verify_loop_shape in Hloop.
  match type of Hrun with
  | (log_node_execution ?n ?i ?o ?p ?mc ?hd ≫= λ entry, mret (append_log entry ?st)) _ = _ =>
    destruct (log_and_return n i o p mc hd st w1) as (entry & He & Hname & _)
  end.
  rewrite He in Hrun. injection Hrun as <- <-. rewrite Hloop.
  split_and!; [done..|]. right. by apply logged_once_append.
Qed.

Lemma synthesis_node_keeps (state state' : AgentState) (w w' : World) :
  synthesis_node state w = (Returned state', w') → step_keeps "synthesize" state state'.
Proof.
  intros Hrun. destruct (synthesis_node_inv state state' w w' Hrun) as (_ & [logs Hshape] & Hlog).
  split_and!.
  - by rewrite Hshape.
  - by rewrite Hshape.
  - destruct (_ <? _)%nat; [left; tauto|by right].
Qed.

Lemma refinement_node_keeps (state state' : AgentState) (w w' : World) :
  refinement_node state w = (Returned state', w') → step_keeps "refine" state state'.
Proof.
  intros Hrun. destruct (refinement_node_route_to state state' w w' Hrun) as [_ Hlog].
  split_and!; [| |by right].
  all: unfold refinement_node in Hrun.
  all: apply bind_returned in Hrun as (notes & w1 & _ & Hrun).
  all: apply bind_returned in Hrun as (st1 & w2 & Hbody & Hrun).
  all: match type of Hrun with
       | (log_node_execution ?n ?i ?o ?p ?mc ?hd ≫= λ entry, mret (append_log entry ?st)) _ = _ =>
         destruct (log_and_return n i o p mc hd st w2) as (entry & He & _)
       end.
  all: rewrite He in Hrun; injection Hrun as <- <-.
  all: repeat match type of Hbody with
              | (if ?c then _ else _) _ = _ => destruct c
              end.
  all: try (injection Hbody as <- <-; reflexivity).
  all: apply bind_returned in Hbody as (st2 & w3 & Hplan & Hbody).
  all: injection Hbody as <- <-; simpl.
  all: destruct (negb _);
       [destruct (draft_plan state !! 0%nat); [|discriminate]|];
       by injection Hplan as <- <-.
Qed.

Lemma final_brief_node_run (state state' : AgentState) (w w' : World) :
  final_brief_node state w = (Returned state', w') →
  ∃ brief entry,
    state' = append_log entry (set_final_brief (Some brief) state)
    ∧ node entry = "final_brief".
Proof.
  unfold final_brief_node. intros Hrun.
  apply bind_returned in Hrun as (claims & w1 & _ & Hrun). cbv zeta in Hrun.
  apply bind_returned in Hrun as (content & w2 & _ & Hrun).
  apply bind_returned in Hrun as ([seen bib] & w3 & _ & Hrun).
  apply bind_returned in Hrun as (dc & w4 & _ & Hrun).
  apply bind_returned in Hrun as (date & w5 & _ & Hrun).
  match type of Hrun with
  | (log_node_execution ?n ?i ?o ?p ?mc ?hd ≫= λ entry, mret (append_log entry ?st)) _ = _ =>
    destruct (log_and_return n i o p mc hd st w5) as (entry & He & Hname & _)
  end.
  rewrite He in Hrun. injection Hrun as <- <-. eauto.
Qed.

Lemma final_brief_node_keeps (state state' : AgentState) (w w' : World) :
  final_brief_node state w = (Returned state', w') → step_keeps "final_brief" state state'.
Proof.
  intros (brief & entry & -> & Hname)%final_brief_node_run.
  split_and!; [done..|]. right. by apply logged_once_append.
Qed.

(** The ten step functions registered in the graph. *)
Lemma g_nodes_cases (name : string) (step : AgentState → M AgentState) :
  g_nodes build_graph !! name = Some step →
  (name, step) ∈ [("input", input_node); ("search", search_node);
                  ("extract", extract_node); ("prioritize", author_prioritization_node);
                  ("verify", verification_node); ("synthesize", synthesis_node);
                  ("plan_review", hitl_plan_review); ("refine", refinement_node);
                  ("fact_verification", hitl_fact_verification);
                  ("final_brief", final_brief_node)].
Proof.
  change (g_nodes build_graph) with
    (<["final_brief" := final_brief_node]>
     (<["fact_verification" := hitl_fact_verification]>
     (<["refine" := refinement_node]>
     (<["plan_review" := hitl_plan_review]>
     (<["synthesize" := synthesis_node]>
     (<["verify" := verification_node]>
     (<["prioritize" := author_prioritization_node]>
     (<["extract" := extract_node]>
     (<["search" := search_node]>
     (<["input" := input_node]>
      (∅ : gmap string (AgentState → M AgentState)))))))))))).
  repeat (rewrite lookup_insert; case_decide;
          [subst name; intros [= <-]; set_solver|]).
  by rewrite lookup_empty.
Qed.

Lemma graph_step_keeps (name : string) (step : AgentState → M AgentState)
    (state state' : AgentState) (w w' : World) :
  g_nodes build_graph !! name = Some step →
  step state w = (Returned state', w') →
  step_keeps name state state'.
Proof.
  intros Hstep%g_nodes_cases Hrun.
  rewrite !elem_of_cons, elem_of_nil in Hstep.
  destruct Hstep as [[= -> ->]|[[= -> ->]|[[= -> ->]|[[= -> ->]|[[= -> ->]|
                    [[= -> ->]|[[= -> ->]|[[= -> ->]|[[= -> ->]|[[= -> ->]|[]]]]]]]]]]].
  - by apply input_node_keeps in Hrun.
  - by apply search_node_keeps in Hrun.
  - by apply extract_node_keeps in Hrun.
  - by apply author_prioritization_node_keeps in Hrun.
  - by apply verification_node_keeps in Hrun.
  - by apply synthesis_node_keeps in Hrun.
  - destruct (hitl_plan_review_logs state w) as (entry & He & Hname & _).
    rewrite He in Hrun. injection Hrun as <- <-.
    split_and!; [done..|]. right. by apply logged_once_append.
  - by apply refinement_node_keeps in Hrun.
  - destruct (hitl_fact_verification_logs state w) as (entry & He & Hname & _).
    rewrite He in Hrun. injection Hrun as <- <-.
    split_and!; [done..|]. right. by apply logged_once_append.
  - by apply final_brief_node_keeps in Hrun.
Qed.
End keeps.

(** ** Runs of the engine *)

Section runs.
Context `{Env}.

(** A step that is run and returns. *)
Lemma advance_loop_runs (fuel : nat) (thread_id : string) (resumed : bool)
    (trace : list string) (state state' : AgentState) (name : string)
    (step : AgentState → M AgentState) (next : option string)
    (store : gmap string Checkpoint) (w w' : World) :
  bool_decide (name ∈ interrupt_before compiled_graph) && negb resumed = false →
  g_nodes build_graph !! name = Some step →
  step state w = (Returned state', w') →
  next_node build_graph name state' = inr next →
  advance_loop (S fuel) compiled_graph thread_id resumed trace state (Some name) store w
  = advance_loop fuel compiled_graph thread_id false (trace ++ [name]) state' next
      (<[thread_id := {| ck_state := state'; pending_node := next |}]> store) w'.
Proof.
  intros Hgo Hstep Hrun Hnext. rewrite advance_loop_S, Hgo.
  change (graph compiled_graph) with build_graph. by rewrite Hstep, Hrun, Hnext.
Qed.

(** A step that is run and raises. *)
Lemma advance_loop_fails (fuel : nat) (thread_id : string) (resumed : bool)
    (trace : list string) (state : AgentState) (name : string)
    (step : AgentState → M AgentState) (e : exn)
    (store : gmap string Checkpoint) (w w' : World) :
  bool_decide (name ∈ interrupt_before compiled_graph) && negb resumed = false →
  g_nodes build_graph !! name = Some step →
  step state w = (Raised e, w') →
  advance_loop (S fuel) compiled_graph thread_id resumed trace state (Some name) store w
  = {| adv_result := inl (StepFailure name e); adv_trace := trace ++ [name];
       adv_store := store; adv_world := w' |}.
Proof.
  intros Hgo Hstep Hrun. rewrite advance_loop_S, Hgo.
  change (graph compiled_graph) with build_graph. by rewrite Hstep, Hrun.
Qed.

(** A run never touches the checkpoint of another thread. *)
Lemma advance_loop_other_thread (cg : CompiledGraph) (thread_id other : string) (fuel : nat) :
  other ≠ thread_id →
  ∀ (resumed : bool) (trace : list string) (state : AgentState) (current : option string)
    (store : gmap string Checkpoint) (w : World),
    adv_store (advance_loop fuel cg thread_id resumed trace state current store w) !! other
    = store !! other.
Proof.
  intros Hother. induction fuel as [|fuel IH]; intros resumed trace state current store w;
    [done|].
  destruct current as [name|]; [|done]. rewrite advance_loop_S.
  destruct (_ && _).
  { simpl. by rewrite lookup_insert_ne. }
  destruct (_ !! name) as [step|]; [|done].
  destruct (step state w) as [[state'|e] w']; [|done].
  destruct (next_node (graph cg) name state') as [err|next]; [done|].
  rewrite IH. by rewrite lookup_insert_ne.
Qed.

(** The checkpoint of the thread after a run: the pair the run returned if
    it returned one, and otherwise what was last persisted, which a step
    that raised leaves pending at that step. *)
Lemma advance_loop_checkpoint (cg : CompiledGraph) (thread_id : string) (fuel : nat) :
  ∀ (resumed : bool) (trace : list string) (state : AgentState) (current : option string)
    (store : gmap string Checkpoint) (w : World),
    store !! thread_id = Some {| ck_state := state; pending_node := current |} →
    match adv_result (advance_loop fuel cg thread_id resumed trace state current store w) with
    | inr (next, state') =>
      adv_store (advance_loop fuel cg thread_id resumed trace state current store w)
        !! thread_id
      = Some {| ck_state := state'; pending_node := next |}
    | inl err =>
      ∃ state' pending,
        adv_store (advance_loop fuel cg thread_id resumed trace state current store w)
          !! thread_id
        = Some {| ck_state := state'; pending_node := pending |}
        ∧ ∀ name e, err = StepFailure name e → pending = Some name
    end.
Proof.
  induction fuel as [|fuel IH]; intros resumed trace state current store w Hck.
  { simpl. exists state, current. split; [done|]. intros name e. discriminate. }
  destruct current as [name|]; [|done]. rewrite advance_loop_S.
  destruct (_ && _).
  { simpl. by rewrite lookup_insert_eq. }
  destruct (_ !! name) as [step|].
  2:{ simpl. exists state, (Some name). split; [done|]. intros name' e. discriminate. }
  destruct (step state w) as [[state'|e] w'].
  2:{ simpl. exists state, (Some name). split; [done|]. intros name' e' Heq. congruence. }
  destruct (next_node (graph cg) name state') as [err|next] eqn:Hnext.
  { simpl. exists state, (Some name). split; [done|].
    intros name' e' ->. unfold next_node in Hnext. repeat case_match; discriminate. }
  apply IH. by rewrite lookup_insert_eq.
Qed.

(** Between the start of a run and the state it returns: the topic and the
    messages are the same, and the log has grown by entries whose names are,
    in order, among the nodes the run executed. *)
Lemma advance_loop_keeps (thread_id : string) (fuel : nat) :
  ∀ (resumed : bool) (trace : list string) (state : AgentState) (current : option string)
    (store : gmap string Checkpoint) (w : World) (next : option string) (state' : AgentState),
    adv_result (advance_loop fuel compiled_graph thread_id resumed trace state current store w)
    = inr (next, state') →
    topic state' = topic state
    ∧ messages state' = messages state
    ∧ ∃ new rest,
        adv_trace (advance_loop fuel compiled_graph thread_id resumed trace state current
                     store w) = trace ++ rest
        ∧ node_logs state' = node_logs state ++ new
        ∧ sublist (node <$> new) rest.
Proof.
  induction fuel as [|fuel IH]; intros resumed trace state current store w next state';
    [done|].
  destruct current as [name|].
  2:{ simpl. intros [= <- <-]. split_and!; [done..|]. exists [], [].
      by rewrite !app_nil_r. }
  rewrite advance_loop_S. destruct (_ && _).
  { simpl. intros [= <- <-]. split_and!; [done..|]. exists [], [].
    by rewrite !app_nil_r. }
  change (graph compiled_graph) with build_graph.
  destruct (_ !! name) as [step|] eqn:Hstep; [|done].
  destruct (step state w) as [[state1|e] w1] eqn:Hrun; [|done].
  destruct (next_node build_graph name state1) as [err|next1]; [done|].
  intros Hres. apply IH in Hres as (Htopic & Hmsg & new & rest & Htrace & Hlogs & Hsub).
  destruct (graph_step_keeps name step state state1 w w1 Hstep Hrun)
    as (Htopic1 & Hmsg1 & Hlog1).
  split_and!; [congruence..|].
  rewrite <- app_assoc in Htrace. simpl in Htrace.
  destruct Hlog1 as [Hsame|(entry & Hone & Hname)].
  - exists new, (name :: rest). split_and!; [done|congruence|by apply sublist_cons].
  - exists (entry :: new), (name :: rest). split_and!; [done| |].
    + rewrite Hlogs, Hone, <- app_assoc. done.
    + rewrite fmap_cons, Hname. by apply sublist_skip.
Qed.
End runs.

(** X16.  Over a whole run of the engine on this graph, started or resumed,
    the ten step functions never change the topic or the messages, and the
    log only grows: the state a run returns has the log it started from,
    followed by entries whose node names are, in order, among the nodes the
    run executed; so a node writes at most one entry per execution, and
    nothing is ever removed from the log or rewritten. *)
Theorem run_keeps_topic_and_log `{Env} (fuel : nat) (input : option AgentState)
    (thread_id : string) (store : gmap string Checkpoint) (w : World)
    (state0 state' : AgentState) (next : option string) :
  match input with
  | Some state => state = state0
  | None => ck_state <$> store !! thread_id = Some state0
  end →
  adv_result (invoke fuel compiled_graph input thread_id store w) = inr (next, state') →
  topic state' = topic state0
  ∧ messages state' = messages state0
  ∧ ∃ new,
      node_logs state' = node_logs state0 ++ new
      ∧ sublist (node <$> new) (adv_trace (invoke fuel compiled_graph input thread_id store w)).
Proof.
  unfold invoke. destruct input as [state|].
  - intros -> Hres.
    apply advance_loop_keeps in Hres as (Htopic & Hmsg & new & rest & Htrace & Hlogs & Hsub).
    split_and!; [done..|]. exists new. by rewrite Htrace.
  - destruct (store !! thread_id) as [ck|]; [|done]. intros [= <-] Hres.
    apply advance_loop_keeps in Hres as (Htopic & Hmsg & new & rest & Htrace & Hlogs & Hsub).
    split_and!; [done..|]. exists new. by rewrite Htrace.
Qed.

Lemma run_keeps_topic_and_log_witness :
  ∃ next state',
    adv_result (invoke (H := scripted) recursion_limit compiled_graph
                  (Some (initial_state {| req_topic := "graphs" |})) "t1" ∅ 0%nat)
    = inr (next, state')
    ∧ topic state' = "graphs".
Proof.
  destruct (adv_result (invoke (H := scripted) recursion_limit compiled_graph
                          (Some (initial_state {| req_topic := "graphs" |})) "t1" ∅ 0%nat))
    as [err|[next state']] eqn:Hres; [vm_compute in Hres; discriminate|].
  exists next, state'. split; [reflexivity|].
  destruct (run_keeps_topic_and_log (H := scripted) recursion_limit
              (Some (initial_state {| req_topic := "graphs" |})) "t1" ∅ 0%nat
              (initial_state {| req_topic := "graphs" |}) state' next eq_refl Hres)
    as (Htopic & _).
  exact Htopic.
Defined.

(** X17.  The endpoints that run the engine work on one thread: whatever
    [start_research] and [resume_research] answer, the checkpoint of every
    other thread in the store is what it was. *)
Theorem endpoints_isolate_threads `{Env} (other thread_id : string)
    (request : ResearchRequest) (feedback : FeedbackRequest)
    (store : gmap string Checkpoint) (w : World) :
  other ≠ (uuid4 w).1 →
  other ≠ thread_id →
  (start_research request store w).1.2 !! other = store !! other
  ∧ (resume_research thread_id feedback store w).1.2 !! other = store !! other.
Proof.
  intros Hnew Hother. split.
  - unfold start_research. destruct (uuid4 w) as [t w0]. simpl in Hnew. cbv zeta.
    assert (Hstore : adv_store (invoke recursion_limit compiled_graph
                                  (Some (initial_state request)) t store w0) !! other
                     = store !! other).
    { unfold invoke. rewrite advance_loop_other_thread by done.
      by rewrite lookup_insert_ne. }
    destruct (adv_result _) as [err|[next result]]; exact Hstore.
  - unfold resume_research, get_state.
    destruct (store !! thread_id) as [ck|] eqn:Hck; [|done]. cbn [values next]. cbv zeta.
    match goal with
    | |- context [update_state thread_id ?v store] =>
      rewrite (update_state_lookup thread_id v store ck Hck)
    end.
    match goal with
    | |- context [invoke ?f ?cg None thread_id ?st w] =>
      assert (Hstore : adv_store (invoke f cg None thread_id st w) !! other = store !! other)
    end.
    { unfold invoke. rewrite lookup_insert_eq.
      rewrite advance_loop_other_thread by done. by rewrite lookup_insert_ne. }
    destruct (adv_result _) as [err|[pending result]]; [exact Hstore|].
    destruct (adv_store _ !! thread_id) as [ck'|]; cbn [next]; [|exact Hstore].
    destruct (pending_node ck'); exact Hstore.
Qed.

Lemma endpoints_isolate_threads_witness :
  (start_research (H := scripted) {| req_topic := "trees" |}
     (parked_store (Some "plan_review")) 0%nat).1.2 !! "t1"
  = Some {| ck_state := parked_state; pending_node := Some "plan_review" |}
  ∧ (resume_research (H := scripted) "t2" {| decision := "approve"; notes := Some "" |}
       (parked_store (Some "plan_review")) 0%nat).1.2 !! "t1"
    = Some {| ck_state := parked_state; pending_node := Some "plan_review" |}.
Proof.
  destruct (endpoints_isolate_threads (H := scripted) "t1" "t2" {| req_topic := "trees" |}
              {| decision := "approve"; notes := Some "" |}
              (parked_store (Some "plan_review")) 0%nat) as [Hstart Hresume].
  - vm_compute. discriminate.
  - discriminate.
  - split.
    + rewrite Hstart. reflexivity.
    + rewrite Hresume. reflexivity.
Defined.

(** X18.  What [resume_research] answers is what the store then holds.
    After an answer with a body, [get_status] for the thread reports the same
    status, the same checkpoint and the same state; after a 404 nothing was
    written; and after a 500 the thread is still there, so a failed resume
    loses no session. *)
Theorem resume_then_status `{Env} (thread_id : string) (feedback : FeedbackRequest)
    (store : gmap string Checkpoint) (w : World) :
  let '(response, store', w') := resume_research thread_id feedback store w in
  match response with
  | Ok body =>
    get_status thread_id store' w'
    = (Ok {| r_thread_id := thread_id;
             r_status := r_status body;
             r_checkpoint := r_checkpoint body;
             r_final_brief := None;
             r_data := r_data body |}, store', w')
  | HTTPException code detail =>
    if bool_decide (store !! thread_id = None)
    then code = 404%nat ∧ store' = store ∧ w' = w
    else code = 500%nat ∧ ∃ body, get_status thread_id store' w' = (Ok body, store', w')
  end.
Proof.
  unfold resume_research, get_state.
  destruct (store !! thread_id) as [ck|] eqn:Hck; [|by rewrite bool_decide_eq_true_2].
  rewrite bool_decide_eq_false_2 by done. cbn [values next]. cbv zeta.
  match goal with
  | |- context [update_state thread_id ?v store] =>
    rewrite (update_state_lookup thread_id v store ck Hck); set (updated := v)
  end.
  unfold invoke. rewrite lookup_insert_eq. cbn [ck_state pending_node].
  match goal with
  | |- context [advance_loop ?f ?cg thread_id true [] updated (pending_node ck) ?st w] =>
    pose proof (advance_loop_checkpoint cg thread_id f true [] updated (pending_node ck) st w
                  (lookup_insert_eq _ _ _)) as Hafter;
    destruct (advance_loop f cg thread_id true [] updated (pending_node ck) st w)
      as [result trace store' w']
  end.
  cbn [adv_result adv_store adv_world] in *.
  destruct result as [err|[pending result]].
  - split; [done|]. destruct Hafter as (state' & pending & Hafter & _).
    eexists. unfold get_status. rewrite (get_state_lookup _ _ _ Hafter).
    cbn [values]. reflexivity.
  - rewrite Hafter. cbn [next pending_node].
    destruct pending as [name|]; cbv beta iota; cbn [r_status r_checkpoint r_data];
      unfold get_status; by rewrite (get_state_lookup _ _ _ Hafter).
Qed.

(** ** From the search to the plan review *)

Section pipeline.
Context `{Env}.

Lemma g_nodes_lookup :
  g_nodes build_graph !! "input" = Some input_node
  ∧ g_nodes build_graph !! "search" = Some search_node
  ∧ g_nodes build_graph !! "extract" = Some extract_node
  ∧ g_nodes build_graph !! "prioritize" = Some author_prioritization_node
  ∧ g_nodes build_graph !! "verify" = Some verification_node
  ∧ g_nodes build_graph !! "synthesize" = Some synthesis_node
  ∧ g_nodes build_graph !! "plan_review" = Some hitl_plan_review
  ∧ g_nodes build_graph !! "refine" = Some refinement_node
  ∧ g_nodes build_graph !! "fact_verification" = Some hitl_fact_verification
  ∧ g_nodes build_graph !! "final_brief" = Some final_brief_node.
Proof. split_and!; reflexivity. Qed.

Lemma next_node_edges (state : AgentState) :
  next_node build_graph "input" state = inr (Some "search")
  ∧ next_node build_graph "search" state = inr (Some "extract")
  ∧ next_node build_graph "extract" state = inr (Some "prioritize")
  ∧ next_node build_graph "prioritize" state = inr (Some "verify")
  ∧ next_node build_graph "verify" state = inr (Some "synthesize")
  ∧ next_node build_graph "synthesize" state = inr (Some "plan_review")
  ∧ next_node build_graph "final_brief" state = inr None.
Proof. split_and!; reflexivity. Qed.

Lemma runs_through (name : string) (resumed : bool) :
  name ∉ interrupt_before compiled_graph ∨ resumed = true →
  bool_decide (name ∈ interrupt_before compiled_graph) && negb resumed = false.
Proof.
  intros [Hname| ->]; [|by rewrite andb_false_r].
  by rewrite bool_decide_eq_false_2.
Qed.

(** The verify step on live claims returns live verified claims. *)
Lemma verification_node_live (state : AgentState) (w : World) :
  live state (take 12 (extracted_claims state)) →
  ∃ state' w',
    verification_node state w = (Returned state', w')
    ∧ live state' (verified_claims state').
Proof.
  intros Hlive. unfold verification_node. cbv zeta.
  destruct (verify_loop_frame _ [] state w Hlive)
    as (k & st' & w1 & Hloop & Hsub & Hshape & Hlen & _).
  rewrite bind_run, Hloop.
  match goal with
  | |- context [(log_node_execution ?n ?i ?o ?p ?mc ?hd ≫= λ entry, mret (append_log entry ?st)) _] =>
    destruct (log_and_return n i o p mc hd st w1) as (entry & He & _)
  end.
  rewrite He. do 2 eexists. split; [reflexivity|].
  unfold live in *. cbn [objects verified_claims append_log set_node_logs set_verified_claims app].
  rewrite Hlen. eapply Forall_forall. intros r Hr.
  eapply Forall_forall in Hlive; [exact Hlive|]. by eapply elem_of_sublist.
Qed.

(** From [extract] on, a run either fails in [extract_node] or stops before
    [plan_review] with a draft plan; which of the two is decided by the page
    texts of the first ten search results. *)
Lemma advance_from_extract (fuel : nat) (thread_id : string) (trace : list string)
    (state : AgentState) (store : gmap string Checkpoint) (w : World) :
  let run := advance_loop (5 + fuel) compiled_graph thread_id false trace state
               (Some "extract") store w in
  if forallb content_present (take 10 (raw_search_results state))
  then ∃ state',
         parked_before "plan_review" thread_id run state'
         ∧ adv_trace run = trace ++ ["extract"; "prioritize"; "verify"; "synthesize"]
         ∧ (4 ≤ length (draft_plan state') ≤ 7)%nat
  else adv_result run = inl (StepFailure "extract" TypeError)
       ∧ adv_store run = store ∧ adv_world run = w.
Proof.
  cbv zeta. change (5 + fuel)%nat with (S (S (S (S (S fuel))))).
  destruct g_nodes_lookup as (_ & _ & Hextract & Hprioritize & Hverify & Hsynthesize & _).
  assert (Hgo : ∀ name, name ≠ "plan_review" → name ≠ "fact_verification" →
                        bool_decide (name ∈ interrupt_before compiled_graph) && negb false
                        = false).
  { intros name Hplan Hfact. apply runs_through. left. rewrite interrupt_before_cases.
    tauto. }
  destruct (forallb content_present (take 10 (raw_search_results state))) eqn:Hcontent.
  - assert (Hrun3 : ∃ s3 w3, extract_node state w = (Returned s3, w3)).
    { destruct (raw_search_results state) as [|hit hits] eqn:Hraw.
      - unfold extract_node. rewrite Hraw, ret_run. eauto.
      - assert (Hne : raw_search_results state ≠ []) by by rewrite Hraw.
        pose proof (extract_node_run state w Hne) as Hcases.
        rewrite Hraw, Hcontent in Hcases.
        destruct Hcases as (new & entry & w3 & -> & _). eauto. }
    destruct Hrun3 as (s3 & w3 & Hrun3).
    pose proof (extract_node_wf _ _ _ _ Hrun3) as Hwf3.
    destruct (author_prioritization_node_wf s3 w3 Hwf3) as (s4 & w4 & Hrun4 & Hwf4 & _).
    destruct (verification_node_live s4 w4) as (s5 & w5 & Hrun5 & Hlive5).
    { destruct Hwf4 as [_ Hlive4]. by apply Forall_take. }
    destruct (synthesis_node_returns s5 w5) as (s6 & w6 & Hrun6).
    { by apply Forall_take. }
    destruct (synthesis_node_inv _ _ _ _ Hrun6) as (Hplan & _).
    destruct (next_node_edges s3) as (_ & _ & Hnext3 & _).
    destruct (next_node_edges s4) as (_ & _ & _ & Hnext4 & _).
    destruct (next_node_edges s5) as (_ & _ & _ & _ & Hnext5 & _).
    destruct (next_node_edges s6) as (_ & _ & _ & _ & _ & Hnext6 & _).
    rewrite (advance_loop_runs _ _ _ _ _ _ _ _ _ _ _ _
               (Hgo "extract" ltac:(discriminate) ltac:(discriminate)) Hextract Hrun3 Hnext3).
    rewrite (advance_loop_runs _ _ _ _ _ _ _ _ _ _ _ _
               (Hgo "prioritize" ltac:(discriminate) ltac:(discriminate)) Hprioritize Hrun4 Hnext4).
    rewrite (advance_loop_runs _ _ _ _ _ _ _ _ _ _ _ _
               (Hgo "verify" ltac:(discriminate) ltac:(discriminate)) Hverify Hrun5 Hnext5).
    rewrite (advance_loop_runs _ _ _ _ _ _ _ _ _ _ _ _
               (Hgo "synthesize" ltac:(discriminate) ltac:(discriminate)) Hsynthesize Hrun6 Hnext6).
    rewrite advance_loop_interrupts by (apply interrupt_before_cases; by left).
    exists s6. unfold parked_before. cbn [adv_result adv_store adv_trace].
    split_and!; [done|by rewrite lookup_insert_eq| |lia|lia].
    by rewrite <- !app_assoc.
  - assert (Hne : raw_search_results state ≠ []).
    { intros Hraw. by rewrite Hraw in Hcontent. }
    pose proof (extract_node_run state w Hne) as Hcases. rewrite Hcontent in Hcases.
    by rewrite (advance_loop_fails _ _ _ _ _ _ _ _ _ _ _
                  (Hgo "extract" ltac:(discriminate) ltac:(discriminate)) Hextract Hcases).
Qed.
End pipeline.

Section start.
Context `{Env}.

Lemma forallb_take {A} (f : A → bool) (n : nat) (l : list A) :
  forallb f l = true → forallb f (take n l) = true.
Proof.
  revert n. induction l as [|x l IH]; intros [|n]; simpl; try done.
  intros [Hx Hl]%andb_prop. rewrite Hx. by apply IH.
Qed.

Lemma search_loop_content (queries : list string) :
  (∀ q w0 hits w1, tavily_search q w0 = (Returned hits, w1) →
                   forallb content_present hits = true) →
  ∀ (results results' : list SearchResult) (w w' : World),
    for_each queries results (λ results query,
      try_except (hits ← tavily_search query; mret (results ++ hits))
                 (λ _, mret results)) w
    = (Returned results', w') →
    forallb content_present results = true →
    forallb content_present results' = true.
Proof.
  intros Hhits. induction queries as [|query queries IH]; intros results results' w w';
    cbn [for_each].
  - rewrite ret_run. by intros [= <- <-].
  - rewrite bind_run. unfold try_except at 1. rewrite bind_run.
    destruct (tavily_search query w) as [[hits|e] w1] eqn:Hq; rewrite ret_run;
      intros Hrest Hall; apply (IH _ _ _ _ Hrest); [|done].
    rewrite forallb_app, Hall. simpl. by eapply Hhits.
Qed.
Lemma g_entry_input : g_entry (graph compiled_graph) = Some "input".
Proof. reflexivity. Qed.
End start.

(** X19.  [start_research] has two answers.  Either the run went through
    input, search, extract, prioritize, verify and synthesize and stopped
    before [plan_review]: the answer is 200 with status "interrupted",
    checkpoint "plan_review", the request's topic and a draft plan of four to
    seven sections, and the store holds exactly that state for the new
    thread.  Or [extract_node] raised on a search result without page text:
    the answer is 500 with the text of a [TypeError], and the new thread is
    left in the store, pending at [extract].  The second answer is not
    possible when every hit Tavily returns carries page text. *)
Theorem start_research_outcome `{Env} (request : ResearchRequest)
    (store : gmap string Checkpoint) (w : World) :
  let '(response, store', w') := start_research request store w in
  match response with
  | Ok body =>
    r_thread_id body = (uuid4 w).1
    ∧ r_status body = "interrupted"
    ∧ r_checkpoint body = Some "plan_review"
    ∧ topic (r_data body) = req_topic request
    ∧ (4 ≤ length (draft_plan (r_data body)) ≤ 7)%nat
    ∧ store' !! (uuid4 w).1
      = Some {| ck_state := r_data body; pending_node := Some "plan_review" |}
  | HTTPException code detail =>
    code = 500%nat
    ∧ detail = str_exn TypeError
    ∧ pending_node <$> store' !! (uuid4 w).1 = Some (Some "extract")
    ∧ ¬ (∀ q w0 hits w1, tavily_search q w0 = (Returned hits, w1) →
                         forallb content_present hits = true)
  end.
Proof.
  unfold start_research. destruct (uuid4 w) as [thread_id w0]. cbn [fst]. cbv zeta.
  unfold invoke.
  change recursion_limit with (S (S (5 + 18))).
  rewrite g_entry_input.
  destruct g_nodes_lookup as (Hinput & Hsearch & _).
  destruct (input_node_run (initial_state request) w0) as (entry1 & Hrun1 & _).
  destruct (search_node_run
              (append_log entry1
                 (set_search_queries
                    [topic (initial_state request) +:+ " comprehensive guide";
                     topic (initial_state request) +:+ " tutorial explained";
                     topic (initial_state request) +:+ " applications examples";
                     topic (initial_state request) +:+ " latest developments 2024";
                     "how does " +:+ topic (initial_state request) +:+ " work"]
                    (initial_state request))) (now_isoformat w0).2)
    as (results & entry2 & w1 & Hloop & Hrun2 & _).
  assert (Hgo1 : bool_decide ("input" ∈ interrupt_before compiled_graph) && negb false = false).
  { apply runs_through. left. rewrite interrupt_before_cases. intros [?|?]; discriminate. }
  assert (Hgo2 : bool_decide ("search" ∈ interrupt_before compiled_graph) && negb false = false).
  { apply runs_through. left. rewrite interrupt_before_cases. intros [?|?]; discriminate. }
  rewrite (advance_loop_runs _ thread_id false [] _ _ "input" input_node (Some "search") _ _ _
             Hgo1 Hinput Hrun1 (proj1 (next_node_edges _))).
  rewrite (advance_loop_runs _ thread_id false _ _ _ "search" search_node (Some "extract") _ _ _
             Hgo2 Hsearch Hrun2 (proj1 (proj2 (next_node_edges _)))).
  match goal with
  | |- context [advance_loop (5 + 18) compiled_graph thread_id false ?tr ?st
                  (Some "extract") ?sto ?wo] =>
    pose proof (advance_from_extract 18 thread_id tr st sto wo) as Hleg;
    cbv zeta in Hleg;
    set (run := advance_loop (5 + 18) compiled_graph thread_id false tr st
                  (Some "extract") sto wo) in *
  end.
  cbn [raw_search_results append_log set_node_logs set_raw_search_results] in Hleg.
  destruct (forallb content_present (take 10 results)) eqn:Hcontent.
  - destruct Hleg as (state' & [Hres Hstore] & _ & Hplan).
    rewrite Hres.
    rewrite (get_state_lookup _ _ _ Hstore).
    cbn [next pending_node ck_state].
    cbn [r_thread_id r_status r_checkpoint r_data]. split_and!; [done..| |lia|lia|done].
    subst run. by apply advance_loop_keeps in Hres as (-> & _).
  - destruct Hleg as (Hres & Hstore & _). rewrite Hres, Hstore.
    cbn [fmap].
    split_and!; [done..|by rewrite lookup_insert_eq|].
    intros Hhits. apply (search_loop_content _ Hhits) in Hloop; [|done].
    by rewrite (forallb_take _ 10 _ Hloop) in Hcontent.
Qed.

(** ** Resuming a parked thread *)

Section resume.
Context `{Env}.

(** What the refine step leaves alone, and the route it writes. *)
Lemma refinement_node_frame (state state' : AgentState) (w w' : World) :
  refinement_node state w = (Returned state', w') →
  route_to state'
  = Some (PStr
      (if py_eq_str (default (PStr "") (default ∅ (human_feedback state) !! "decision"))
                    "more_sources" then "search"
       else if py_eq_str (default (PStr "") (default ∅ (human_feedback state) !! "decision"))
                         "rework" then "synthesize"
       else "fact_verification"))
  ∧ verified_claims state' = verified_claims state
  ∧ objects state' = objects state
  ∧ draft_plan state' = draft_plan state
  ∧ human_feedback state' = human_feedback state
  ∧ final_brief state' = final_brief state
  ∧ (py_eq_str (default (PStr "") (default ∅ (human_feedback state) !! "decision"))
               "more_sources" = false →
     py_eq_str (default (PStr "") (default ∅ (human_feedback state) !! "decision"))
               "rework" = false →
     draft_plan state ≠ [] → refined_plan state' ≠ []).
Proof.
  unfold refinement_node. cbv zeta. intros Hrun.
  apply bind_returned in Hrun as (notes & w1 & _ & Hrun).
  apply bind_returned in Hrun as (st1 & w2 & Hbody & Hrun).
  match type of Hrun with
  | (log_node_execution ?n ?i ?o ?p ?mc ?hd ≫= λ entry, mret (append_log entry ?st)) _ = _ =>
    destruct (log_and_return n i o p mc hd st w2) as (entry & He & _)
  end.
  rewrite He in Hrun. injection Hrun as <- <-.
  cbn [route_to verified_claims objects draft_plan human_feedback final_brief refined_plan
       append_log set_node_logs].
  set (d := default (PStr "") (default ∅ (human_feedback state) !! "decision")) in *.
  destruct (py_eq_str d "approve") eqn:Happrove.
  { apply py_eq_str_true in Happrove. rewrite Happrove.
    injection Hbody as <- <-. by vm_compute. }
  destruct (py_eq_str d "more_sources") eqn:Hmore.
  { injection Hbody as <- <-. by split_and!. }
  destruct (py_eq_str d "emphasize_topic") eqn:Hemph.
  { apply py_eq_str_true in Hemph. rewrite Hemph.
    apply bind_returned in Hbody as (st2 & w3 & Hplan & Hbody).
    injection Hbody as <- <-.
    destruct (negb _).
    - destruct (draft_plan state !! 0%nat); [|discriminate].
      injection Hplan as <- <-. by vm_compute.
    - injection Hplan as <- <-. by vm_compute. }
  destruct (py_eq_str d "rework") eqn:Hrework.
  { injection Hbody as <- <-. by split_and!. }
  injection Hbody as <- <-. by split_and!.
Qed.
End resume.

Section ignores.
Context `{Env}.

(** The two last steps do not read the feedback record. *)
Lemma hitl_fact_verification_ignores_feedback (state : AgentState) (w : World)
    (feedback : option (gmap string pyval)) :
  hitl_fact_verification (set_human_feedback feedback state) w
  = match hitl_fact_verification state w with
    | (Returned state', w') => (Returned (set_human_feedback feedback state'), w')
    | (Raised e, w') => (Raised e, w')
    end.
Proof.
  unfold hitl_fact_verification. cbv zeta. cbn [verified_claims set_human_feedback].
  rewrite !bind_run.
  destruct (log_node_execution _ _ _ _ _ _ w) as [[entry|e] w1]; [|done].
  by rewrite !ret_run.
Qed.

Lemma final_brief_node_ignores_feedback (state : AgentState) (w : World)
    (feedback : option (gmap string pyval)) :
  final_brief_node (set_human_feedback feedback state) w
  = match final_brief_node state w with
    | (Returned state', w') => (Returned (set_human_feedback feedback state'), w')
    | (Raised e, w') => (Raised e, w')
    end.
Proof.
  unfold final_brief_node.
  cbn [verified_claims refined_plan draft_plan topic node_logs raw_search_results
       extracted_claims set_human_feedback].
  change (deref (set_human_feedback feedback state)) with (deref state).
  rewrite !bind_run.
  destruct (list_comp (deref state) (verified_claims state) w) as [[claims|e] w1]; [|done].
  cbv zeta. rewrite !bind_run.
  destruct (try_except _ _ w1) as [[content|e] w2]; [|done].
  rewrite !bind_run.
  destruct (for_each claims _ _ w2) as [[[seen bib]|e] w3]; [|done].
  rewrite !bind_run.
  destruct content as [dc|]; [|done]. rewrite !ret_run, !bind_run.
  unfold lift_total. destruct (now_long w3) as [date w4].
  rewrite !bind_run.
  destruct (log_node_execution _ _ _ _ _ _ w4) as [[entry|e] w5]; [|done].
  by rewrite !ret_run.
Qed.
End ignores.

(** X20.  A thread parked before [plan_review] that is resumed with notes
    that are a string and a decision other than ["approve"] and
    ["more_sources"] is answered 200 with status "interrupted", and the store
    then holds the state and the checkpoint of the answer.  With ["rework"]
    the thread is parked before [plan_review] again, with a draft plan of
    four to seven sections.  With any other word (["emphasize_topic"], a
    rejection, a misspelling) it is parked before [fact_verification]: the
    draft plan is as it was and a refined plan is set, so a decision the code
    does not know moves the thread forward as an approval would. *)
Theorem resume_plan_review_decisions `{Env} (thread_id : string) (state : AgentState)
    (feedback : FeedbackRequest) (s : string) (store : gmap string Checkpoint) (w : World) :
  store !! thread_id = Some {| ck_state := state; pending_node := Some "plan_review" |} →
  notes feedback = Some s →
  draft_plan state ≠ [] →
  live state (take 15 (verified_claims state)) →
  decision feedback ≠ "approve" →
  decision feedback ≠ "more_sources" →
  ∃ body store' w',
    resume_research thread_id feedback store w = (Ok body, store', w')
    ∧ r_status body = "interrupted"
    ∧ store' !! thread_id
      = Some {| ck_state := r_data body; pending_node := r_checkpoint body |}
    ∧ if bool_decide (decision feedback = "rework")
      then r_checkpoint body = Some "plan_review"
           ∧ (4 ≤ length (draft_plan (r_data body)) ≤ 7)%nat
      else r_checkpoint body = Some "fact_verification"
           ∧ draft_plan (r_data body) = draft_plan state
           ∧ refined_plan (r_data body) ≠ [].
Proof.
  intros Hck Hnotes Hplan Hlive Happrove Hmore.
  set (updated := set_human_feedback (Some (feedback_record feedback "plan_review")) state).
  destruct g_nodes_lookup
    as (_ & _ & _ & _ & _ & Hsynthesize & Hreview & Hrefine & _).
  (* plan_review runs first *)
  destruct (hitl_plan_review_logs updated w) as (entry1 & Hrun1 & _).
  set (state1 := append_log entry1 updated) in *.
  assert (Hnext1 : next_node build_graph "plan_review" state1 = inr (Some "refine")).
  { rewrite next_node_plan_review. rewrite bool_decide_eq_false_2; [done|].
    unfold decision_field, state1, updated, feedback_record. cbn.
    rewrite lookup_insert_eq. congruence. }
  (* then refine, on the feedback just written *)
  assert (Hfb : human_feedback state1 = Some (feedback_record feedback "plan_review"))
    by reflexivity.
  destruct (refinement_node_returns state1 (now_isoformat w).2 _ Hfb) as (state2 & w2 & Hrun2).
  { right. exists s. unfold feedback_record.
    rewrite lookup_insert_ne by done. rewrite lookup_insert_eq. by rewrite Hnotes. }
  { done. }
  destruct (refinement_node_frame _ _ _ _ Hrun2)
    as (Hroute & Hverified & Hobjects & Hdraft & _ & _ & Hrefined).
  rewrite Hfb in Hroute, Hrefined. unfold feedback_record, default in Hroute, Hrefined.
  cbn [from_option id] in Hroute, Hrefined.
  rewrite lookup_insert_eq in Hroute, Hrefined.
  cbn [from_option id py_eq_str] in Hroute, Hrefined.
  rewrite (bool_decide_eq_false_2 _ Hmore) in Hroute, Hrefined.
  destruct (refinement_node_then_route _ _ _ _ Hrun2) as (r & _ & Hrouter & Hnext2).
  unfold route_after_refine in Hrouter. rewrite Hroute in Hrouter.
  unfold default in Hrouter. cbn [from_option id] in Hrouter.
  injection Hrouter as <-.
  assert (Hgo1 : bool_decide ("plan_review" ∈ interrupt_before compiled_graph) && negb true
                 = false) by (apply runs_through; by right).
  assert (Hgo2 : bool_decide ("refine" ∈ interrupt_before compiled_graph) && negb false
                 = false).
  { apply runs_through. left. rewrite interrupt_before_cases. intros [?|?]; discriminate. }
  unfold resume_research. rewrite (get_state_lookup _ _ _ Hck).
  cbn [values next ck_state pending_node]. cbv zeta.
  change (set_human_feedback _ state) with updated.
  rewrite (update_state_lookup _ _ _ _ Hck). cbn [pending_node].
  unfold invoke. rewrite lookup_insert_eq. cbn [ck_state pending_node].
  change recursion_limit with (S (S (S (S 21)))).
  rewrite (advance_loop_runs _ thread_id true [] updated state1 "plan_review" hitl_plan_review
             (Some "refine") _ w _ Hgo1 Hreview Hrun1 Hnext1).
  rewrite (advance_loop_runs _ thread_id false _ state1 state2 "refine" refinement_node
             _ _ _ _ Hgo2 Hrefine Hrun2 Hnext2).
  destruct (decide (decision feedback = "rework")) as [Hrework|Hrework].
  - (* rework: back through synthesize to the plan review *)
    rewrite !(bool_decide_eq_true_2 (decision feedback = "rework") Hrework).
    destruct (synthesis_node_returns state2 w2) as (state3 & w3 & Hrun3).
    { unfold live. by rewrite Hverified, Hobjects. }
    destruct (synthesis_node_inv _ _ _ _ Hrun3) as (Hsize & _).
    assert (Hgo3 : bool_decide ("synthesize" ∈ interrupt_before compiled_graph) && negb false
                   = false).
    { apply runs_through. left. rewrite interrupt_before_cases. intros [?|?]; discriminate. }
    rewrite (advance_loop_runs _ thread_id false _ state2 state3 "synthesize" synthesis_node
               (Some "plan_review") _ _ _ Hgo3 Hsynthesize Hrun3
               (proj1 (proj2 (proj2 (proj2 (proj2 (proj2 (next_node_edges _)))))))).
    rewrite advance_loop_interrupts by (apply interrupt_before_cases; by left).
    cbn [adv_result adv_store adv_world].
    unfold get_state. rewrite lookup_insert_eq. cbn [next pending_node].
    do 3 eexists. split; [reflexivity|]. cbn [r_status r_checkpoint r_data].
    split_and!; [done|by rewrite lookup_insert_eq|done|lia|lia].
  - (* any other word: on to the fact verification *)
    rewrite !(bool_decide_eq_false_2 (decision feedback = "rework") Hrework).
    rewrite advance_loop_interrupts by (apply interrupt_before_cases; by right).
    cbn [adv_result adv_store adv_world].
    unfold get_state. rewrite lookup_insert_eq. cbn [next pending_node].
    do 3 eexists. split; [reflexivity|]. cbn [r_status r_checkpoint r_data].
    split_and!; [done|by rewrite lookup_insert_eq|done|by rewrite Hdraft|].
    apply Hrefined; [done|by rewrite bool_decide_eq_false_2|done].
Qed.

Lemma resume_plan_review_decisions_witness :
  ∃ body store' w',
    resume_research (H := scripted) "t1" {| decision := "reject"; notes := Some "" |}
      (parked_store (Some "plan_review")) 0%nat
    = (Ok body, store', w')
    ∧ r_checkpoint body = Some "fact_verification".
Proof.
  destruct (resume_plan_review_decisions (H := scripted) "t1" parked_state
              {| decision := "reject"; notes := Some "" |} ""
              (parked_store (Some "plan_review")) 0%nat)
    as (body & store' & w' & Hresume & _ & _ & Hcases);
    [reflexivity|reflexivity|discriminate|by apply Forall_nil|discriminate|discriminate|].
  exists body, store', w'. split; [exact Hresume|].
  cbn [decision] in Hcases. rewrite bool_decide_eq_false_2 in Hcases by discriminate.
  exact (proj1 Hcases).
Defined.

(** X21.  At the second checkpoint the decision is not read.  A thread
    parked before [fact_verification] that is resumed runs
    [fact_verification] and [final_brief] whatever the feedback says: if
    [final_brief_node] returns, the answer is 200 with status "completed" and
    the brief, and the thread has no pending node; if it raises, the answer
    is 500 and the thread is left pending at [final_brief].  The log entry,
    the brief, the status and the world are the same for every decision and
    every notes; the feedback only appears as the record stored in the
    state. *)
Theorem resume_fact_verification_ignores_decision `{Env} (thread_id : string)
    (state : AgentState) (store : gmap string Checkpoint) (w : World) :
  store !! thread_id
  = Some {| ck_state := state; pending_node := Some "fact_verification" |} →
  ∃ entry,
    node entry = "fact_verification"
    ∧ ∀ feedback : FeedbackRequest,
        let record := Some (feedback_record feedback "fact_verification") in
        resume_research thread_id feedback store w
        = match final_brief_node (append_log entry state) (now_isoformat w).2 with
          | (Returned state', w') =>
            (Ok {| r_thread_id := thread_id;
                   r_status := "completed";
                   r_checkpoint := None;
                   r_final_brief := final_brief state';
                   r_data := set_human_feedback record state' |},
             <[thread_id := {| ck_state := set_human_feedback record state';
                               pending_node := None |}]> store,
             w')
          | (Raised e, w') =>
            (HTTPException 500 (str_exn e),
             <[thread_id := {| ck_state := set_human_feedback record (append_log entry state);
                               pending_node := Some "final_brief" |}]> store,
             w')
          end.
Proof.
  intros Hck.
  destruct (hitl_fact_verification_logs state w) as (entry & Hrun1 & Hname & _).
  exists entry. split; [done|]. intros feedback record.
  set (updated := set_human_feedback record state).
  set (state1 := append_log entry state) in *.
  destruct g_nodes_lookup as (_ & _ & _ & _ & _ & _ & _ & _ & Hfact & Hbrief).
  assert (Hrun1' : hitl_fact_verification updated w
                   = (Returned (set_human_feedback record state1), (now_isoformat w).2)).
  { unfold updated. by rewrite hitl_fact_verification_ignores_feedback, Hrun1. }
  assert (Hgo1 : bool_decide ("fact_verification" ∈ interrupt_before compiled_graph)
                 && negb true = false) by (apply runs_through; by right).
  assert (Hgo2 : bool_decide ("final_brief" ∈ interrupt_before compiled_graph)
                 && negb false = false).
  { apply runs_through. left. rewrite interrupt_before_cases. intros [?|?]; discriminate. }
  unfold resume_research. rewrite (get_state_lookup _ _ _ Hck).
  cbn [values next ck_state pending_node]. cbv zeta.
  change (set_human_feedback _ state) with updated.
  rewrite (update_state_lookup _ _ _ _ Hck). cbn [pending_node].
  unfold invoke. rewrite lookup_insert_eq. cbn [ck_state pending_node].
  change recursion_limit with (S (S (S 22))).
  rewrite (advance_loop_runs _ thread_id true [] updated _ "fact_verification"
             hitl_fact_verification (Some "final_brief") _ w _ Hgo1 Hfact Hrun1'
             (next_node_fact_verification _)).
  pose proof (final_brief_node_ignores_feedback state1 (now_isoformat w).2 record) as Hrun2.
  destruct (final_brief_node state1 (now_isoformat w).2) as [[state'|e] w'].
  - rewrite (advance_loop_runs _ thread_id false _ _ _ "final_brief" final_brief_node None
               _ _ _ Hgo2 Hbrief Hrun2
               (proj2 (proj2 (proj2 (proj2 (proj2 (proj2 (next_node_edges _)))))))).
    cbn [advance_loop adv_result adv_store adv_world].
    unfold get_state. rewrite lookup_insert_eq. cbn [next pending_node].
    by rewrite !insert_insert_eq.
  - rewrite (advance_loop_fails _ thread_id false _ _ "final_brief" final_brief_node e
               _ _ _ Hgo2 Hbrief Hrun2).
    cbn [adv_result adv_store adv_world str_engine_error].
    by rewrite !insert_insert_eq.
Qed.

Lemma resume_fact_verification_ignores_decision_witness :
  ∃ body store' w',
    resume_research (H := scripted) "t1" {| decision := "reject"; notes := None |}
      (parked_store (Some "fact_verification")) 0%nat
    = (Ok body, store', w')
    ∧ r_status body = "completed".
Proof.
  destruct (resume_fact_verification_ignores_decision (H := scripted) "t1" parked_state
              (parked_store (Some "fact_verification")) 0%nat eq_refl)
    as (entry & _ & Hall).
  specialize (Hall {| decision := "reject"; notes := None |}). cbv zeta in Hall.
  destruct (final_brief_node (H := scripted) (append_log entry parked_state)
              (now_isoformat (Env := scripted) 0%nat).2)
    as [[state'|e] w'] eqn:Hbrief; [|vm_compute in Hbrief; discriminate].
  do 3 eexists. split; [exact Hall|reflexivity].
Defined.

(** X22.  A thread parked before [plan_review] that is resumed with
    ["more_sources"] and notes that are a string goes round the research
    loop: plan_review, refine, search, extract, and on to a new plan.  The
    answer is either 200, interrupted before [plan_review] again with the
    same topic and a draft plan of four to seven sections, the store holding
    that state; or 500 with the text of a [TypeError], when a new search
    result came without page text, and then the thread is left pending at
    [extract], no longer at a review checkpoint. *)
Theorem resume_more_sources `{Env} (thread_id : string) (state : AgentState)
    (feedback : FeedbackRequest) (s : string) (store : gmap string Checkpoint) (w : World) :
  store !! thread_id = Some {| ck_state := state; pending_node := Some "plan_review" |} →
  decision feedback = "more_sources" →
  notes feedback = Some s →
  draft_plan state ≠ [] →
  let '(response, store', w') := resume_research thread_id feedback store w in
  match response with
  | Ok body =>
    r_status body = "interrupted"
    ∧ r_checkpoint body = Some "plan_review"
    ∧ topic (r_data body) = topic state
    ∧ (4 ≤ length (draft_plan (r_data body)) ≤ 7)%nat
    ∧ store' !! thread_id
      = Some {| ck_state := r_data body; pending_node := Some "plan_review" |}
  | HTTPException code detail =>
    code = 500%nat
    ∧ detail = str_exn TypeError
    ∧ pending_node <$> store' !! thread_id = Some (Some "extract")
  end.
Proof.
  intros Hck Hmore Hnotes Hplan.
  set (updated := set_human_feedback (Some (feedback_record feedback "plan_review")) state).
  destruct g_nodes_lookup as (_ & Hsearch & _ & _ & _ & _ & Hreview & Hrefine & _).
  destruct (hitl_plan_review_logs updated w) as (entry1 & Hrun1 & _).
  set (state1 := append_log entry1 updated) in *.
  assert (Hnext1 : next_node build_graph "plan_review" state1 = inr (Some "refine")).
  { rewrite next_node_plan_review. rewrite bool_decide_eq_false_2; [done|].
    unfold decision_field, state1, updated, feedback_record. cbn.
    rewrite lookup_insert_eq, Hmore. discriminate. }
  assert (Hfb : human_feedback state1 = Some (feedback_record feedback "plan_review"))
    by reflexivity.
  destruct (refinement_node_returns state1 (now_isoformat w).2 _ Hfb) as (state2 & w2 & Hrun2).
  { right. exists s. unfold feedback_record.
    rewrite lookup_insert_ne by done. rewrite lookup_insert_eq. by rewrite Hnotes. }
  { done. }
  destruct (refinement_node_frame _ _ _ _ Hrun2) as (Hroute & _).
  rewrite Hfb in Hroute. unfold feedback_record, default in Hroute.
  cbn [from_option id] in Hroute. rewrite lookup_insert_eq, Hmore in Hroute.
  cbn [from_option id py_eq_str] in Hroute.
  rewrite bool_decide_eq_true_2 in Hroute by done.
  destruct (refinement_node_then_route _ _ _ _ Hrun2) as (r & _ & Hrouter & Hnext2).
  unfold route_after_refine in Hrouter. rewrite Hroute in Hrouter.
  unfold default in Hrouter. cbn [from_option id] in Hrouter. injection Hrouter as <-.
  destruct (search_node_run state2 w2) as (results & entry3 & w3 & _ & Hrun3 & _).
  assert (Hgo1 : bool_decide ("plan_review" ∈ interrupt_before compiled_graph) && negb true
                 = false) by (apply runs_through; by right).
  assert (Hgo2 : bool_decide ("refine" ∈ interrupt_before compiled_graph) && negb false
                 = false).
  { apply runs_through. left. rewrite interrupt_before_cases. intros [?|?]; discriminate. }
  assert (Hgo3 : bool_decide ("search" ∈ interrupt_before compiled_graph) && negb false
                 = false).
  { apply runs_through. left. rewrite interrupt_before_cases. intros [?|?]; discriminate. }
  unfold resume_research. rewrite (get_state_lookup _ _ _ Hck).
  cbn [values next ck_state pending_node]. cbv zeta.
  change (set_human_feedback _ state) with updated.
  rewrite (update_state_lookup _ _ _ _ Hck). cbn [pending_node].
  unfold invoke. rewrite lookup_insert_eq. cbn [ck_state pending_node].
  change recursion_limit with (S (S (S (5 + 17)))).
  rewrite (advance_loop_runs _ thread_id true [] updated state1 "plan_review" hitl_plan_review
             (Some "refine") _ w _ Hgo1 Hreview Hrun1 Hnext1).
  rewrite (advance_loop_runs _ thread_id false _ state1 state2 "refine" refinement_node
             _ _ _ _ Hgo2 Hrefine Hrun2 Hnext2).
  rewrite (advance_loop_runs _ thread_id false _ state2 _ "search" search_node
             (Some "extract") _ _ _ Hgo3 Hsearch Hrun3 (proj1 (proj2 (next_node_edges _)))).
  match goal with
  | |- context [advance_loop (5 + 17) compiled_graph thread_id false ?tr ?st
                  (Some "extract") ?sto ?wo] =>
    pose proof (advance_from_extract 17 thread_id tr st sto wo) as Hleg;
    cbv zeta in Hleg;
    set (run := advance_loop (5 + 17) compiled_graph thread_id false tr st
                  (Some "extract") sto wo) in *
  end.
  destruct (forallb content_present _).
  - destruct Hleg as (state' & [Hres Hstore] & _ & Hsize).
    rewrite Hres. rewrite (get_state_lookup _ _ _ Hstore).
    cbn [next pending_node ck_state r_status r_checkpoint r_data].
    split_and!; [done|done| |lia|lia|done].
    subst run. apply advance_loop_keeps in Hres as (-> & _).
    cbn [topic append_log set_node_logs set_raw_search_results].
    apply refinement_node_keeps in Hrun2 as (-> & _). done.
  - destruct Hleg as (Hres & Hstore & _). rewrite Hres, Hstore. cbn [fmap].
    split_and!; [done..|by rewrite lookup_insert_eq].
Qed.

Lemma resume_more_sources_witness :
  ∃ body store' w',
    resume_research (H := scripted) "t1"
      {| decision := "more_sources"; notes := Some "history" |}
      (parked_store (Some "plan_review")) 0%nat
    = (Ok body, store', w')
    ∧ r_checkpoint body = Some "plan_review".
Proof.
  pose proof (resume_more_sources (H := scripted) "t1" parked_state
                {| decision := "more_sources"; notes := Some "history" |} "history"
                (parked_store (Some "plan_review")) 0%nat
                eq_refl eq_refl eq_refl ltac:(discriminate)) as Hloop.
  destruct (resume_research (H := scripted) "t1"
              {| decision := "more_sources"; notes := Some "history" |}
              (parked_store (Some "plan_review")) 0%nat)
    as [[[body|code detail] store'] w'] eqn:Hresume;
    [|vm_compute in Hresume; discriminate].
  exists body, store', w'. split; [reflexivity|]. exact (proj1 (proj2 Hloop)).
Defined.

(** ** The prompt templates *)


(** ** The declared graph *)

(** X24.  The graph [build_graph] declares is closed: from every registered
    node and every state, the node the edges name next is itself a registered
    node, the run ends only after [final_brief], and the one way to have no
    next node is in [refine], when [route_to] holds something that is not one
    of the three declared targets. *)
Theorem build_graph_closed `{Env} (name : string) (state : AgentState) :
  is_Some (g_nodes build_graph !! name) →
  match next_node build_graph name state with
  | inr (Some next) => is_Some (g_nodes build_graph !! next)
  | inr None => name = "final_brief"
  | inl err =>
    name = "refine" ∧ err = RoutingError
    ∧ ∀ r, route_to state = Some (PStr r) → r ∉ legal_routes
  end.
Proof.
  intros [step Hstep]. apply g_nodes_cases in Hstep.
  destruct g_nodes_lookup
    as (Hinput & Hsearch & Hextract & Hprioritize & Hverify & Hsynthesize & Hreview
        & Hrefine & Hfact & Hbrief).
  destruct (next_node_edges state) as (Hn1 & Hn2 & Hn3 & Hn4 & Hn5 & Hn6 & Hn7).
  rewrite !elem_of_cons, elem_of_nil in Hstep.
  destruct Hstep as [[= -> ->]|[[= -> ->]|[[= -> ->]|[[= -> ->]|[[= -> ->]|
                    [[= -> ->]|[[= -> ->]|[[= -> ->]|[[= -> ->]|[[= -> ->]|[]]]]]]]]]]].
  - by rewrite Hn1.
  - by rewrite Hn2.
  - by rewrite Hn3.
  - by rewrite Hn4.
  - by rewrite Hn5.
  - by rewrite Hn6.
  - rewrite next_node_plan_review. by case_bool_decide.
  - rewrite next_node_refine. unfold route_after_refine.
    destruct (route_to state) as [[|b|z|r|l]|]; cbn [default from_option id];
      try (split_and!; [done..|]; intros r' [=]).
    + case_bool_decide as Hr.
      * unfold legal_routes in Hr. rewrite !elem_of_cons, elem_of_nil in Hr.
        destruct Hr as [->|[->|[->|[]]]]; done.
      * split_and!; [done..|]. by intros r' [= <-].
    + by rewrite bool_decide_eq_true_2 by (unfold legal_routes; set_solver).
  - by rewrite next_node_fact_verification.
  - by rewrite Hn7.
Qed.

Lemma build_graph_closed_witness :
  is_Some (g_nodes (H := scripted) build_graph !! "fact_verification").
Proof.
  exact (build_graph_closed (H := scripted) "refine" parked_state
           (ex_intro _ refinement_node eq_refl)).
Defined.
